(** * GraphAI front-end: streamed generation, typewriter rendering,
      confirmation-gated deletes and retrieval plumbing

    A shallow embedding of the client-side logic of the GraphAI Vue
    front-end:

    - [SSE]: the reader loop of [step7LLMGenerateStream]
      (frontend/src/api/intelligentChat.js, lines 217-308);
    - [LLMGenerateTab]: the callbacks and the typewriter of [handleExecute]
      in the LLM-generate tab, [convertV4ResultsToLLMFormat] and the
      smart-retrieval request it builds;
    - [LLMGenerateLoop]: the same tab on the event loop: the turns of
      [handleExecute], of the streams it starts and of [handleClear];
    - [ChatView]: the callbacks of [handleSendMessage] (conversation mode);
    - [Eff]: promises, toasts, console writes and [Modal.confirm] as an
      explicit trace of effects driven by scripted backend answers and user
      choices;
    - [GraphitiTab], [CogneeTab], [KnowledgeBaseView], [SmartRetrievalTab]:
      the handlers that build, delete and query.

    JavaScript strings are sequences of UTF-16 code units, numbers are
    modelled as rationals (no NaN, no rounding), objects that come from the
    backend are JSON values. *)

From Stdlib Require Import String Ascii DecimalString.
From Stdlib Require Import List NArith ZArith QArith Qround Bool Lia Lqa.
From Stdlib Require Import Sorted Permutation.
From Stdlib Require Strings.Byte.
Import ListNotations.
Close Scope Q_scope.

Set Implicit Arguments.
Set Warnings "-register-all,-notation-for-abbreviation".

(** ** JavaScript values *)

Module JS.

Definition code_unit := N.
Definition jsstring := list code_unit.

(** A source literal, read as ASCII. *)
Definition lit (s : string) : jsstring :=
  map N_of_ascii (list_ascii_of_string s).

Definition LF : code_unit := 10%N.

Fixpoint str_eqb (a b : jsstring) : bool :=
  match a, b with
  | [], [] => true
  | x :: a', y :: b' => N.eqb x y && str_eqb a' b'
  | _, _ => false
  end.

(** [String.prototype.startsWith]. *)
Fixpoint startsWith (p s : jsstring) : bool :=
  match p with
  | [] => true
  | x :: p' =>
      match s with
      | [] => false
      | y :: s' => N.eqb x y && startsWith p' s'
      end
  end.

(** [s.slice(n)] for [0 <= n]. *)
Definition slice_from (n : nat) (s : jsstring) : jsstring := skipn n s.

(** [s.substring(0, n)] for [0 <= n]. *)
Definition substring0 (n : nat) (s : jsstring) : jsstring := firstn n s.

(** Values produced by [JSON.parse] (and received from the backend). *)
Inductive json : Type :=
| JNull
| JBool (b : bool)
| JNum (q : Q)
| JStr (s : jsstring)
| JArr (items : list json)
| JObj (fields : list (jsstring * json)).

(** Property read [v.k]; [None] is [undefined].  A later binding of the
    same key shadows an earlier one, as in [JSON.parse].  Reading a
    property of [null] throws and is handled where it is done. *)
Fixpoint lookup (k : jsstring) (fields : list (jsstring * json)) : option json :=
  match fields with
  | [] => None
  | (k', v) :: rest =>
      match lookup k rest with
      | Some v' => Some v'
      | None => if str_eqb k k' then Some v else None
      end
  end.

Definition get (k : string) (v : json) : option json :=
  match v with
  | JObj fields => lookup (lit k) fields
  | _ => None
  end.

(** ToBoolean. *)
Definition truthy (v : json) : bool :=
  match v with
  | JNull => false
  | JBool b => b
  | JNum q => negb (Qeq_bool q 0)
  | JStr s => match s with [] => false | _ => true end
  | JArr _ => true
  | JObj _ => true
  end.

Definition truthy_opt (o : option json) : bool :=
  match o with
  | Some v => truthy v
  | None => false
  end.

(** [v === true] and [v === false]. *)
Definition is_true (o : option json) : bool :=
  match o with Some (JBool true) => true | _ => false end.

Definition is_false (o : option json) : bool :=
  match o with Some (JBool false) => true | _ => false end.

(** An [Error] or a rejected axios call as the handlers read it:
    [err.message] and [err.response?.data?.detail] (empty when absent or
    falsy). *)
Record js_error : Type := mkError {
  message : jsstring;
  detail : jsstring
}.

(** [a || b] on strings. *)
Definition or_else (a b : jsstring) : jsstring :=
  match a with [] => b | _ => a end.

(** [a || b] on values. *)
Definition or_value (a b : json) : json :=
  if truthy a then a else b.

(** White space and line terminators, as [String.prototype.trim] sees
    them. *)
Definition is_whitespace (c : code_unit) : bool :=
  existsb (N.eqb c)
          [9; 10; 11; 12; 13; 32; 160; 5760; 8192; 8193; 8194; 8195; 8196;
           8197; 8198; 8199; 8200; 8201; 8202; 8232; 8233; 8239; 8287;
           12288; 65279]%N.

Fixpoint trim_start (s : jsstring) : jsstring :=
  match s with
  | [] => []
  | c :: s' => if is_whitespace c then trim_start s' else s
  end.

Definition trim (s : jsstring) : jsstring :=
  rev (trim_start (rev (trim_start s))).

(** An array of strings as a value. *)
Definition strings (l : list jsstring) : json := JArr (map JStr l).

End JS.

Import JS.

(** ** The SSE reader of [step7LLMGenerateStream] *)

Module SSE.

(** What [onChunk] receives: the wrapped statistics object
    [{type: 'statistics', data}] or the event's [content]. *)
Inductive chunk : Type :=
| Statistics (data : json)
| Content (v : json).

Inductive event : Type :=
| EvRead                       (* reader.read() *)
| EvChunk (c : chunk)          (* onChunk(c) *)
| EvDone                       (* onDone() *)
| EvError (e : js_error)       (* onError(e) *)
| EvConsoleError.              (* console.error in the inner catch *)

Definition is_callback (ev : event) : bool :=
  match ev with
  | EvChunk _ | EvDone | EvError _ => true
  | EvRead | EvConsoleError => false
  end.

Definition terminal (ev : event) : bool :=
  match ev with
  | EvDone | EvError _ => true
  | _ => false
  end.

Definition callbacks (tr : list event) : list event := filter is_callback tr.

(** How the body stream ends: the reader reports [done], a read rejects,
    or no further read settles. *)
Inductive ending : Type :=
| Closed
| Failed (e : js_error)
| Pending.

Record body : Type := mkBody {
  reads : list (list Byte.byte);
  finish : ending
}.

(** The outcome of [fetch]: it rejects, the response is not [ok] (the
    error thrown at line 251, or the one raised while reading the error
    body), or the body is streamed. *)
Inductive response : Type :=
| FetchRejected (e : js_error)
| NotOk (e : js_error)
| Ok (b : body).

(** [buffer.split('\n\n')]: never empty, the last element is the text
    after the last separator. *)
Definition cons_head (c : code_unit) (l : list jsstring) : list jsstring :=
  match l with
  | [] => [[c]]
  | s :: rest => (c :: s) :: rest
  end.

Fixpoint split (s : jsstring) : list jsstring :=
  match s with
  | [] => [[]]
  | c :: s' =>
      match s' with
      | [] => [[c]]
      | d :: s'' =>
          if N.eqb c LF && N.eqb d LF then [] :: split s''
          else cons_head c (split s')
      end
  end.

Definition DATA_PREFIX : jsstring := lit "data: ".

(** Browser built-ins the reader relies on: [JSON.parse] ([None] when it
    throws), string conversion (for [new Error(data.error)]) and the
    streaming [TextDecoder], a byte-at-a-time transducer. *)
Class Browser : Type := {
  JSON_parse : jsstring -> option json;
  ToString : json -> jsstring;
  dec_state : Type;
  dec_init : dec_state;
  dec_byte : dec_state -> Byte.byte -> dec_state * jsstring
}.

Section Reader.

Context {browser : Browser}.

(** [decoder.decode(value, { stream: true })]. *)
Fixpoint decode (st : dec_state) (value : list Byte.byte) : dec_state * jsstring :=
  match value with
  | [] => (st, [])
  | b :: rest =>
      let (st1, t1) := dec_byte st b in
      let (st2, t2) := decode st1 rest in
      (st2, t1 ++ t2)
  end.

(** Lines 277-291: the [done] check and the two [onChunk] calls. *)
Definition chunk_events (data : json) : list event :=
  (match get "statistics" data with
   | Some st => if truthy st then [EvChunk (Statistics st)] else []
   | None => []
   end) ++
  (match get "content" data with
   | Some c => if truthy c then [EvChunk (Content c)] else []
   | None => []
   end).

Definition after_error_check (data : json) : list event * bool :=
  if truthy_opt (get "done" data) then ([EvDone], true)
  else (chunk_events data, false).

(** The body of the [for] loop for one line (lines 270-295); the
    boolean is [true] when the loop returns.  A [SyntaxError] of
    [JSON.parse] and the [TypeError] of reading [null.error] are caught
    and logged. *)
Definition process_line (line : jsstring) : list event * bool :=
  if startsWith DATA_PREFIX line then
    match JSON_parse (slice_from 6 line) with
    | None => ([EvConsoleError], false)
    | Some JNull => ([EvConsoleError], false)
    | Some data =>
        match get "error" data with
        | Some err =>
            if truthy err
            then ([EvError (mkError (ToString err) [])], true)
            else after_error_check data
        | None => after_error_check data
        end
    end
  else ([], false).

Fixpoint process_lines (lines : list jsstring) : list event * bool :=
  match lines with
  | [] => ([], false)
  | line :: rest =>
      let (evs, stop) := process_line line in
      if stop then (evs, true)
      else
        let (evs', stop') := process_lines rest in
        (evs ++ evs', stop')
  end.

(** [readStream] (lines 258-302). *)
Fixpoint readStream (fin : ending) (st : dec_state) (buffer : jsstring)
         (chunks : list (list Byte.byte)) : list event :=
  EvRead ::
  match chunks with
  | [] =>
      match fin with
      | Closed => [EvDone]
      | Failed e => [EvError e]
      | Pending => []
      end
  | value :: rest =>
      let (st', text) := decode st value in
      let lines := split (buffer ++ text) in
      let (evs, stop) := process_lines (removelast lines) in
      evs ++ (if stop then [] else readStream fin st' (last lines []) rest)
  end.

Definition step7LLMGenerateStream (r : response) : list event :=
  match r with
  | FetchRejected e => [EvError e]
  | NotOk e => [EvError e]
  | Ok b => readStream (finish b) dec_init [] (reads b)
  end.

(** The same bytes delivered by a single read. *)
Definition whole (fin : ending) (st : dec_state) (buffer : jsstring)
           (bytes : list Byte.byte) : list event :=
  let (_, text) := decode st bytes in
  let (evs, stop) := process_lines (removelast (split (buffer ++ text))) in
  evs ++ (if stop then []
          else match fin with
               | Closed => [EvDone]
               | Failed e => [EvError e]
               | Pending => []
               end).

End Reader.

End SSE.

(** ** A reference interpretation of the browser built-ins

    Used to run the reader on concrete streams: the UTF-8 decoder of the
    Encoding Standard, a JSON reader for the grammar without exponents and
    [\u] escapes, and string conversion of the values it yields. *)

Module ReferenceBrowser.

Import SSE.

Record utf8_state : Type := mkUtf8 {
  code_point : N;
  bytes_needed : N;
  bytes_seen : N;
  lower_boundary : N;
  upper_boundary : N;
  bom_pending : bool
}.

Definition utf8_init : utf8_state := mkUtf8 0 0 0 128 191 true.

Definition utf16 (cp : N) : jsstring :=
  if (cp <? 65536)%N then [cp]
  else [ (55296 + N.shiftr (cp - 65536) 10)%N;
         (56320 + N.land (cp - 65536) 1023)%N ].

Definition emit (st : utf8_state) (cp : N) : utf8_state * jsstring :=
  (mkUtf8 0 0 0 128 191 false,
   if bom_pending st && (cp =? 65279)%N then [] else utf16 cp).

Definition lead_byte (st : utf8_state) (b : N) : utf8_state * jsstring :=
  if (b <=? 127)%N then emit st b
  else if (194 <=? b)%N && (b <=? 223)%N then
    (mkUtf8 (N.land b 31) 1 0 128 191 (bom_pending st), [])
  else if (224 <=? b)%N && (b <=? 239)%N then
    (mkUtf8 (N.land b 15) 2 0
            (if (b =? 224)%N then 160 else 128)
            (if (b =? 237)%N then 159 else 191)
            (bom_pending st), [])
  else if (240 <=? b)%N && (b <=? 244)%N then
    (mkUtf8 (N.land b 7) 3 0
            (if (b =? 240)%N then 144 else 128)
            (if (b =? 244)%N then 143 else 191)
            (bom_pending st), [])
  else emit st 65533.

Definition utf8_byte (st : utf8_state) (byte : Byte.byte) : utf8_state * jsstring :=
  let b := Byte.to_N byte in
  if (bytes_needed st =? 0)%N then lead_byte st b
  else if negb ((lower_boundary st <=? b)%N && (b <=? upper_boundary st)%N) then
    let (st1, out1) := emit st 65533 in
    let (st2, out2) := lead_byte st1 b in
    (st2, out1 ++ out2)
  else
    let cp := N.lor (N.shiftl (code_point st) 6) (N.land b 63) in
    if (bytes_seen st + 1 =? bytes_needed st)%N then emit st cp
    else (mkUtf8 cp (bytes_needed st) (bytes_seen st + 1) 128 191 (bom_pending st), []).

(** *** JSON *)

Definition json_space (c : code_unit) : bool :=
  existsb (N.eqb c) [32; 9; 10; 13]%N.

Fixpoint skip_space (s : jsstring) : jsstring :=
  match s with
  | c :: s' => if json_space c then skip_space s' else s
  | [] => []
  end.

Definition is_digit (c : code_unit) : bool := (48 <=? c)%N && (c <=? 57)%N.

Fixpoint digits (acc : N) (count : nat) (s : jsstring) : N * nat * jsstring :=
  match s with
  | c :: s' =>
      if is_digit c then digits (acc * 10 + (c - 48))%N (S count) s'
      else (acc, count, s)
  | [] => (acc, count, [])
  end.

(** The characters of a string literal after the opening quote. *)
Fixpoint string_body (s : jsstring) : option (jsstring * jsstring) :=
  match s with
  | [] => None
  | c :: s' =>
      if (c =? 34)%N then Some ([], s')
      else if (c <? 32)%N then None
      else if (c =? 92)%N then
        match s' with
        | e :: s'' =>
            let escaped :=
              if (e =? 34)%N then Some 34%N
              else if (e =? 92)%N then Some 92%N
              else if (e =? 47)%N then Some 47%N
              else if (e =? 98)%N then Some 8%N
              else if (e =? 102)%N then Some 12%N
              else if (e =? 110)%N then Some 10%N
              else if (e =? 114)%N then Some 13%N
              else if (e =? 116)%N then Some 9%N
              else None in
            match escaped, string_body s'' with
            | Some x, Some (body, rest) => Some (x :: body, rest)
            | _, _ => None
            end
        | [] => None
        end
      else
        match string_body s' with
        | Some (body, rest) => Some (c :: body, rest)
        | None => None
        end
  end.

Definition number (negative : bool) (s : jsstring) : option (json * jsstring) :=
  match digits 0 0 s with
  | (_, O, _) => None
  | (int, S k, rest) =>
      if match s with c :: _ => (c =? 48)%N && negb (Nat.eqb k 0) | [] => false end
      then None
      else
        let sign (q : Q) : Q := if negative then Qopp q else q in
        match rest with
        | 46%N :: rest' =>
            match digits 0 0 rest' with
            | (_, O, _) => None
            | (frac, S j, rest'') =>
                Some (JNum (sign (Qmake (Z.of_N (int * 10 ^ N.of_nat (S j) + frac))
                                        (Pos.pow 10 (Pos.of_nat (S j))))),
                      rest'')
            end
        | _ => Some (JNum (sign (inject_Z (Z.of_N int))), rest)
        end
  end.

Fixpoint value (fuel : nat) (s : jsstring) : option (json * jsstring) :=
  match fuel with
  | O => None
  | S fuel' =>
      match skip_space s with
      | 123%N :: rest =>
          match skip_space rest with
          | 125%N :: rest' => Some (JObj [], rest')
          | _ =>
              match members fuel' rest with
              | Some (fields, rest') => Some (JObj fields, rest')
              | None => None
              end
          end
      | 91%N :: rest =>
          match skip_space rest with
          | 93%N :: rest' => Some (JArr [], rest')
          | _ =>
              match elements fuel' rest with
              | Some (items, rest') => Some (JArr items, rest')
              | None => None
              end
          end
      | 34%N :: rest =>
          match string_body rest with
          | Some (body, rest') => Some (JStr body, rest')
          | None => None
          end
      | 45%N :: rest => number true rest
      | c :: rest =>
          if is_digit c then number false (c :: rest)
          else if startsWith (lit "true") (c :: rest)
          then Some (JBool true, skipn 4 (c :: rest))
          else if startsWith (lit "false") (c :: rest)
          then Some (JBool false, skipn 5 (c :: rest))
          else if startsWith (lit "null") (c :: rest)
          then Some (JNull, skipn 4 (c :: rest))
          else None
      | [] => None
      end
  end

with elements (fuel : nat) (s : jsstring) : option (list json * jsstring) :=
  match fuel with
  | O => None
  | S fuel' =>
      match value fuel' s with
      | Some (v, rest) =>
          match skip_space rest with
          | 93%N :: rest' => Some ([v], rest')
          | 44%N :: rest' =>
              match elements fuel' rest' with
              | Some (vs, rest'') => Some (v :: vs, rest'')
              | None => None
              end
          | _ => None
          end
      | None => None
      end
  end

with members (fuel : nat) (s : jsstring) : option (list (jsstring * json) * jsstring) :=
  match fuel with
  | O => None
  | S fuel' =>
      match skip_space s with
      | 34%N :: rest =>
          match string_body rest with
          | Some (key, rest1) =>
              match skip_space rest1 with
              | 58%N :: rest2 =>
                  match value fuel' rest2 with
                  | Some (v, rest3) =>
                      match skip_space rest3 with
                      | 125%N :: rest4 => Some ([(key, v)], rest4)
                      | 44%N :: rest4 =>
                          match members fuel' rest4 with
                          | Some (fields, rest5) => Some ((key, v) :: fields, rest5)
                          | None => None
                          end
                      | _ => None
                      end
                  | None => None
                  end
              | _ => None
              end
          | None => None
          end
      | _ => None
      end
  end.

Definition JSON_parse (s : jsstring) : option json :=
  match value (2 * length s + 2) s with
  | Some (v, rest) =>
      match skip_space rest with
      | [] => Some v
      | _ => None
      end
  | None => None
  end.

(** *** String conversion *)

Definition decimal (n : N) : jsstring :=
  lit (NilEmpty.string_of_uint (N.to_uint n)).

Fixpoint fraction (fuel : nat) (r d : N) : jsstring :=
  match fuel with
  | O => []
  | S fuel' =>
      if (r =? 0)%N then []
      else (48 + (r * 10) / d)%N :: fraction fuel' ((r * 10) mod d)%N d
  end.

Definition number_to_string (q : Q) : jsstring :=
  let n := Z.abs_N (Qnum q) in
  let d := Npos (Qden q) in
  (if (Qnum q <? 0)%Z then lit "-" else []) ++
  decimal (n / d) ++
  (if (n mod d =? 0)%N then [] else lit "." ++ fraction 20 (n mod d) d).

Fixpoint join (sep : jsstring) (l : list jsstring) : jsstring :=
  match l with
  | [] => []
  | [x] => x
  | x :: rest => x ++ sep ++ join sep rest
  end.

Fixpoint to_string (v : json) : jsstring :=
  match v with
  | JNull => lit "null"
  | JBool true => lit "true"
  | JBool false => lit "false"
  | JNum q => number_to_string q
  | JStr s => s
  | JArr items =>
      join (lit ",")
           (map (fun x => match x with JNull => [] | _ => to_string x end) items)
  | JObj _ => lit "[object Object]"
  end.

Definition browser : Browser :=
  {| SSE.JSON_parse := JSON_parse;
     SSE.ToString := to_string;
     SSE.dec_state := utf8_state;
     SSE.dec_init := utf8_init;
     SSE.dec_byte := utf8_byte |}.

(** Bytes of an ASCII source text. *)
Definition bytes (s : string) : list Byte.byte := list_byte_of_string s.

End ReferenceBrowser.

(** ** Effects of the handlers *)

Module Eff.

Inductive level : Type := Success | Error | Warning | Info.

(** The backend calls of frontend/src/api. *)
Inductive endpoint : Type :=
| step1GraphitiEpisode
| previewEpisodeBody
| getGraphitiResult
| getGraphitiGraph
| deleteGraphitiGraph
| step2CogneeBuild
| getCogneeGraph
| getChunksCogneeMapping
| deleteCogneeGraph
| getKnowledgeBaseDocuments
| deleteKnowledgeBaseDocument
| smartRetrieval.

Definition destructive (e : endpoint) : bool :=
  match e with
  | deleteGraphitiGraph | deleteCogneeGraph | deleteKnowledgeBaseDocument => true
  | _ => false
  end.

(** The [Modal.confirm] dialogs, with what their callbacks capture. *)
Inductive dialog : Type :=
| RebuildGraphiti (parse_mode : json) (template_config : json)
| DeleteGraphiti
| RebuildCognee
| DeleteCognee
| RemoveDocument (document : json).

Inductive effect : Type :=
| Call (e : endpoint) (args : list json)
| Toast (l : level) (text : jsstring)      (* message.success / error / ... *)
| ConsoleError                             (* console.error *)
| ConfirmShown (d : dialog)                (* Modal.confirm *)
| ChoseOk                                  (* the user presses OK *)
| ChoseCancel.                             (* the user presses Cancel *)

(** ['未知错误'] *)
Definition UNKNOWN_ERROR : jsstring :=
  [26410; 30693; 38169; 35823]%N.

(** *** Promises, refs and dialogs

    A handler runs against a script of backend answers, one per call, in
    the order in which the answers come in; for calls that are awaited one
    after the other this is the order of the calls.  It appends to the
    trace, reads and writes the refs of its component, and may open
    dialogs, whose callbacks run later, when the user chooses. *)

Inductive answer : Type :=
| Resolved (v : json)
| Rejected (e : js_error).

Inductive choice : Type := PressOk | PressCancel.

Inductive outcome (A : Type) : Type :=
| Returned (a : A)
| Threw (e : js_error)
| Awaiting.                      (* the awaited promise never settles *)

Arguments Awaiting {A}.
Arguments Threw {A} e.

(** The error of reading a property of [null] or [undefined], or of
    calling what is not a function; the engine's wording is not modelled. *)
Definition TYPE_ERROR : js_error := mkError (lit "TypeError") [].

Definition undefined_as_null (o : option json) : json :=
  match o with Some v => v | None => JNull end.

(** [o?.k] *)
Definition chain (k : string) (o : option json) : option json :=
  match o with Some v => get k v | None => None end.

Section Monad.

Variable ref : Type.
Variable ref_eqb : ref -> ref -> bool.

Definition store : Type := ref -> json.

Record world : Type := mkWorld {
  answers : list answer;
  trace : list effect;
  opened : list dialog;
  refs : store
}.

Definition M (A : Type) : Type := world -> outcome A * world.

Definition ret (A : Type) (a : A) : M A := fun w => (Returned a, w).

Definition throw (A : Type) (e : js_error) : M A := fun w => (Threw e, w).

Definition bind (A B : Type) (m : M A) (f : A -> M B) : M B :=
  fun w =>
    match m w with
    | (Returned a, w') => f a w'
    | (Threw e, w') => (Threw e, w')
    | (Awaiting, w') => (Awaiting, w')
    end.

Definition emit (ef : effect) : M unit :=
  fun w => (Returned tt, mkWorld (answers w) (trace w ++ [ef]) (opened w) (refs w)).

(** [await api(...)] *)
Definition await (e : endpoint) (args : list json) : M json :=
  fun w =>
    let tr := trace w ++ [Call e args] in
    match answers w with
    | [] => (Awaiting, mkWorld [] tr (opened w) (refs w))
    | Resolved v :: rest => (Returned v, mkWorld rest tr (opened w) (refs w))
    | Rejected err :: rest => (Threw err, mkWorld rest tr (opened w) (refs w))
    end.

(** The two halves of [await api(...)], for calls that are in flight
    together: the request goes out at once, and the function goes on when
    the next answer that comes in is its own. *)
Definition request (e : endpoint) (args : list json) : M unit :=
  emit (Call e args).

Definition reply : M json :=
  fun w =>
    match answers w with
    | [] => (Awaiting, w)
    | Resolved v :: rest => (Returned v, mkWorld rest (trace w) (opened w) (refs w))
    | Rejected err :: rest => (Threw err, mkWorld rest (trace w) (opened w) (refs w))
    end.

(** [r.value] and [r.value = v] *)
Definition read (r : ref) : M json := fun w => (Returned (refs w r), w).

(** All the refs at once, for what is computed from several of them. *)
Definition snapshot : M store := fun w => (Returned (refs w), w).

Definition write (r : ref) (v : json) : M unit :=
  fun w =>
    (Returned tt,
     mkWorld (answers w) (trace w) (opened w)
             (fun r' => if ref_eqb r r' then v else refs w r')).

(** [Modal.confirm({...})] returns at once; the dialog stays open. *)
Definition confirm (d : dialog) : M unit :=
  fun w =>
    (Returned tt,
     mkWorld (answers w) (trace w ++ [ConfirmShown d]) (opened w ++ [d]) (refs w)).

(** [Modal.destroyAll()] *)
Definition destroyAll : M unit :=
  fun w => (Returned tt, mkWorld (answers w) (trace w) [] (refs w)).

(** [try { m } catch (e) { h e }] *)
Definition try_catch (A : Type) (m : M A) (h : js_error -> M A) : M A :=
  fun w =>
    match m w with
    | (Threw e, w') => h e w'
    | other => other
    end.

(** [try { m } finally { cleanup }], for a [cleanup] that only assigns. *)
Definition finally (A : Type) (m : M A) (cleanup : M unit) : M A :=
  fun w =>
    match m w with
    | (Awaiting, w') => (Awaiting, w')
    | (o, w') => (o, snd (cleanup w'))
    end.

(** Code whose promise nobody awaits, at the point of the event loop
    where it runs: an async function called as the last thing its caller
    does, or the rest of such a function once its answer has come in.  It
    runs as far as it gets and its outcome is dropped. *)
Definition spawn (m : M unit) : M unit :=
  fun w => (Returned tt, snd (m w)).

(** [first], and then [second] whatever became of [first]: the order of
    two pieces of code that wait for different answers.  The outcome is
    that of [first]. *)
Definition then_run (A : Type) (first : M A) (second : M unit) : M A :=
  fun w => let (o, w') := first w in (o, snd (second w')).

(** [v.k], which throws on [null]. *)
Definition field (k : string) (v : json) : M (option json) :=
  match v with
  | JNull => throw (option json) TYPE_ERROR
  | _ => ret (get k v)
  end.

(** [v.map(f)] for an [f] that reads properties of its argument. *)
Definition map_array (f : json -> json) (v : json) : M (list json) :=
  match v with
  | JArr items =>
      if existsb (fun x => match x with JNull => true | _ => false end) items
      then throw (list json) TYPE_ERROR
      else ret (map f items)
  | _ => throw (list json) TYPE_ERROR
  end.

(** The user answers the open dialogs one after the other; the callback
    of the choice runs when it is made. *)
Fixpoint interact (onOk onCancel : dialog -> M unit)
         (choices : list choice) (w : world) : world :=
  match choices with
  | [] => w
  | c :: rest =>
      match opened w with
      | [] => w
      | d :: ds =>
          match c with
          | PressOk =>
              interact onOk onCancel rest
                       (snd (onOk d (mkWorld (answers w) (trace w ++ [ChoseOk])
                                             ds (refs w))))
          | PressCancel =>
              interact onOk onCancel rest
                       (snd (onCancel d (mkWorld (answers w) (trace w ++ [ChoseCancel])
                                                 ds (refs w))))
          end
      end
  end.

(** A whole interaction: the handler of the user's click, then the
    choices made in the dialogs it leads to. *)
Definition interaction (handler : M unit) (onOk onCancel : dialog -> M unit)
           (choices : list choice) (w : world) : world :=
  interact onOk onCancel choices (snd (handler w)).

End Monad.

Arguments ret {ref A} a.
Arguments throw {ref A} e.
Arguments bind {ref A B} m f.
Arguments emit {ref} ef.
Arguments await {ref} e args.
Arguments request {ref} e args.
Arguments reply {ref}.
Arguments snapshot {ref}.
Arguments confirm {ref} d.
Arguments destroyAll {ref}.
Arguments try_catch {ref A} m h.
Arguments finally {ref A} m cleanup.
Arguments spawn {ref} m.
Arguments then_run {ref A} first second.
Arguments field {ref} k v.
Arguments map_array {ref} f v.

Declare Scope eff_scope.
Delimit Scope eff_scope with eff.

Notation "x <- m ;; k" := (bind m (fun x => k))
  (at level 61, m at next level, right associativity) : eff_scope.
Notation "m ;; k" := (bind m (fun _ => k))
  (at level 61, right associativity) : eff_scope.

Definition toast {ref : Type} (l : level) (text : jsstring) : M ref unit :=
  emit (Toast l text).

Definition when {ref : Type} (c : bool) (m : M ref unit) : M ref unit :=
  if c then m else ret tt.

End Eff.

Import Eff.

(** ** The LLM-generate tab: streaming callbacks of [handleExecute],
       [convertV4ResultsToLLMFormat], the retrieval request *)

Module LLMGenerateTab.

Import SSE.

(** [llm_statistics] is only carried around: how a statistics chunk is
    merged into it (lines 1551-1558) and how [total_time] is filled in on
    completion (lines 1586-1590) are left open. *)
Class StatsOps : Type := {
  stats : Type;
  update_statistics : stats -> json -> stats;
  ensure_total_time : stats -> stats
}.

(** ['LLM生成失败: '] *)
Definition LLM_FAILED : jsstring :=
  [76; 76; 77; 29983; 25104; 22833; 36133; 58; 32]%N.

(** ['LLM生成完成'] *)
Definition LLM_DONE : jsstring :=
  [76; 76; 77; 29983; 25104; 23436; 25104]%N.

Section Session.

Context {stats_ops : StatsOps}.

(** [executionResult.value]; its [retrieval_statistics] and the other
    fields set at lines 1490-1505 never change during the session. *)
Record exec_result : Type := mkResult {
  generated_document : jsstring;
  llm_statistics : stats
}.

(** What the callbacks of one [handleExecute] call work on: its closure
    variables and the refs they write. *)
Record session : Type := mkSession {
  pendingText : jsstring;
  displayedLength : nat;
  typewriterTimer : bool;          (* a timeout is armed *)
  streamingContent : jsstring;
  isStreaming : bool;
  executionResult : option exec_result;
  log : list effect
}.

(** Lines 1488-1531, up to and including the first [typewriterEffect()]. *)
Definition start (initial : stats) : session :=
  mkSession [] 0 true [] true (Some (mkResult [] initial)) [].

(** Lines 1515-1528. *)
Definition typewriterEffect (s : session) : session :=
  if displayedLength s <? length (pendingText s) then
    let chunkSize := Nat.min 3 (length (pendingText s) - displayedLength s) in
    mkSession (pendingText s)
              (displayedLength s + chunkSize)
              true
              (substring0 (displayedLength s + chunkSize) (pendingText s))
              (isStreaming s) (executionResult s) (log s)
  else if isStreaming s then
    mkSession (pendingText s) (displayedLength s) true
              (streamingContent s) (isStreaming s) (executionResult s) (log s)
  else
    mkSession (pendingText s) (displayedLength s) false
              (streamingContent s) (isStreaming s) (executionResult s) (log s).

(** The statistics branch (lines 1550-1560): [data] is [chunk.data];
    when it is [undefined] or [null] the branch throws at line 1557
    after re-assigning an unchanged copy. *)
Definition merge_statistics (data : option json) (s : session) : session :=
  match data, executionResult s with
  | Some JNull, _ | None, _ | _, None => s
  | Some d, Some r =>
      mkSession (pendingText s) (displayedLength s) (typewriterTimer s)
                (streamingContent s) (isStreaming s)
                (Some (mkResult (generated_document r)
                                (update_statistics (llm_statistics r) d)))
                (log s)
  end.

(** [onChunk] (lines 1546-1566). *)
Definition onChunk (c : chunk) (s : session) : session :=
  match c with
  | Statistics data => merge_statistics (Some data) s
  | Content (JObj fields) =>
      match lookup (lit "type") fields with
      | Some (JStr t) =>
          if str_eqb t (lit "statistics")
          then merge_statistics (lookup (lit "data") fields) s
          else s
      | _ => s
      end
  | Content (JStr text) =>
      mkSession (pendingText s ++ text) (displayedLength s) (typewriterTimer s)
                (streamingContent s) (isStreaming s) (executionResult s) (log s)
  | Content _ => s
  end.

(** [onDone] (lines 1567-1594). *)
Definition onDone (s : session) : session :=
  mkSession (pendingText s) (length (pendingText s)) false
            (pendingText s) false
            (match executionResult s with
             | Some r => Some (mkResult (pendingText s)
                                        (ensure_total_time (llm_statistics r)))
             | None => None
             end)
            (log s ++ [Toast Success LLM_DONE]).

(** [onError] (lines 1595-1609). *)
Definition onError (e : js_error) (s : session) : session :=
  mkSession (pendingText s) (displayedLength s) false
            (streamingContent s) false
            None
            (log s ++ [ConsoleError;
                       Toast Error (LLM_FAILED ++ or_else (message e) UNKNOWN_ERROR)]).

(** What a call's own timer and reader do on the event loop: the
    typewriter timeout fires, or the reader does something.  What else
    happens in the tab while a stream runs is in [LLMGenerateLoop]. *)
Inductive occurrence : Type :=
| Tick
| Reader (ev : event).

Definition step (s : session) (o : occurrence) : session :=
  match o with
  | Tick =>
      if typewriterTimer s then typewriterEffect s else s
  | Reader (EvChunk c) => onChunk c s
  | Reader EvDone => onDone s
  | Reader (EvError e) => onError e s
  | Reader EvRead => s
  | Reader EvConsoleError => s
  end.

Definition run (s : session) (os : list occurrence) : session :=
  fold_left step os s.

(** The reader's part of a schedule. *)
Definition reader_events (os : list occurrence) : list event :=
  flat_map (fun o => match o with Tick => [] | Reader ev => [ev] end) os.

(** The text of the string chunks passed to [onChunk], in order. *)
Definition received_text (tr : list event) : jsstring :=
  flat_map (fun ev => match ev with
                      | EvChunk (Content (JStr text)) => text
                      | _ => []
                      end) tr.

(** The answer card (template lines 1149 and 1179): hidden without an
    [executionResult], else [streamingContent || generated_document || '']. *)
Definition rendered (s : session) : option jsstring :=
  match executionResult s with
  | None => None
  | Some r => Some (or_else (streamingContent s) (generated_document r))
  end.

End Session.

(** *** [convertV4ResultsToLLMFormat] (lines 1323-1382) *)

(** A chunk or an entity of the retrieval result: its numeric [score]
    and the object it is a property of. *)
Record scored : Type := mkScored {
  score : Q;
  object : json
}.

(** [retrievalResult.stage1?.chunk_results],
    [retrievalResult.stage2?.graphiti?.entities] and
    [retrievalResult.stage2?.cognee?.entities]; [None] when the chain is
    falsy. *)
Record retrieval : Type := mkRetrieval {
  chunk_results : option (list scored);
  graphiti_entities : option (list scored);
  cognee_entities : option (list scored)
}.

Inductive source_kind : Type := DocumentChunk | Graphiti | Cognee.

(** An element of the returned array.  [name], [content], [doc_id],
    [version], [group_id] and the identifiers are computed from the source
    item alone; [origin] stands for them. *)
Record llm_result : Type := mkLLM {
  source : source_kind;
  result_score : Q;
  origin : scored
}.

Definition source_channel (r : llm_result) : jsstring :=
  match source r with
  | DocumentChunk => lit "DocumentChunk"
  | Graphiti | Cognee => lit "Entity"
  end.

Definition push_all (kind : source_kind) (items : option (list scored)) : list llm_result :=
  match items with
  | Some l => map (fun it => mkLLM kind (score it / 100)%Q it) l
  | None => []
  end.

(** [Array.prototype.sort]: a stable sort by the comparator. *)
Section Sort.
Variable A : Type.
Variable compare : A -> A -> Q.

Fixpoint insert (x : A) (l : list A) : list A :=
  match l with
  | [] => [x]
  | y :: l' => if Qle_bool (compare x y) 0 then x :: l else y :: insert x l'
  end.

Fixpoint sort (l : list A) : list A :=
  match l with
  | [] => []
  | x :: l' => insert x (sort l')
  end.
End Sort.

(** [a.slice(0, end)]. *)
Definition slice0 (A : Type) (end_ : Z) (l : list A) : list A :=
  let len := Z.of_nat (length l) in
  let k := if (end_ <? 0)%Z then Z.max (len + end_) 0 else Z.min end_ len in
  firstn (Z.to_nat k) l.

Definition by_score_desc (a b : llm_result) : Q :=
  (result_score b - result_score a)%Q.

(** [maxResults] is [None] when the argument is omitted. *)
Definition convertV4ResultsToLLMFormat (retrievalResult : retrieval)
           (maxResults : option Z) : list llm_result :=
  let maxResults := match maxResults with Some m => m | None => 20%Z end in
  let results :=
    push_all DocumentChunk (chunk_results retrievalResult) ++
    push_all Graphiti (graphiti_entities retrievalResult) ++
    push_all Cognee (cognee_entities retrievalResult) in
  slice0 maxResults (sort by_score_desc results).

(** *** The smart-retrieval request of [handleExecute] (lines 1438-1462) *)

Record form : Type := mkForm {
  userQuery : jsstring;
  topK : json;
  minScore : json;
  retrievalScope : jsstring;
  selectedDocumentGroupIds : option (list jsstring);
  enableRefine : bool
}.

Definition specified (f : form) : bool :=
  str_eqb (retrievalScope f) (lit "specified").

(** The two guards that return before anything is sent. *)
Definition rejected_by_guards (f : form) : bool :=
  match trim (userQuery f) with
  | [] => true
  | _ =>
      specified f &&
      match selectedDocumentGroupIds f with
      | None | Some [] => true
      | Some _ => false
      end
  end.

Definition retrievalParams (f : form) : list (jsstring * json) :=
  [ (lit "query", JStr (userQuery f));
    (lit "top_k", topK f);
    (lit "min_score", minScore f);
    (lit "group_ids",
      if specified f
      then match selectedDocumentGroupIds f with
           | Some ids => strings ids
           | None => JNull
           end
      else JNull);
    (lit "enable_refine", JBool (enableRefine f)) ].

(** The body posted to [/intelligent-chat/smart-retrieval], if any. *)
Definition smart_retrieval_body (f : form) : option (list (jsstring * json)) :=
  if rejected_by_guards f then None else Some (retrievalParams f).

End LLMGenerateTab.

(** ** The LLM-generate tab on the event loop: [handleExecute], the
       streams it starts and [handleClear] (unnamed/part_002, lines
       1437-1657) *)

Module LLMGenerateLoop.

Import SSE.

(** ['请输入用户需求'] *)
Definition ENTER_QUERY : jsstring :=
  [35831; 36755; 20837; 29992; 25143; 38656; 27714]%N.

(** ['请至少选择一个文档'] *)
Definition SELECT_ONE_DOCUMENT : jsstring :=
  [35831; 33267; 23569; 36873; 25321; 19968; 20010; 25991; 26723]%N.

(** ['智能检索未找到相关结果，将基于通用知识生成回答'] *)
Definition NOTHING_FOUND : jsstring :=
  [26234; 33021; 26816; 32034; 26410; 25214; 21040; 30456; 20851; 32467;
   26524; 65292; 23558; 22522; 20110; 36890; 29992; 30693; 35782; 29983;
   25104; 22238; 31572]%N.

(** ['智能检索完成，找到 '] *)
Definition FOUND_1 : jsstring :=
  [26234; 33021; 26816; 32034; 23436; 25104; 65292; 25214; 21040; 32]%N.

(** [' 个相关结果（将传给LLM）'] *)
Definition FOUND_2 : jsstring :=
  [32; 20010; 30456; 20851; 32467; 26524; 65288; 23558; 20256; 32473; 76; 76;
   77; 65289]%N.

(** ['执行失败: '] *)
Definition EXEC_FAILED : jsstring :=
  [25191; 34892; 22833; 36133; 58; 32]%N.

(** ['结果已清空'] *)
Definition CLEARED : jsstring :=
  [32467; 26524; 24050; 28165; 31354]%N.

Section Loop.

Context {browser : Browser} {stats_ops : LLMGenerateTab.StatsOps}.

(** The closure variables of one [handleExecute] call that streams
    (lines 1511-1513). *)
Record closure : Type := mkClosure {
  pendingText : jsstring;
  displayedLength : nat;
  typewriterTimer : bool          (* a timeout is armed *)
}.

(** Where a [handleExecute] call waits. *)
Inductive stage : Type :=
| Retrieval                        (* await smartRetrieval, line 1466 *)
| Generation.                      (* await step7LLMGenerate, line 1613 *)

(** The tab between two turns of the event loop: the refs that
    [handleExecute], the callbacks of its streams and [handleClear] have
    in common, where the call that is under way waits, and the closures of
    the calls that have started a stream, oldest first.

    [executing.value] is [true] exactly while a call is under way (lines
    1448 and 1638).  Not kept: the inputs of the form, which come with the
    click; [executionStatus]; [retrievalResult], which the callbacks read
    only for [llm_statistics]; and [streamingAbortController]: its signal
    is handed to nothing ([step7LLMGenerateStream] takes none), so that
    the [abort()] of [handleClear] stops no stream and no timer. *)
Record tab : Type := mkTab {
  waiting : option stage;
  streamingContent : jsstring;
  isStreaming : bool;
  executionResult : option LLMGenerateTab.exec_result;
  closures : list closure;
  log : list effect
}.

Definition executing (t : tab) : bool :=
  match waiting t with
  | Some _ => true
  | None => false
  end.

(** The tab when the component is set up (lines 1267-1279). *)
Definition mounted : tab := mkTab None [] false None [] [].

(** What a callback of the call with the closure [c] sees, and what it
    leaves behind. *)
Definition session_of (t : tab) (c : closure) : LLMGenerateTab.session :=
  LLMGenerateTab.mkSession (pendingText c) (displayedLength c) (typewriterTimer c)
                           (streamingContent t) (isStreaming t) (executionResult t)
                           (log t).

Definition closure_of (s : LLMGenerateTab.session) : closure :=
  mkClosure (LLMGenerateTab.pendingText s) (LLMGenerateTab.displayedLength s)
            (LLMGenerateTab.typewriterTimer s).

Fixpoint replace (i : nat) (c : closure) (l : list closure) : list closure :=
  match l, i with
  | [], _ => []
  | _ :: rest, O => c :: rest
  | x :: rest, S j => x :: replace j c rest
  end.

Definition tab_of (t : tab) (i : nat) (s : LLMGenerateTab.session) : tab :=
  mkTab (waiting t)
        (LLMGenerateTab.streamingContent s) (LLMGenerateTab.isStreaming s)
        (LLMGenerateTab.executionResult s)
        (replace i (closure_of s) (closures t))
        (LLMGenerateTab.log s).

(** [handleClear] (lines 1643-1657). *)
Definition handleClear (t : tab) : tab :=
  mkTab (waiting t) [] false None (closures t)
        (log t ++ [Toast Success CLEARED]).

(** The notice of lines 1476-1480; [found] is [llmFormatResults.length]. *)
Definition found_notice (found : nat) : effect :=
  match found with
  | O => Toast Warning NOTHING_FOUND
  | _ => Toast Success (FOUND_1 ++ ToString (JNum (inject_Z (Z.of_nat found)))
                        ++ FOUND_2)
  end.

(** The turns of the event loop that one [handleExecute] call takes.  A
    turn is given with what decides its course and is not part of [tab]:
    the form at the click, the error that ends the call, the number of
    results passed on and the [llm_statistics] the result starts with
    ([{temperature}], line 1502), the result of the backend. *)
Inductive turn : Type :=
| Click (f : LLMGenerateTab.form)
    (* lines 1437-1466, up to [await smartRetrieval] *)
| Fails (e : js_error)
    (* the awaited call is rejected, or what follows its answer throws
       (lines 1469-1474, 1613-1627): the catch and the finally, lines
       1632-1640 *)
| Streams (found : nat) (initial : LLMGenerateTab.stats)
    (* the retrieval succeeded and the provider streams: lines 1467-1544
       and the finally *)
| Generates (found : nat)
    (* the retrieval succeeded and the provider does not stream: lines
       1467-1483, up to [await step7LLMGenerate] at line 1613 *)
| Generated (result : LLMGenerateTab.exec_result).
    (* [step7LLMGenerate] has answered: lines 1620-1630 and the finally;
       [result] is the answer with [total_time] filled in *)

Definition handleExecute (u : turn) (t : tab) : tab :=
  match u, waiting t with
  | Click f, None =>
      match trim (LLMGenerateTab.userQuery f) with
      | [] =>
          mkTab None (streamingContent t) (isStreaming t) (executionResult t)
                (closures t) (log t ++ [Toast Warning ENTER_QUERY])
      | _ =>
          if LLMGenerateTab.rejected_by_guards f then
            mkTab None (streamingContent t) (isStreaming t) (executionResult t)
                  (closures t) (log t ++ [Toast Warning SELECT_ONE_DOCUMENT])
          else
            mkTab (Some Retrieval) (streamingContent t) (isStreaming t) None
                  (closures t) (log t)
      end
  | Fails e, Some _ =>
      mkTab None (streamingContent t) (isStreaming t) None (closures t)
            (log t ++ [ConsoleError;
                       Toast Error (EXEC_FAILED
                                    ++ or_else (detail e)
                                               (or_else (message e) UNKNOWN_ERROR))])
  | Streams found initial, Some Retrieval =>
      mkTab None [] true (Some (LLMGenerateTab.mkResult [] initial))
            (closures t ++ [mkClosure [] 0 true])
            (log t ++ [found_notice found])
  | Generates found, Some Retrieval =>
      mkTab (Some Generation) (streamingContent t) (isStreaming t)
            (executionResult t) (closures t) (log t ++ [found_notice found])
  | Generated result, Some Generation =>
      mkTab None (streamingContent t) (isStreaming t) (Some result) (closures t)
            (log t ++ [Toast Success LLMGenerateTab.LLM_DONE])
  | _, _ => t
  end.

(** A turn of the event loop: the timer or the reader of the stream
    number [i] (a stream that was never started does nothing), a click on
    the clear button, which is disabled while [executing] (template line
    1130), or a turn of a [handleExecute] call; the execute button too is
    disabled while [executing] (line 1126). *)
Inductive occurrence : Type :=
| Of (i : nat) (o : LLMGenerateTab.occurrence)
| Clear
| Execute (u : turn).

Definition step (t : tab) (o : occurrence) : tab :=
  match o with
  | Of i o' =>
      match nth_error (closures t) i with
      | Some c => tab_of t i (LLMGenerateTab.step (session_of t c) o')
      | None => t
      end
  | Clear => if executing t then t else handleClear t
  | Execute u => handleExecute u t
  end.

Definition run (t : tab) (os : list occurrence) : tab :=
  fold_left step os t.

(** The answer card (template lines 1150 and 1179): shown with an
    [executionResult] while not [executing]; its text is
    [streamingContent || executionResult.generated_document || '']. *)
Definition rendered (t : tab) : option jsstring :=
  if executing t then None
  else
    match executionResult t with
    | None => None
    | Some r => Some (or_else (streamingContent t) (LLMGenerateTab.generated_document r))
    end.

End Loop.

End LLMGenerateLoop.

(** ** The chat view: streaming callbacks of [handleSendMessage]
       (conversation mode, KnowledgeBaseDetailView.vue lines 2174-2239) *)

Module ChatView.

Import SSE.

(** ['生成失败: '] *)
Definition GEN_FAILED : jsstring :=
  [29983; 25104; 22833; 36133; 58; 32]%N.

(** ['抱歉，生成失败：'] *)
Definition SORRY_FAILED : jsstring :=
  [25265; 27465; 65292; 29983; 25104; 22833; 36133; 65306]%N.

(** [assistantMessage] and the closure variables around it. *)
Record session : Type := mkSession {
  pendingText : jsstring;
  displayedLength : nat;
  typewriterTimer : bool;
  content : jsstring;
  streamingContent : jsstring;
  llmStatistics : option json;
  isStreaming : bool;
  chatLoading : bool;
  log : list effect
}.

Definition start : session :=
  mkSession [] 0 true [] [] None true true [].

(** Lines 2179-2198. *)
Definition typewriterEffect (s : session) : session :=
  if displayedLength s <? length (pendingText s) then
    let chunkSize := Nat.min 3 (length (pendingText s) - displayedLength s) in
    mkSession (pendingText s) (displayedLength s + chunkSize) true
              (content s)
              (substring0 (displayedLength s + chunkSize) (pendingText s))
              (llmStatistics s) (isStreaming s) (chatLoading s) (log s)
  else if isStreaming s then
    mkSession (pendingText s) (displayedLength s) true (content s)
              (streamingContent s) (llmStatistics s) (isStreaming s)
              (chatLoading s) (log s)
  else
    mkSession (pendingText s) (displayedLength s) false (content s)
              (streamingContent s) (llmStatistics s) (isStreaming s)
              (chatLoading s) (log s).

Definition set_statistics (data : option json) (s : session) : session :=
  mkSession (pendingText s) (displayedLength s) (typewriterTimer s) (content s)
            (streamingContent s) data (isStreaming s) (chatLoading s) (log s).

(** [onChunk] (lines 2206-2218). *)
Definition onChunk (c : chunk) (s : session) : session :=
  match c with
  | Statistics data => set_statistics (Some data) s
  | Content (JObj fields) =>
      match lookup (lit "type") fields with
      | Some (JStr t) =>
          if str_eqb t (lit "statistics")
          then set_statistics (lookup (lit "data") fields) s
          else s
      | _ => s
      end
  | Content (JStr text) =>
      mkSession (pendingText s ++ text) (displayedLength s) (typewriterTimer s)
                (content s) (streamingContent s) (llmStatistics s)
                (isStreaming s) (chatLoading s) (log s)
  | Content _ => s
  end.

(** [onDone] (lines 2219-2228). *)
Definition onDone (s : session) : session :=
  mkSession (pendingText s) (displayedLength s) false
            (pendingText s) (pendingText s) (llmStatistics s)
            false false (log s).

(** [onError] (lines 2229-2238). *)
Definition onError (e : js_error) (s : session) : session :=
  mkSession (pendingText s) (displayedLength s) false
            (SORRY_FAILED ++ or_else (message e) UNKNOWN_ERROR)
            [] (llmStatistics s) false false
            (log s ++ [ConsoleError;
                       Toast Error (GEN_FAILED ++ or_else (message e) UNKNOWN_ERROR)]).

(** The message bubble (template lines 453-454):
    [msg.streamingContent || msg.content], hidden when both are empty. *)
Definition rendered (s : session) : option jsstring :=
  match or_else (streamingContent s) (content s) with
  | [] => None
  | text => Some text
  end.

(** *** The smart-retrieval request of [handleSendMessage]
        (lines 2103-2128) *)

Record chat_form : Type := mkChatForm {
  chatInput : jsstring;
  selectedKB : bool;                       (* [selectedKB.value] is set *)
  kbDocumentGroupIds : list jsstring;
  chatMode : jsstring;
  settings_topK : json;
  settings_minScore : json;
  settings_enableRefine : json
}.

Definition retrievalParams (f : chat_form) : list (jsstring * json) :=
  [ (lit "query", JStr (trim (chatInput f)));
    (lit "top_k", or_value (settings_topK f) (JNum 20));
    (lit "min_score", or_value (settings_minScore f) (JNum 60));
    (lit "group_ids", strings (kbDocumentGroupIds f));
    (lit "enable_refine",
      JBool (match settings_enableRefine f with JBool false => false | _ => true end)) ].

Definition smart_retrieval_body (f : chat_form) : option (list (jsstring * json)) :=
  match trim (chatInput f), selectedKB f, kbDocumentGroupIds f with
  | [], _, _ => None
  | _, false, _ => None
  | _, _, [] => None
  | _, _, _ =>
      if str_eqb (chatMode f) (lit "conversation")
      then Some (retrievalParams f)
      else None
  end.

End ChatView.

(** ** The Graphiti tab (unnamed/part_002, lines 542-963) *)

Module GraphitiTab.

Import SSE.

Inductive name : Type :=
| selectedDocumentId
| selectedDocumentHasGraph
| executing
| executionStatus
| executionResult
| episodeBody
| originalEpisodeBody
| loadingEpisodeBody
| templateConfigJson
| generatedTemplateJson
| templateMode
| selectedParseMode
| llmProvider
| llmTemperature
| systemPrompt
| userPromptTemplate
| graphData
| entityListData
| edgeListData
| loadingGraph
| deletingGraph.

Scheme Equality for name.

Definition M : Type -> Type := Eff.M name.
Definition world : Type := Eff.world name.
Definition write (r : name) (v : json) : M unit := Eff.write name_beq r v.

Local Open Scope eff_scope.

(** ['加载 Episode Body 失败'] *)
Definition LOAD_EPISODE_BODY_FAILED : jsstring :=
  [21152; 36733; 32; 69; 112; 105; 115; 111; 100; 101; 32; 66; 111; 100; 121; 32; 22833; 36133]%N.

(** ['请先选择文档'] *)
Definition SELECT_DOCUMENT_FIRST : jsstring :=
  [35831; 20808; 36873; 25321; 25991; 26723]%N.

(** ['正在处理...'] *)
Definition PROCESSING : jsstring :=
  [27491; 22312; 22788; 29702; 46; 46; 46]%N.

(** ['模板 JSON 格式错误'] *)
Definition TEMPLATE_JSON_ERROR : jsstring :=
  [27169; 26495; 32; 74; 83; 79; 78; 32; 26684; 24335; 38169; 35823]%N.

(** ['执行失败: '] *)
Definition EXEC_FAILED : jsstring :=
  [25191; 34892; 22833; 36133; 58; 32]%N.

(** ['执行失败'] *)
Definition EXEC_FAILED_PLAIN : jsstring :=
  [25191; 34892; 22833; 36133]%N.

(** ['正在删除旧的Episode...'] *)
Definition DELETING_OLD_EPISODE : jsstring :=
  [27491; 22312; 21024; 38500; 26087; 30340; 69; 112; 105; 115; 111; 100; 101; 46; 46; 46]%N.

(** ['已删除旧的Episode，开始重建...'] *)
Definition DELETED_OLD_EPISODE : jsstring :=
  [24050; 21024; 38500; 26087; 30340; 69; 112; 105; 115; 111; 100; 101; 65292; 24320; 22987; 37325; 24314; 46; 46; 46]%N.

(** ['删除失败: '] *)
Definition DELETE_FAILED : jsstring :=
  [21024; 38500; 22833; 36133; 58; 32]%N.

(** ['处理成功（'] *)
Definition PROCESSED_1 : jsstring :=
  [22788; 29702; 25104; 21151; 65288]%N.

(** ['摘要解析'] *)
Definition SUMMARY_PARSE : jsstring :=
  [25688; 35201; 35299; 26512]%N.

(** ['全文解析'] *)
Definition FULL_PARSE : jsstring :=
  [20840; 25991; 35299; 26512]%N.

(** ['模式），获取执行结果摘要...'] *)
Definition PROCESSED_2 : jsstring :=
  [27169; 24335; 65289; 65292; 33719; 21462; 25191; 34892; 32467; 26524; 25688; 35201; 46; 46; 46]%N.

(** ['执行结果摘要加载成功，加载图谱...'] *)
Definition SUMMARY_LOADED : jsstring :=
  [25191; 34892; 32467; 26524; 25688; 35201; 21152; 36733; 25104; 21151; 65292; 21152; 36733; 22270; 35889; 46; 46; 46]%N.

(** ['获取执行结果摘要失败，使用基础信息'] *)
Definition SUMMARY_FAILED_BASIC : jsstring :=
  [33719; 21462; 25191; 34892; 32467; 26524; 25688; 35201; 22833; 36133; 65292; 20351; 29992; 22522; 30784; 20449; 24687]%N.

(** ['获取执行结果摘要失败: '] *)
Definition SUMMARY_FAILED : jsstring :=
  [33719; 21462; 25191; 34892; 32467; 26524; 25688; 35201; 22833; 36133; 58; 32]%N.

(** ['图谱加载成功：'] *)
Definition GRAPH_LOADED_1 : jsstring :=
  [22270; 35889; 21152; 36733; 25104; 21151; 65306]%N.

(** [' 个实体，'] *)
Definition GRAPH_LOADED_2 : jsstring :=
  [32; 20010; 23454; 20307; 65292]%N.

(** [' 个关系'] *)
Definition GRAPH_LOADED_3 : jsstring :=
  [32; 20010; 20851; 31995]%N.

(** ['图谱加载失败: '] *)
Definition GRAPH_LOAD_FAILED : jsstring :=
  [22270; 35889; 21152; 36733; 22833; 36133; 58; 32]%N.

(** ['文档未处理或缺少 group_id，无法删除图谱'] *)
Definition NOT_PROCESSED : jsstring :=
  [25991; 26723; 26410; 22788; 29702; 25110; 32570; 23569; 32; 103; 114; 111; 117; 112; 95; 105; 100; 65292; 26080; 27861; 21024; 38500; 22270; 35889]%N.

(** ['获取执行结果失败: '] *)
Definition GET_RESULT_FAILED : jsstring :=
  [33719; 21462; 25191; 34892; 32467; 26524; 22833; 36133; 58; 32]%N.

(** ['图谱删除成功'] *)
Definition GRAPH_DELETED : jsstring :=
  [22270; 35889; 21024; 38500; 25104; 21151]%N.

(** ['图谱删除部分成功: '] *)
Definition PARTIAL_1 : jsstring :=
  [22270; 35889; 21024; 38500; 37096; 20998; 25104; 21151; 58; 32]%N.

(** ['部分数据删除失败'] *)
Definition PARTIAL_FALLBACK : jsstring :=
  [37096; 20998; 25968; 25454; 21024; 38500; 22833; 36133]%N.

(** ['图谱删除失败: '] *)
Definition GRAPH_DELETE_FAILED : jsstring :=
  [22270; 35889; 21024; 38500; 22833; 36133; 58; 32]%N.

Definition EMPTY : json := JStr [].
Definition TRUE : json := JBool true.
Definition FALSE : json := JBool false.

(** [err.response?.data?.detail || err.message] *)
Definition detail_or_message (err : js_error) : jsstring :=
  or_else (detail err) (message err).

Section Handlers.

Context {browser : Browser}.

(** [o || fallback] inside a template literal. *)
Definition text_or (o : option json) (fallback : jsstring) : jsstring :=
  match o with
  | Some v => if truthy v then ToString v else fallback
  | None => fallback
  end.

(** Lines 586-598. *)
Definition handleLoadEpisodeBody : M unit :=
  id <- read selectedDocumentId ;;
  if negb (truthy id) then ret tt
  else
    write loadingEpisodeBody TRUE ;;
    finally
      (try_catch
         (res <- await previewEpisodeBody [id] ;;
          body <- field "episode_body" res ;;
          write episodeBody (undefined_as_null body) ;;
          write originalEpisodeBody (undefined_as_null body))
         (fun _ => toast Error LOAD_EPISODE_BODY_FAILED))
      (write loadingEpisodeBody FALSE).

(** Lines 590-597: [handleLoadEpisodeBody] from the answer of
    [previewEpisodeBody] on. *)
Definition episode_body_loaded : M unit :=
  finally
    (try_catch
       (res <- reply ;;
        body <- field "episode_body" res ;;
        write episodeBody (undefined_as_null body) ;;
        write originalEpisodeBody (undefined_as_null body))
       (fun _ => toast Error LOAD_EPISODE_BODY_FAILED))
    (write loadingEpisodeBody FALSE).

(** Lines 548-578: [handleDocumentChange] from the answer of
    [getGraphitiResult] on.  The catch at line 568 is silent on purpose. *)
Definition result_checked : M unit :=
  try_catch
    (res <- reply ;;
     group_id <- field "group_id" res ;;
     if truthy_opt group_id then
       write selectedDocumentHasGraph TRUE ;;
       write executionResult res
     else
       write executionResult JNull ;;
       write selectedDocumentHasGraph FALSE ;;
       msg <- field "message" res ;;
       when (truthy_opt msg) (toast Info (ToString (undefined_as_null msg))))
    (fun _ =>
       write executionResult JNull ;;
       write selectedDocumentHasGraph FALSE) ;;
  write graphData JNull ;;
  write entityListData (JArr []) ;;
  write edgeListData (JArr []).

(** [handleDocumentChange] has two calls in flight: the one of
    [handleLoadEpisodeBody()], which it does not await, and its own.
    Which answer comes in first is up to the network. *)
Inductive arrival : Type :=
| EpisodeBodyFirst
| ResultFirst.

(** Lines 542-584.  [handleLoadEpisodeBody()] runs up to its await (lines
    587-590), then [getGraphitiResult] is called; the two functions go on
    as their answers come in. *)
Definition handleDocumentChange (order : arrival) (val : json) : M unit :=
  if truthy val then
    id <- read selectedDocumentId ;;
    when (truthy id)
         (write loadingEpisodeBody TRUE ;;
          request previewEpisodeBody [id]) ;;
    request getGraphitiResult [val] ;;
    match order with
    | EpisodeBodyFirst =>
        spawn (when (truthy id) episode_body_loaded) ;;
        result_checked
    | ResultFirst =>
        then_run result_checked (when (truthy id) episode_body_loaded)
    end
  else
    write selectedDocumentHasGraph FALSE ;;
    write executionResult JNull.

(** The mapped node and edge objects of lines 846-867. *)
Definition entity_of_node (node : json) : json :=
  let properties := get "properties" node in
  JObj [ (lit "id", undefined_as_null (get "id" node));
         (lit "name", or_value (undefined_as_null (chain "name" properties))
                               (undefined_as_null (get "name" node)));
         (lit "uuid", or_value (undefined_as_null (chain "uuid" properties))
                               (undefined_as_null (get "id" node)));
         (lit "labels", or_value (undefined_as_null (get "labels" node)) (JArr []));
         (lit "properties", or_value (undefined_as_null properties) (JObj [])) ].

Definition relation_of_edge (edge : json) : json :=
  JObj [ (lit "id", undefined_as_null (get "id" edge));
         (lit "source", undefined_as_null (get "source" edge));
         (lit "target", undefined_as_null (get "target" edge));
         (lit "type", undefined_as_null (get "type" edge));
         (lit "source_node_uuid", undefined_as_null (get "source" edge));
         (lit "target_node_uuid", undefined_as_null (get "target" edge));
         (lit "label", undefined_as_null (get "type" edge));
         (lit "properties",
           or_value (undefined_as_null (get "properties" edge)) (JObj [])) ].

Definition count (l : list json) : jsstring :=
  ToString (JNum (inject_Z (Z.of_nat (length l)))).

(** Lines 838-878. *)
Definition fetchGraphData (groupId : json) : M unit :=
  write loadingGraph TRUE ;;
  finally
    (try_catch
       (res <- await getGraphitiGraph [groupId] ;;
        write graphData res ;;
        nodes <- field "nodes" res ;;
        entities <- (if truthy_opt nodes
                     then map_array entity_of_node (undefined_as_null nodes)
                     else ret []) ;;
        write entityListData (JArr entities) ;;
        edges <- field "edges" res ;;
        relations <- (if truthy_opt edges
                      then map_array relation_of_edge (undefined_as_null edges)
                      else ret []) ;;
        write edgeListData (JArr relations) ;;
        toast Success (GRAPH_LOADED_1 ++ count entities ++ GRAPH_LOADED_2
                       ++ count relations ++ GRAPH_LOADED_3))
       (fun err => toast Error (GRAPH_LOAD_FAILED ++ detail_or_message err)))
    (write loadingGraph FALSE).

Definition load_graph_of (res : json) : M unit :=
  group_id <- field "group_id" res ;;
  if truthy_opt group_id then fetchGraphData (undefined_as_null group_id)
  else ret tt.

(** The argument of [step1GraphitiEpisode] (lines 717-727). *)
Definition episode_request (st : Eff.store name) (parse_mode template_config : json) : json :=
  JObj [ (lit "upload_id", st selectedDocumentId);
         (lit "episode_body", st episodeBody);
         (lit "template_config_json", template_config);
         (lit "template_mode", st templateMode);
         (lit "parse_mode", parse_mode);
         (lit "provider", st llmProvider);
         (lit "temperature", st llmTemperature);
         (lit "system_prompt", st systemPrompt);
         (lit "user_prompt_template", st userPromptTemplate) ].

Definition mode_name (parse_mode : json) : jsstring :=
  match parse_mode with
  | JStr m => if str_eqb m (lit "summary_parse") then SUMMARY_PARSE else FULL_PARSE
  | _ => FULL_PARSE
  end.

Definition reset_executing : M unit :=
  write executing FALSE ;;
  write executionStatus EMPTY.

(** Lines 729-804: what follows the answer of [step1GraphitiEpisode]. *)
Definition after_build (parse_mode template_config res : json) : M unit :=
  if truthy res && is_true (get "needs_confirmation" res) then
    confirm (RebuildGraphiti parse_mode template_config) ;;
    reset_executing
  else if truthy res && is_false (get "success" res)
          && negb (truthy_opt (get "needs_confirmation" res)) then
    emit ConsoleError ;;
    toast Error (text_or (get "message" res) EXEC_FAILED_PLAIN) ;;
    reset_executing
  else
    toast Success (PROCESSED_1 ++ mode_name parse_mode ++ PROCESSED_2) ;;
    try_catch
      (id <- read selectedDocumentId ;;
       resultRes <- await getGraphitiResult [id] ;;
       success <- field "success" resultRes ;;
       if truthy_opt success then
         write executionResult resultRes ;;
         toast Success SUMMARY_LOADED ;;
         load_graph_of resultRes
       else
         write executionResult res ;;
         toast Warning SUMMARY_FAILED_BASIC ;;
         load_graph_of res)
      (fun err =>
         write executionResult res ;;
         toast Warning (SUMMARY_FAILED ++ detail_or_message err) ;;
         load_graph_of res).

(** Lines 715-811. *)
Definition executeGraphitiWithMode (parse_mode template_config : json) : M unit :=
  finally
    (try_catch
       (st <- snapshot ;;
        res <- await step1GraphitiEpisode [episode_request st parse_mode template_config] ;;
        after_build parse_mode template_config res)
       (fun err => toast Error (EXEC_FAILED ++ detail_or_message err)))
    reset_executing.

(** Lines 682-713. *)
Definition handleExecuteGraphiti : M unit :=
  id <- read selectedDocumentId ;;
  if negb (truthy id) then toast Warning SELECT_DOCUMENT_FIRST
  else
    write executing TRUE ;;
    write executionStatus (JStr PROCESSING) ;;
    try_catch
      (text <- read templateConfigJson ;;
       mode <- read selectedParseMode ;;
       let parse_mode := or_value mode (JStr (lit "summary_parse")) in
       if truthy text then
         match JSON_parse (ToString text) with
         | Some template_config => executeGraphitiWithMode parse_mode template_config
         | None =>
             toast Error TEMPLATE_JSON_ERROR ;;
             write executing FALSE
         end
       else executeGraphitiWithMode parse_mode JNull)
      (fun err =>
         toast Error (EXEC_FAILED ++ detail_or_message err) ;;
         write executing FALSE).

Definition clear_graph : M unit :=
  write executionResult JNull ;;
  write graphData JNull ;;
  write entityListData (JArr []) ;;
  write edgeListData (JArr []).

(** Lines 888-963, up to the dialog. *)
Definition handleDeleteGraph : M unit :=
  id <- read selectedDocumentId ;;
  if negb (truthy id) then toast Warning SELECT_DOCUMENT_FIRST
  else
    result <- read executionResult ;;
    known <- (if truthy_opt (get "group_id" result) then ret true
              else
                try_catch
                  (res <- await getGraphitiResult [id] ;;
                   success <- field "success" res ;;
                   if truthy_opt success && truthy_opt (get "group_id" res) then
                     write executionResult res ;;
                     ret true
                   else
                     toast Warning NOT_PROCESSED ;;
                     ret false)
                  (fun err =>
                     toast Error (GET_RESULT_FAILED ++ detail_or_message err) ;;
                     ret false)) ;;
    when known (confirm DeleteGraphiti).

(** The [onOk] callbacks (lines 738-753 and 926-961). *)
Definition onOk (d : dialog) : M unit :=
  match d with
  | RebuildGraphiti parse_mode template_config =>
      try_catch
        (write executing TRUE ;;
         write executionStatus (JStr DELETING_OLD_EPISODE) ;;
         id <- read selectedDocumentId ;;
         _ <- await deleteGraphitiGraph [id] ;;
         toast Success DELETED_OLD_EPISODE ;;
         executeGraphitiWithMode parse_mode template_config)
        (fun err =>
           toast Error (DELETE_FAILED ++ detail_or_message err) ;;
           reset_executing)
  | DeleteGraphiti =>
      write deletingGraph TRUE ;;
      finally
        (try_catch
           (id <- read selectedDocumentId ;;
            res <- await deleteGraphitiGraph [id] ;;
            success <- field "success" res ;;
            if truthy_opt success then
              toast Success GRAPH_DELETED ;;
              clear_graph ;;
              write templateConfigJson EMPTY ;;
              write generatedTemplateJson JNull ;;
              write episodeBody EMPTY ;;
              write originalEpisodeBody EMPTY
            else
              toast Warning (PARTIAL_1 ++ text_or (get "message" res) PARTIAL_FALLBACK) ;;
              clear_graph)
           (fun err => toast Error (GRAPH_DELETE_FAILED ++ detail_or_message err)))
        (write deletingGraph FALSE)
  | _ => ret tt
  end.

(** The [onCancel] callbacks (lines 754-757; the delete dialog has none). *)
Definition onCancel (d : dialog) : M unit :=
  match d with
  | RebuildGraphiti _ _ => reset_executing
  | _ => ret tt
  end.

(** What the user can do in this tab that reaches the backend. *)
Inductive action : Type :=
| ChangeDocument (order : arrival) (val : json)
| ReloadEpisodeBody
| ClickExecute
| ClickDelete.

Definition handler (a : action) : M unit :=
  match a with
  | ChangeDocument order val => handleDocumentChange order val
  | ReloadEpisodeBody => handleLoadEpisodeBody
  | ClickExecute => handleExecuteGraphiti
  | ClickDelete => handleDeleteGraph
  end.

End Handlers.

End GraphitiTab.

(** ** The Cognee tab (KnowledgeBaseDetailView.vue, lines 5346-5620) *)

Module CogneeTab.

Import SSE.

Inductive name : Type :=
| selectedDocumentId
| selectedDoc
| executing
| executionStatus
| executionResult
| graphData
| viewGraphData
| graphModalVisible
| loadingMapping
| chunksCogneeMapping.

Scheme Equality for name.

Definition M : Type -> Type := Eff.M name.
Definition world : Type := Eff.world name.
Definition write (r : name) (v : json) : M unit := Eff.write name_beq r v.

Local Open Scope eff_scope.

(** ['请先选择文档'] *)
Definition SELECT_DOCUMENT_FIRST : jsstring :=
  [35831; 20808; 36873; 25321; 25991; 26723]%N.

(** ['正在分析文档并构建知识图谱...'] *)
Definition BUILDING : jsstring :=
  [27491; 22312; 20998; 26512; 25991; 26723; 24182; 26500; 24314; 30693; 35782; 22270; 35889; 46; 46; 46]%N.

(** ['执行失败'] *)
Definition EXEC_FAILED_PLAIN : jsstring :=
  [25191; 34892; 22833; 36133]%N.

(** ['Cognee 处理完成'] *)
Definition COGNEE_DONE : jsstring :=
  [67; 111; 103; 110; 101; 101; 32; 22788; 29702; 23436; 25104]%N.

(** ['执行失败: '] *)
Definition EXEC_FAILED : jsstring :=
  [25191; 34892; 22833; 36133; 58; 32]%N.

(** ['正在删除旧的Cognee知识图谱...'] *)
Definition DELETING_OLD_GRAPH : jsstring :=
  [27491; 22312; 21024; 38500; 26087; 30340; 67; 111; 103; 110; 101; 101; 30693; 35782; 22270; 35889; 46; 46; 46]%N.

(** ['已删除旧的Cognee知识图谱，开始重建...'] *)
Definition DELETED_OLD_GRAPH : jsstring :=
  [24050; 21024; 38500; 26087; 30340; 67; 111; 103; 110; 101; 101; 30693; 35782; 22270; 35889; 65292; 24320; 22987; 37325; 24314; 46; 46; 46]%N.

(** ['删除失败: '] *)
Definition DELETE_FAILED : jsstring :=
  [21024; 38500; 22833; 36133; 58; 32]%N.

(** ['Cognee知识图谱和Milvus向量已删除'] *)
Definition GRAPH_DELETED : jsstring :=
  [67; 111; 103; 110; 101; 101; 30693; 35782; 22270; 35889; 21644; 77; 105; 108; 118; 117; 115; 21521; 37327; 24050; 21024; 38500]%N.

Definition EMPTY : json := JStr [].
Definition TRUE : json := JBool true.
Definition FALSE : json := JBool false.

Definition detail_or_message (err : js_error) : jsstring :=
  or_else (detail err) (message err).

Section Handlers.

Context {browser : Browser}.

(** Lines 5393-5463 read the template forms, validate them and assemble
    the argument of [step2CogneeBuild].  They call no endpoint and open no
    dialog; which toasts they raise and what they assemble is left open.
    The result is [None] when a validation fails (the handler then
    returns). *)
Variable prepare : Eff.store name -> list (level * jsstring) * option json.

Definition notify (notices : list (level * jsstring)) : M unit :=
  fold_right (fun n rest => toast (fst n) (snd n) ;; rest) (ret tt) notices.

Definition text_or (o : option json) (fallback : jsstring) : jsstring :=
  match o with
  | Some v => if truthy v then ToString v else fallback
  | None => fallback
  end.

Definition reset_executing : M unit :=
  write executing FALSE ;;
  write executionStatus EMPTY.

(** Lines 5346-5359. *)
Definition loadChunksCogneeMapping : M unit :=
  id <- read selectedDocumentId ;;
  if negb (truthy id) then ret tt
  else
    write loadingMapping TRUE ;;
    finally
      (try_catch
         (response <- await getChunksCogneeMapping [id] ;;
          when (truthy response && truthy_opt (get "mappings" response))
               (write chunksCogneeMapping response))
         (fun _ => write chunksCogneeMapping (JObj [(lit "mappings", JArr [])])))
      (write loadingMapping FALSE).

(** Lines 5483-5550: what follows the answer of [step2CogneeBuild]. *)
Definition after_build (skipConfirmation : bool) (result : json) : M unit :=
  if negb skipConfirmation && truthy result
     && is_true (get "needs_confirmation" result) then
    confirm RebuildCognee ;;
    reset_executing
  else if truthy result && is_false (get "success" result)
          && negb (truthy_opt (get "needs_confirmation" result)) then
    toast Error (text_or (get "message" result) EXEC_FAILED_PLAIN) ;;
    reset_executing
  else
    write executionResult result ;;
    toast Success COGNEE_DONE ;;
    group_id <- field "group_id" result ;;
    doc <- read selectedDoc ;;
    let groupId := or_value (undefined_as_null group_id)
                            (undefined_as_null (get "document_id" doc)) in
    when (truthy groupId)
         (graphResult <- await getCogneeGraph [groupId] ;;
          write graphData graphResult) ;;
    loadChunksCogneeMapping.


(** Lines 5386-5557.  [skipConfirmation] is the truth value of the
    argument. *)
Definition handleExecute (skipConfirmation : bool) : M unit :=
  id <- read selectedDocumentId ;;
  if negb (truthy id) then toast Warning SELECT_DOCUMENT_FIRST
  else
    write executing TRUE ;;
    write executionStatus (JStr BUILDING) ;;
    finally
      (try_catch
         (st <- snapshot ;;
          notify (fst (prepare st)) ;;
          match snd (prepare st) with
          | None => write executing FALSE
          | Some request =>
              result <- await step2CogneeBuild [request] ;;
              after_build skipConfirmation result
          end)
         (fun error => toast Error (EXEC_FAILED ++ or_else (message error) UNKNOWN_ERROR)))
      reset_executing.

(** Lines 5589-5620, up to the dialog. *)
Definition handleDeleteGraph : M unit :=
  id <- read selectedDocumentId ;;
  if negb (truthy id) then toast Warning SELECT_DOCUMENT_FIRST
  else confirm DeleteCognee.

(** The [onOk] callbacks (lines 5495-5522 and 5601-5618). *)
Definition onOk (d : dialog) : M unit :=
  match d with
  | RebuildCognee =>
      destroyAll ;;
      spawn
        (try_catch
           (write executing TRUE ;;
            write executionStatus (JStr DELETING_OLD_GRAPH) ;;
            id <- read selectedDocumentId ;;
            _ <- await deleteCogneeGraph [id] ;;
            toast Success DELETED_OLD_GRAPH ;;
            handleExecute true)
           (fun err =>
              toast Error (DELETE_FAILED ++ detail_or_message err) ;;
              reset_executing))
  | DeleteCognee =>
      try_catch
        (id <- read selectedDocumentId ;;
         _ <- await deleteCogneeGraph [id] ;;
         toast Success GRAPH_DELETED ;;
         write executionResult JNull ;;
         write graphData JNull ;;
         write viewGraphData JNull ;;
         visible <- read graphModalVisible ;;
         when (truthy visible) (write graphModalVisible FALSE))
        (fun err => toast Error (DELETE_FAILED ++ detail_or_message err))
  | _ => ret tt
  end.

(** The [onCancel] callbacks (lines 5523-5526; the delete dialog has
    none). *)
Definition onCancel (d : dialog) : M unit :=
  match d with
  | RebuildCognee => reset_executing
  | _ => ret tt
  end.

(** What the user can do in this tab that reaches the backend; the
    argument of [handleExecute] is taken by its truth value. *)
Inductive action : Type :=
| ClickExecute (skipConfirmation : bool)
| ClickDelete.

Definition handler (a : action) : M unit :=
  match a with
  | ClickExecute skipConfirmation => handleExecute skipConfirmation
  | ClickDelete => handleDeleteGraph
  end.

End Handlers.

End CogneeTab.

(** ** The knowledge-base view (KnowledgeBaseDetailView.vue, lines
       1415-1466 and 2961-2986) *)

Module KnowledgeBaseView.

Import SSE.

Inductive name : Type :=
| selectedKB
| deletingDocumentId
| documentsLoading
| documents
| pagination_total
| pagination_current
| pagination_pageSize
| searchKeyword
| kbDocumentGroupIds.

Scheme Equality for name.

Definition M : Type -> Type := Eff.M name.
Definition world : Type := Eff.world name.
Definition write (r : name) (v : json) : M unit := Eff.write name_beq r v.

Local Open Scope eff_scope.

(** ['文档已从知识库移除'] *)
Definition REMOVED : jsstring :=
  [25991; 26723; 24050; 20174; 30693; 35782; 24211; 31227; 38500]%N.

(** ['移除文档失败: '] *)
Definition REMOVE_FAILED : jsstring :=
  [31227; 38500; 25991; 26723; 22833; 36133; 58; 32]%N.

(** ['加载文档列表失败: '] *)
Definition LOAD_DOCUMENTS_FAILED : jsstring :=
  [21152; 36733; 25991; 26723; 21015; 34920; 22833; 36133; 58; 32]%N.

Definition TRUE : json := JBool true.
Definition FALSE : json := JBool false.

(** [{ page, page_size, search: searchKeyword.value || undefined }] *)
Definition page_params (page page_size search : json) : json :=
  JObj ([ (lit "page", page); (lit "page_size", page_size) ] ++
        (if truthy search then [ (lit "search", search) ] else [])).

(** [Math.ceil(res.total / 100)] when [res.total > 0], for a [total] that
    is a number. *)
Definition total_pages (total : option json) : nat :=
  match total with
  | Some (JNum q) =>
      if Qle_bool q 0 then 0
      else Z.to_nat (Qceiling (q / 100))
  | _ => 0
  end.

(** The filter and map of lines 1447-1453 on one document. *)
Definition completed_id (doc : json) : M (list json) :=
  document_id <- field "document_id" doc ;;
  match document_id with
  | Some (JStr id) =>
      match id with
      | [] => ret []
      | _ => match trim id with
             | [] => ret []
             | _ => ret [JStr id]
             end
      end
  | Some v => if truthy v then throw TYPE_ERROR else ret []
  | None => ret []
  end.

Fixpoint completed_ids (docs : list json) : M (list json) :=
  match docs with
  | [] => ret []
  | doc :: rest =>
      ids <- completed_id doc ;;
      more <- completed_ids rest ;;
      ret (ids ++ more)
  end.

(** The loop of lines 1441-1455 from [page] on, [count] pages to go. *)
Fixpoint load_pages (count : nat) (page : Z) : M (list json) :=
  match count with
  | O => ret []
  | S count' =>
      kb <- read selectedKB ;;
      kb_id <- field "id" kb ;;
      search <- read searchKeyword ;;
      pageRes <- await getKnowledgeBaseDocuments
                       [undefined_as_null kb_id;
                        page_params (JNum (inject_Z page)) (JNum 100) search] ;;
      docs <- field "documents" pageRes ;;
      ids <- match docs with
             | Some (JArr items) => completed_ids items
             | Some v => if truthy v then throw TYPE_ERROR else ret []
             | None => ret []
             end ;;
      more <- load_pages count' (page + 1) ;;
      ret (ids ++ more)
  end.

(** Lines 1415-1466. *)
Definition loadDocuments : M unit :=
  kb <- read selectedKB ;;
  if negb (truthy kb) then ret tt
  else
    kb_id <- field "id" kb ;;
    write documentsLoading TRUE ;;
    finally
      (try_catch
         (page <- read pagination_current ;;
          page_size <- read pagination_pageSize ;;
          search <- read searchKeyword ;;
          res <- await getKnowledgeBaseDocuments
                       [undefined_as_null kb_id; page_params page page_size search] ;;
          docs <- field "documents" res ;;
          write documents (or_value (undefined_as_null docs) (JArr [])) ;;
          write pagination_total
                (or_value (undefined_as_null (get "total" res)) (JNum 0)) ;;
          ids <- load_pages (total_pages (get "total" res)) 1 ;;
          write kbDocumentGroupIds (JArr ids))
         (fun error =>
            emit ConsoleError ;;
            toast Error (LOAD_DOCUMENTS_FAILED ++ or_else (message error) UNKNOWN_ERROR) ;;
            write documents (JArr []) ;;
            write pagination_total (JNum 0) ;;
            write kbDocumentGroupIds (JArr [])))
      (write documentsLoading FALSE).

(** Lines 2962-2986, up to the dialog; the dialog's text reads
    [document.file_name]. *)
Definition handleDeleteDocument (document : json) : M unit :=
  _ <- field "file_name" document ;;
  confirm (RemoveDocument document).

(** The [onOk] callback (lines 2969-2984). *)
Definition onOk (d : dialog) : M unit :=
  match d with
  | RemoveDocument document =>
      kb <- read selectedKB ;;
      if negb (truthy kb) then ret tt
      else
        document_id <- field "id" document ;;
        write deletingDocumentId (undefined_as_null document_id) ;;
        finally
          (try_catch
             (kb_id <- field "id" kb ;;
              _ <- await deleteKnowledgeBaseDocument
                         [undefined_as_null kb_id; undefined_as_null document_id] ;;
              toast Success REMOVED ;;
              loadDocuments)
             (fun error =>
                emit ConsoleError ;;
                toast Error (REMOVE_FAILED ++ or_else (message error) UNKNOWN_ERROR)))
          (write deletingDocumentId JNull)
  | _ => ret tt
  end.

Definition onCancel (d : dialog) : M unit := ret tt.

(** What the user can do in this view with a document of the list. *)
Inductive action : Type :=
| Reload
| ClickRemove (document : json).

Definition handler (a : action) : M unit :=
  match a with
  | Reload => loadDocuments
  | ClickRemove document => handleDeleteDocument document
  end.

End KnowledgeBaseView.

(** ** The smart-retrieval tab: the request of [handleExecute]
       (lines 203-247) *)

Module SmartRetrievalTab.

Record form : Type := mkForm {
  queryText : jsstring;
  topK : json;
  minScore : json;
  enableRefine : json;
  searchMode : jsstring;
  selectedGroupIds : option (list jsstring)
}.

Definition selected (f : form) : bool :=
  str_eqb (searchMode f) (lit "selected").

Definition rejected_by_guards (f : form) : bool :=
  match trim (queryText f) with
  | [] => true
  | _ =>
      selected f &&
      match selectedGroupIds f with
      | None | Some [] => true
      | Some _ => false
      end
  end.

Definition params (f : form) : list (jsstring * json) :=
  [ (lit "query", JStr (queryText f));
    (lit "top_k", topK f);
    (lit "min_score", minScore f);
    (lit "enable_refine", enableRefine f) ] ++
  (if selected f
   then match selectedGroupIds f with
        | Some ids => [ (lit "group_ids", strings ids) ]
        | None => []
        end
   else []).

Definition smart_retrieval_body (f : form) : option (list (jsstring * json)) :=
  if rejected_by_guards f then None else Some (params f).

(** *** [handleExecute] (lines 202-314) *)

Inductive name : Type :=
| queryText_ref
| topK_ref
| minScore_ref
| enableRefine_ref
| searchMode_ref
| selectedGroupIds_ref
| executing
| executionStatus
| executionResult
| executionProgress
| currentStepIndex
| elapsedTime
| executionSteps
| elapsedInterval
| progressInterval.

Scheme Equality for name.

Definition M : Type -> Type := Eff.M name.
Definition world : Type := Eff.world name.
Definition write (r : name) (v : json) : M unit := Eff.write name_beq r v.

Local Open Scope eff_scope.

(** ['请输入查询文本'] *)
Definition ENTER_QUERY : jsstring :=
  [35831; 36755; 20837; 26597; 35810; 25991; 26412]%N.

(** ['请选择要检索的文档'] *)
Definition SELECT_DOCUMENTS : jsstring :=
  [35831; 36873; 25321; 35201; 26816; 32034; 30340; 25991; 26723]%N.

(** ['正在初始化...'] *)
Definition INITIALIZING : jsstring :=
  [27491; 22312; 21021; 22987; 21270; 46; 46; 46]%N.

(** ['0分0秒'] *)
Definition ZERO_ELAPSED : jsstring :=
  [48; 20998; 48; 31186]%N.

(** ['检索完成！'] *)
Definition RETRIEVAL_DONE : jsstring :=
  [26816; 32034; 23436; 25104; 65281]%N.

(** ['执行失败: '] *)
Definition EXEC_FAILED : jsstring :=
  [25191; 34892; 22833; 36133; 58; 32]%N.

Definition string_of (v : json) : jsstring :=
  match v with JStr s => s | _ => [] end.

Definition ids_of (v : json) : option (list jsstring) :=
  match v with
  | JArr items => Some (map string_of items)
  | _ => None
  end.

(** The form as the refs hold it: [queryText] and [searchMode] are
    strings, [selectedGroupIds] an array of strings or nothing. *)
Definition form_of (st : Eff.store name) : form :=
  mkForm (string_of (st queryText_ref)) (st topK_ref) (st minScore_ref)
         (st enableRefine_ref) (string_of (st searchMode_ref))
         (ids_of (st selectedGroupIds_ref)).

Section Handlers.

(** The step list of the progress display and the text of the success
    toast (lines 222-229, 253-262, 267-294 and 299-301) are computed from
    the refs and the result without any call; they are left open. *)
Variable initial_steps : Eff.store name -> json.
Variable step_count : json -> json.
Variable finished_steps : json -> json.
Variable failed_steps : json -> json -> json.
Variable success_text : json -> json -> jsstring.

Definition stop_intervals : M unit :=
  write elapsedInterval JNull ;;
  write progressInterval JNull.

Definition handleExecute : M unit :=
  st <- snapshot ;;
  let f := form_of st in
  match trim (queryText f) with
  | [] => toast Warning ENTER_QUERY
  | _ =>
      if selected f
         && match selectedGroupIds f with
            | None | Some [] => true
            | Some _ => false
            end
      then toast Warning SELECT_DOCUMENTS
      else
        write executing (JBool true) ;;
        write executionStatus (JStr INITIALIZING) ;;
        write executionResult JNull ;;
        write executionProgress (JNum 0) ;;
        write currentStepIndex (JNum 0) ;;
        write elapsedTime (JStr ZERO_ELAPSED) ;;
        write executionSteps (initial_steps st) ;;
        write elapsedInterval (JBool true) ;;
        write progressInterval (JBool true) ;;
        finally
          (try_catch
             (result <- await smartRetrieval [JObj (params f)] ;;
              write executionProgress (JNum 100) ;;
              current <- read executionSteps ;;
              write currentStepIndex (step_count current) ;;
              write executionSteps (finished_steps current) ;;
              write executionResult result ;;
              write executionStatus (JStr RETRIEVAL_DONE) ;;
              _ <- field "stage1" result ;;
              enable <- read enableRefine_ref ;;
              toast Success (success_text result enable))
             (fun error =>
                emit ConsoleError ;;
                toast Error (EXEC_FAILED
                             ++ or_else (detail error)
                                        (or_else (message error) UNKNOWN_ERROR)) ;;
                current <- read executionSteps ;;
                index <- read currentStepIndex ;;
                write executionSteps (failed_steps current index)))
          (write executing (JBool false) ;;
           write executionStatus (JStr []) ;;
           stop_intervals)
  end.

End Handlers.

End SmartRetrievalTab.

(** ** Sample data for worked runs *)

Module Samples.

(** Statistics kept as the list of the objects received. *)
Definition stats_log : LLMGenerateTab.StatsOps :=
  {| LLMGenerateTab.stats := list json;
     LLMGenerateTab.update_statistics := fun st d => st ++ [d];
     LLMGenerateTab.ensure_total_time := fun st => st |}.

Definition blank_line : string :=
  String (ascii_of_nat 10) (String (ascii_of_nat 10) EmptyString).

Definition quote : string := String (ascii_of_nat 34) EmptyString.

(** A JSON string literal and a one-member JSON object. *)
Definition str (s : string) : string := (quote ++ s ++ quote)%string.

Definition obj (key value : string) : string :=
  ("{" ++ quote ++ key ++ quote ++ ":" ++ value ++ "}")%string.

(** One event of the stream: [data: <payload>] and an empty line. *)
Definition sse (payload : string) : string :=
  ("data: " ++ payload ++ blank_line)%string.

(** Two content events, the closing event and a content event after it. *)
Definition answer_bytes : list Byte.byte :=
  ReferenceBrowser.bytes
    (sse (obj "content" (str "Hel")) ++ sse (obj "content" (str "lo"))
     ++ sse (obj "done" "true") ++ sse (obj "content" (str "late"))).

(** The same bytes, cut in the middle of the first event. *)
Definition answer_in_two_reads : SSE.body :=
  SSE.mkBody [firstn 12 answer_bytes; skipn 12 answer_bytes] SSE.Closed.

(** A content event followed by an error event and a content event. *)
Definition failing_stream : SSE.body :=
  SSE.mkBody
    [ ReferenceBrowser.bytes
        (sse (obj "content" (str "Hi")) ++ sse (obj "error" (str "boom"))
         ++ sse (obj "content" (str "late"))) ]
    SSE.Pending.

(** A content event and a closing event that carries content too. *)
Definition closing_event_with_content : SSE.body :=
  SSE.mkBody
    [ ReferenceBrowser.bytes
        (sse (obj "content" (str "Hello "))
         ++ sse ("{" ++ quote ++ "content" ++ quote ++ ":" ++ str "world" ++ ","
                 ++ quote ++ "done" ++ quote ++ ":true}")) ]
    SSE.Closed.

(** A schedule in which the typewriter fires after every reader event. *)
Definition with_ticks (tr : list SSE.event) : list LLMGenerateTab.occurrence :=
  flat_map (fun ev => [LLMGenerateTab.Reader ev; LLMGenerateTab.Tick]) tr.

(** A schedule of the chat view is a list of reader events. *)
Definition chat_step (s : ChatView.session) (ev : SSE.event) : ChatView.session :=
  match ev with
  | SSE.EvChunk c => ChatView.onChunk c s
  | SSE.EvDone => ChatView.onDone s
  | SSE.EvError e => ChatView.onError e s
  | _ => s
  end.

(** A retrieval result with two chunks and one Graphiti entity. *)
Definition retrieved : LLMGenerateTab.retrieval :=
  LLMGenerateTab.mkRetrieval
    (Some [LLMGenerateTab.mkScored 80 (JStr (lit "chunk A"));
           LLMGenerateTab.mkScored 95 (JStr (lit "chunk B"))])
    (Some [LLMGenerateTab.mkScored 90 (JStr (lit "entity C"))])
    None.

(** The LLM-generate tab with the scope left on all documents. *)
Definition all_documents_form : LLMGenerateTab.form :=
  LLMGenerateTab.mkForm (lit "what is new") (JNum 20) (JNum 60) (lit "all")
                        (Some []) true.

(** The smart-retrieval tab restricted to two documents. *)
Definition selected_form : SmartRetrievalTab.form :=
  SmartRetrievalTab.mkForm (lit "what is new") (JNum 20) (JNum 60) (JBool true)
                           (lit "selected") (Some [lit "doc-1"; lit "doc-2"]).

(** The Graphiti tab with document 7 selected and its graph known. *)
Definition graphiti_refs : Eff.store GraphitiTab.name :=
  fun r =>
    match r with
    | GraphitiTab.selectedDocumentId => JNum 7
    | GraphitiTab.executionResult => JObj [(lit "group_id", JStr (lit "g1"))]
    | _ => JNull
    end.

(** The backend answers the delete call with [{success: true}]. *)
Definition graphiti_delete_world : GraphitiTab.world :=
  Eff.mkWorld [Resolved (JObj [(lit "success", JBool true)])] [] [] graphiti_refs.

(** The Cognee tab with document 7 selected; the forms are valid and
    raise no toast. *)
Definition cognee_refs : Eff.store CogneeTab.name :=
  fun r =>
    match r with
    | CogneeTab.selectedDocumentId => JNum 7
    | _ => JNull
    end.

Definition cognee_prepare (st : Eff.store CogneeTab.name)
  : list (level * jsstring) * option json :=
  ([], Some (JObj [(lit "upload_id", st CogneeTab.selectedDocumentId)])).

(** The backend answers the build call with [{needs_confirmation: true}],
    then a mapping request with [{}]. *)
Definition cognee_needs_confirmation_world : CogneeTab.world :=
  Eff.mkWorld [Resolved (JObj [(lit "needs_confirmation", JBool true)]);
               Resolved (JObj [])]
              [] [] cognee_refs.

(** The backend answers the first call and rejects the second, without a
    detail. *)
Definition graphiti_rejecting_world : GraphitiTab.world :=
  Eff.mkWorld [Resolved (JObj [(lit "episode_body", JStr (lit "text"))]);
               Rejected (mkError (lit "Network Error") [])]
              [] [] graphiti_refs.

End Samples.

(* ================================================================== *)
(** * What the properties speak of *)

(** ** Traces of the reader *)

Section StreamPredicates.

Import SSE.

Definition end_events (fin : ending) : list event :=
  match fin with
  | Closed => [EvDone]
  | Failed e => [EvError e]
  | Pending => []
  end.

Definition quiet (tr : list event) : bool :=
  forallb (fun ev => negb (terminal ev)) tr.

Definition ends_at_terminal (tr : list event) : Prop :=
  forall pre ev post, tr = pre ++ ev :: post -> terminal ev = true -> post = [].

End StreamPredicates.

(** ** The text of a stream *)

Section StreamText.

Import SSE.

Context {browser : Browser}.

(** The lines of a body that a blank line completes. *)
Definition complete_lines (b : body) : list jsstring :=
  removelast (split (snd (decode dec_init (concat (reads b))))).

(** The object of a [data:] line, when [JSON.parse] accepts the line. *)
Definition payload (line : jsstring) : option json :=
  if startsWith DATA_PREFIX line then JSON_parse (slice_from 6 line) else None.

(** The [content] of an event, when it is a string. *)
Definition string_content (data : json) : jsstring :=
  match get "content" data with
  | Some (JStr text) => text
  | _ => []
  end.

(** An event that closes the stream: its [error] or its [done] is truthy. *)
Definition closing (data : json) : bool :=
  truthy_opt (get "error" data) || truthy_opt (get "done" data).

(** The [content] of an event as [onChunk] is to get it: any truthy
    value. *)
Definition content_to_deliver (data : json) : list json :=
  match get "content" data with
  | Some c => if truthy c then [c] else []
  | None => []
  end.

(** The contents to deliver of the events that come before the first
    closing event. *)
Fixpoint deliveries_before_closing (lines : list jsstring) : list json :=
  match lines with
  | [] => []
  | line :: rest =>
      match payload line with
      | Some data =>
          if closing data then []
          else content_to_deliver data ++ deliveries_before_closing rest
      | None => deliveries_before_closing rest
      end
  end.

(** What [onChunk] was called with for the [content] of an event, call by
    call. *)
Definition content_calls (tr : list event) : list json :=
  flat_map (fun ev => match ev with
                      | EvChunk (Content v) => [v]
                      | _ => []
                      end) tr.

(** The string contents of all the events of a stream, in order. *)
Fixpoint all_contents (lines : list jsstring) : jsstring :=
  match lines with
  | [] => []
  | line :: rest =>
      match payload line with
      | Some data => string_content data ++ all_contents rest
      | None => all_contents rest
      end
  end.

(** The string contents of the events that come before the first closing
    event. *)
Fixpoint contents_before_closing (lines : list jsstring) : jsstring :=
  match lines with
  | [] => []
  | line :: rest =>
      match payload line with
      | Some data =>
          if closing data then []
          else string_content data ++ contents_before_closing rest
      | None => contents_before_closing rest
      end
  end.

End StreamText.

(** ** States of a streaming session *)

Section SessionPredicates.

Import SSE LLMGenerateTab.

Context {browser : Browser} {stats_ops : StatsOps}.

Definition consistent (s : session) : Prop :=
  displayedLength s <= length (pendingText s) /\
  streamingContent s = firstn (displayedLength s) (pendingText s).

End SessionPredicates.

(** ** A stream that nothing else in the tab disturbs *)

Section LoopPredicates.

Import SSE LLMGenerateLoop.

Context {browser : Browser} {stats_ops : LLMGenerateTab.StatsOps}.

(** A [handleExecute] call that waits for its retrieval starts a stream,
    and from then on only the timer and the reader of that stream take
    turns, as the schedule [os] has them: no click on the clear button, no
    other [handleExecute] call, no turn of an older stream. *)
Definition undisturbed (t : tab) (found : nat) (initial : LLMGenerateTab.stats)
           (os : list LLMGenerateTab.occurrence) : tab :=
  run t (Execute (Streams found initial) :: map (Of (length (closures t))) os).

(** The closure of the stream that [undisturbed] starts. *)
Definition own_closure (t0 t : tab) : option closure :=
  nth_error (closures t) (length (closures t0)).

End LoopPredicates.

(** ** Results of the conversion *)

Section ConversionPredicates.

Import LLMGenerateTab.

Definition desc (a b : llm_result) : Prop :=
  (result_score b <= result_score a)%Q.

(** Where an element of the result comes from. *)
Definition sourced (r : retrieval) (it : llm_result) : Prop :=
  result_score it = (score (origin it) / 100)%Q /\
  ((source it = DocumentChunk /\
    exists l, chunk_results r = Some l /\ In (origin it) l) \/
   (source it = Graphiti /\
    exists l, graphiti_entities r = Some l /\ In (origin it) l) \/
   (source it = Cognee /\
    exists l, cognee_entities r = Some l /\ In (origin it) l)).

End ConversionPredicates.

(** ** Request bodies *)

Definition keys (body : list (jsstring * json)) : list jsstring := map fst body.

Definition GROUP_IDS : jsstring := lit "group_ids".

(** ** Traces of an interaction *)

Definition is_delete (ef : effect) : bool :=
  match ef with
  | Call e _ => destructive e
  | _ => false
  end.

Definition is_confirm (ef : effect) : bool :=
  match ef with ConfirmShown _ => true | _ => false end.

Definition is_ok (ef : effect) : bool :=
  match ef with ChoseOk => true | _ => false end.

Definition is_choice (ef : effect) : bool :=
  match ef with ChoseOk | ChoseCancel => true | _ => false end.

Definition count (p : effect -> bool) (tr : list effect) : nat :=
  length (filter p tr).

(** At every point of the trace each delete call made so far is matched
    by an earlier OK of its own, and each choice by an earlier dialog of
    its own. *)
Definition gated (tr : list effect) : Prop :=
  forall pre post,
    tr = pre ++ post ->
    count is_delete pre <= count is_ok pre /\
    count is_choice pre <= count is_confirm pre.

Section EmitPredicates.

Variable ref : Type.

(** What a computation may add to the trace: at most [n] delete calls, no
    choice of the user, and a dialog event for every dialog it opens. *)
Definition emits (n : nat) (A : Type) (m : Eff.M ref A) : Prop :=
  forall w,
  exists evs,
    trace (snd (m w)) = trace w ++ evs /\
    count is_delete evs <= n /\
    count is_choice evs = 0 /\
    length (opened (snd (m w))) <= length (opened w) + count is_confirm evs.

End EmitPredicates.

(** ** Reports of rejected calls *)

(** What [handleLoadEpisodeBody] raises once [previewEpisodeBody] is
    answered by [p]: its fixed error toast when the call is rejected or
    the answer is [null], nothing otherwise. *)
Definition episode_body_notice (p : answer) : list effect :=
  match p with
  | Rejected _ | Resolved JNull => [Toast Error GraphitiTab.LOAD_EPISODE_BODY_FAILED]
  | Resolved _ => []
  end.

(** The answers that [handleDocumentChange] gets, in the order in which
    they come in: [p] for [previewEpisodeBody], [a] for
    [getGraphitiResult]. *)
Definition in_order (order : GraphitiTab.arrival) (p a : answer) : list answer :=
  match order with
  | GraphitiTab.EpisodeBodyFirst => [p; a]
  | GraphitiTab.ResultFirst => [a; p]
  end.

(** ** The rebuild of an existing graph *)

Section RebuildPredicates.

Context {browser : SSE.Browser}.

Variable prepare : Eff.store CogneeTab.name -> list (level * jsstring) * option json.

Import GraphitiTab.






End RebuildPredicates.

(* ================================================================== *)
(** * Further code of the same files *)

(** ** Responses of [step7LLMGenerateStream] that settle *)

Module Settling.

Import SSE.

(** Whether the promise chain of lines 234-307 comes to an end: the
    [fetch] rejects, the response is not [ok], or the body closes or
    fails. *)
Definition settles (r : response) : bool :=
  match r with
  | FetchRejected _ | NotOk _ => true
  | Ok b => match finish b with Pending => false | Closed | Failed _ => true end
  end.

End Settling.

(** ** The LLM-generate tab: what [handleExecute] derives from the
       converted results (unnamed/part_002, lines 1474-1505) *)

Module LLMResults.

Import LLMGenerateTab.

(** The array [results] of [convertV4ResultsToLLMFormat] before it is
    sorted and cut (lines 1324-1377). *)
Definition candidates (retrievalResult : retrieval) : list llm_result :=
  push_all DocumentChunk (chunk_results retrievalResult) ++
  push_all Graphiti (graphiti_entities retrievalResult) ++
  push_all Cognee (cognee_entities retrievalResult).

(** The number of items of an array that may be missing. *)
Definition available (items : option (list scored)) : nat :=
  match items with Some l => length l | None => 0 end.

(** [r.source === 'Graphiti'] and [r.source === 'Cognee']. *)
Definition is_graphiti (r : llm_result) : bool :=
  match source r with Graphiti => true | _ => false end.

Definition is_cognee (r : llm_result) : bool :=
  match source r with Cognee => true | _ => false end.

(** [retrieval_statistics] of [executionResult] (lines 1496-1502). *)
Record retrieval_statistics : Type := mkStatistics {
  total_results : nat;
  chunk_count : nat;
  entity_count : nat;
  graphiti_count : nat;
  cognee_count : nat
}.

Definition retrieval_statistics_of (llmFormatResults : list llm_result)
  : retrieval_statistics :=
  mkStatistics
    (length llmFormatResults)
    (length (filter (fun r => str_eqb (source_channel r) (lit "DocumentChunk"))
                    llmFormatResults))
    (length (filter (fun r => str_eqb (source_channel r) (lit "Entity"))
                    llmFormatResults))
    (length (filter is_graphiti llmFormatResults))
    (length (filter is_cognee llmFormatResults)).

(** While the stream is open the timeout of the typewriter stays armed. *)
Definition streaming {stats_ops : StatsOps} (s : session) : Prop :=
  typewriterTimer s = true /\ isStreaming s = true.

End LLMResults.

(** ** Identifiers kept for the chat of a knowledge base *)

Module GroupIds.

(** An array of strings none of which is blank. *)
Definition clean (ids : list json) : Prop :=
  Forall (fun v => exists id, v = JStr id /\ trim id <> []) ids.

(** What a computation returns, when it returns, satisfies [P]. *)
Definition returns {ref A : Type} (P : A -> Prop) (m : Eff.M ref A) : Prop :=
  forall w a w', m w = (Returned a, w') -> P a.

End GroupIds.

(** ** The chat view: a session of [handleSendMessage] on the event loop
       (KnowledgeBaseDetailView.vue, lines 2174-2240) *)

Module ChatSession.

Import SSE ChatView.

(** What happens during a session: the typewriter timeout fires, or the
    reader does something. *)
Inductive occurrence : Type :=
| Tick
| Reader (ev : event).

Definition step (s : session) (o : occurrence) : session :=
  match o with
  | Tick => if typewriterTimer s then typewriterEffect s else s
  | Reader (EvChunk c) => onChunk c s
  | Reader EvDone => onDone s
  | Reader (EvError e) => onError e s
  | Reader EvRead => s
  | Reader EvConsoleError => s
  end.

Definition run (s : session) (os : list occurrence) : session :=
  fold_left step os s.

Definition reader_events (os : list occurrence) : list event :=
  flat_map (fun o => match o with Tick => [] | Reader ev => [ev] end) os.

(** The displayed text is a prefix of the text received, and as long as
    the timeout is armed it is the part the typewriter has reached. *)
Definition shown_is_prefix (s : session) : Prop :=
  (exists rest, pendingText s = streamingContent s ++ rest) /\
  (typewriterTimer s = true ->
   displayedLength s <= length (pendingText s) /\
   streamingContent s = firstn (displayedLength s) (pendingText s)).

End ChatSession.

(** ** The knowledge-base view: roles, the last answer and the Mem0
       session (KnowledgeBaseDetailView.vue, lines 1092-1343) *)

Module KnowledgeBaseRoles.

Import SSE.

(** [a === b] for two values read from different objects: primitives are
    compared by value, [undefined] equals [undefined] only, and an object
    or an array of one response is never identical to one of another. *)
Definition strict_eq (a b : option json) : bool :=
  match a, b with
  | None, None => true
  | Some JNull, Some JNull => true
  | Some (JBool x), Some (JBool y) => Bool.eqb x y
  | Some (JNum x), Some (JNum y) => Qeq_bool x y
  | Some (JStr x), Some (JStr y) => str_eqb x y
  | _, _ => false
  end.

(** [v === 'text'] *)
Definition is_text (s : string) (v : option json) : bool :=
  strict_eq v (Some (JStr (lit s))).

(** Lines 1314-1317. *)
Definition isOwner (selectedKB currentUser : json) : bool :=
  if negb (truthy selectedKB) || negb (truthy currentUser) then false
  else strict_eq (get "creator_name" selectedKB) (get "username" currentUser).

(** Lines 1319-1325. *)
Definition isEditor (selectedKB currentUser : json) : bool :=
  if negb (truthy selectedKB) || negb (truthy currentUser) then false
  else if strict_eq (get "creator_name" selectedKB) (get "username" currentUser)
       then true
       else is_text "editor" (get "user_role" selectedKB)
            || is_text "admin" (get "user_role" selectedKB).

(** Lines 1337-1343. *)
Definition isMember (selectedKB currentUser : json) : bool :=
  if negb (truthy selectedKB) || negb (truthy currentUser) then false
  else if strict_eq (get "creator_name" selectedKB) (get "username" currentUser)
       then false
       else match get "user_role" selectedKB with Some _ => true | None => false end
            || is_true (get "is_member" selectedKB).

(** [msg.role === 'assistant'] *)
Definition is_assistant (msg : json) : bool := is_text "assistant" (get "role" msg).

Definition is_null (v : json) : bool :=
  match v with JNull => true | _ => false end.

(** Lines 1332-1335; [None] when reading [role] throws, which it does for
    a [null] among the messages. *)
Definition lastAssistantMessage (chatMessages : list json) : option json :=
  if existsb is_null chatMessages then None
  else
    let assistantMessages := filter is_assistant chatMessages in
    Some (match assistantMessages with
          | [] => JNull
          | _ => last assistantMessages JNull
          end).

(** [localStorage] as the pairs it holds, at most one per key. *)
Definition storage : Type := list (jsstring * jsstring).

Fixpoint getItem (key : jsstring) (st : storage) : option jsstring :=
  match st with
  | [] => None
  | (k, v) :: rest => if str_eqb key k then Some v else getItem key rest
  end.

Fixpoint removeItem (key : jsstring) (st : storage) : storage :=
  match st with
  | [] => []
  | (k, v) :: rest =>
      if str_eqb key k then removeItem key rest else (k, v) :: removeItem key rest
  end.

Definition setItem (key value : jsstring) (st : storage) : storage :=
  (key, value) :: removeItem key st.

(** ['mem0_session_id_'] followed by the id of the knowledge base, as the
    template literal of line 1094 converts it. *)
Definition session_key {browser : Browser} (selectedKB : json) : jsstring :=
  lit "mem0_session_id_" ++
  match get "id" selectedKB with
  | Some id => ToString id
  | None => lit "undefined"
  end.

(** [getSessionId] (lines 1092-1107): [fresh] is what [crypto.randomUUID()]
    or the fallback of line 1102 yields when it is asked; the result is
    [None] for [null]. *)
Definition getSessionId {browser : Browser} (selectedKB : json) (fresh : jsstring)
           (st : storage) : option jsstring * storage :=
  if negb (truthy selectedKB) then (None, st)
  else
    let key := session_key selectedKB in
    match getItem key st with
    | Some (c :: id) => (Some (c :: id), st)
    | Some [] | None => (Some fresh, setItem key fresh st)
    end.

End KnowledgeBaseRoles.

(** ** The Cognee tab: the Memify configuration assembled by
       [handleExecute] (KnowledgeBaseDetailView.vue, lines 5423-5455) *)

Module MemifyConfig.

(** [s.split(sep)] for a separator of one code unit. *)
Fixpoint split_on (sep : code_unit) (s : jsstring) : list jsstring :=
  match s with
  | [] => [[]]
  | c :: s' =>
      if N.eqb c sep then [] :: split_on sep s'
      else SSE.cons_head c (split_on sep s')
  end.

(** [.map(t => t.trim()).filter(t => t.length > 0)] *)
Definition entries (parts : list jsstring) : list jsstring :=
  filter (fun t => match t with [] => false | _ => true end) (map trim parts).

Definition COMMA : code_unit := 44%N.

(** Lines 5428-5431 and 5433-5436. *)
Definition nodeTypesArray (memifyNodeTypes : jsstring) : list jsstring :=
  entries (split_on COMMA memifyNodeTypes).

Definition rulesArray (memifyRules : jsstring) : list jsstring :=
  entries (split_on LF memifyRules).

(** The form of the JSON-configuration mode: two texts and a name, and
    the values of the two number inputs. *)
Record form : Type := mkForm {
  memifyRulesNodesetName : jsstring;
  memifyRules : jsstring;
  memifyNodeTypes : jsstring;
  memifyMaxHops : json;
  memifyMaxChunks : json
}.

(** [memifyConfig] (lines 5438-5454); the key [rules], whose value is
    [undefined] without a rule, is then left out, as it is from the
    request. *)
Definition memifyConfig (f : form) : json :=
  let nodeTypes := nodeTypesArray (memifyNodeTypes f) in
  let rules := rulesArray (memifyRules f) in
  JObj
    [ (lit "extraction",
        JObj [ (lit "enabled", JBool true);
               (lit "task", JStr (lit "extract_subgraph_chunks"));
               (lit "node_types",
                 strings (match nodeTypes with
                          | [] => [lit "DocumentChunk"]
                          | _ => nodeTypes
                          end));
               (lit "max_hops", or_value (memifyMaxHops f) (JNum 1));
               (lit "max_chunks", or_value (memifyMaxChunks f) (JNum 100)) ]);
      (lit "enrichment",
        JObj ([ (lit "enabled", JBool true);
                (lit "task", JStr (lit "add_rule_associations"));
                (lit "rules_nodeset_name",
                  JStr (or_else (memifyRulesNodesetName f) (lit "default_rules"))) ]
              ++ (match rules with
                  | [] => []
                  | _ => [ (lit "rules", strings rules) ]
                  end)
              ++ [ (lit "mode",
                     JStr (match rules with
                           | [] => lit "llm_extract"
                           | _ => lit "manual"
                           end)) ])) ].

(** An entry of a list sent to the backend: not empty, and without white
    space at either end. *)
Definition trimmed (t : jsstring) : Prop := t <> [] /\ trim t = t.

End MemifyConfig.

(** ** The smart-retrieval tab: the estimate of [updateProgress]
       (unnamed/part_003, lines 130-200) *)

Module RetrievalProgress.

(** [Math.min] and [<] on numbers. *)
Definition Math_min (a b : Q) : Q := if Qle_bool a b then a else b.

Definition less (a b : Q) : bool := negb (Qle_bool b a).

(** [(Date.now() - startTime) / 1000] for a difference of [ms]
    milliseconds. *)
Definition elapsed_of (ms : Z) : Q := inject_Z ms / 1000.

(** What [updateProgress] assigns to [currentStepIndex] and to
    [executionProgress] ([current] holds them before the call); the text
    of the status line and the marks it puts on the step list are not part
    of this model. *)
Definition updateProgress (executing : bool) (ms : Z) (current : nat * Q) : nat * Q :=
  if negb executing then current
  else
    let elapsed := elapsed_of ms in
    if less elapsed 1 then
      (0, Math_min 10 (elapsed / 1 * 10))
    else if less elapsed 3 then
      (1, Math_min 30 (10 + (elapsed - 1) / 2 * 20))
    else if less elapsed 4 then
      (2, Math_min 50 (30 + (elapsed - 3) / 1 * 20))
    else if less elapsed 5 then
      (3, Math_min 60 (50 + (elapsed - 4) / 1 * 10))
    else if less elapsed 7 then
      (4, Math_min 85 (60 + (elapsed - 5) / 2 * 25))
    else
      (5, Math_min 98 (85 + (elapsed - 7) / 3 * 13)).

End RetrievalProgress.

(** ** The document selectors of the LLM-generate tab and of the
       smart-retrieval tab (unnamed/part_002, lines 1288-1310;
       unnamed/part_003, lines 104-120) *)

Module DocumentOptions.

Import SSE.

Definition is_null (v : json) : bool :=
  match v with JNull => true | _ => false end.

(** [documents.filter(doc => doc.document_id)], which throws ([None])
    when [documents] is not an array or holds a [null]. *)
Definition with_document_id (documents : json) : option (list json) :=
  match documents with
  | JArr docs =>
      if existsb is_null docs then None
      else Some (filter (fun doc => truthy_opt (get "document_id" doc)) docs)
  | _ => None
  end.

(** A value inside a template literal; [undefined] for a missing one. *)
Definition text_of {browser : Browser} (o : option json) : jsstring :=
  match o with
  | Some v => ToString v
  | None => lit "undefined"
  end.

(** The option built for one document (part_002, lines 1297-1301). *)
Definition option_of {browser : Browser} (doc : json) : json :=
  JObj [ (lit "value", undefined_as_null (get "document_id" doc));
         (lit "label",
           JStr (text_of (get "file_name" doc) ++ lit " ("
                 ++ text_of (get "document_id" doc) ++ lit ")"));
         (lit "disabled", JBool (negb (truthy_opt (get "document_id" doc)))) ].

(** [documentOptions] as [loadDocuments] of the LLM-generate tab computes
    it from the answer of [getDocumentUploadList] (lines 1292-1301);
    [None] when it throws. *)
Definition documentOptions {browser : Browser} (response : json) : option (list json) :=
  let documents :=
    if truthy response && truthy_opt (get "documents" response)
    then undefined_as_null (get "documents" response)
    else JArr [] in
  option_map (map option_of) (with_document_id documents).

(** [documents] as [loadDocuments] of the smart-retrieval tab computes it
    (part_003, lines 107-112); [None] when it throws. *)
Definition selectable_documents (response : json) : option (list json) :=
  if truthy response && truthy_opt (get "documents" response)
  then with_document_id (undefined_as_null (get "documents" response))
  else Some [].

End DocumentOptions.

(** ** Requests for a graph (unnamed/part_002, lines 813-836;
       KnowledgeBaseDetailView.vue, lines 5565-5582) *)

Module GraphRequests.

Import SSE.

Local Open Scope eff_scope.

(** ['文档未处理或缺少 group_id，无法加载图谱'] *)
Definition NOT_PROCESSED_LOAD : jsstring :=
  [25991; 26723; 26410; 22788; 29702; 25110; 32570; 23569; 32; 103; 114; 111; 117; 112; 95; 105; 100; 65292; 26080; 27861; 21152; 36733; 22270; 35889]%N.

(** ['获取图谱失败: '] *)
Definition GET_GRAPH_FAILED : jsstring :=
  [33719; 21462; 22270; 35889; 22833; 36133; 58; 32]%N.

(** [handleLoadGraph] of the Graphiti tab (part_002, lines 813-836). *)
Definition handleLoadGraph {browser : Browser} : GraphitiTab.M unit :=
  id <- read GraphitiTab.selectedDocumentId ;;
  if negb (truthy id) then toast Warning GraphitiTab.SELECT_DOCUMENT_FIRST
  else
    result <- read GraphitiTab.executionResult ;;
    known <- (if truthy_opt (get "group_id" result) then ret true
              else
                try_catch
                  (res <- await getGraphitiResult [id] ;;
                   success <- field "success" res ;;
                   if truthy_opt success && truthy_opt (get "group_id" res) then
                     GraphitiTab.write GraphitiTab.executionResult res ;;
                     ret true
                   else
                     toast Warning NOT_PROCESSED_LOAD ;;
                     ret false)
                  (fun err =>
                     toast Error (GraphitiTab.GET_RESULT_FAILED
                                  ++ GraphitiTab.detail_or_message err) ;;
                     ret false)) ;;
    if known then
      current <- read GraphitiTab.executionResult ;;
      group_id <- field "group_id" current ;;
      GraphitiTab.fetchGraphData (undefined_as_null group_id)
    else ret tt.

(** The refs of the Cognee tab that [handleViewGraphModal] touches. *)
Inductive name : Type :=
| selectedDoc
| loadingGraph
| graphNotCreatedModalVisible
| viewGraphData
| graphModalVisible.

Scheme Equality for name.

Definition write (r : name) (v : json) : Eff.M name unit := Eff.write name_beq r v.

(** [v?.length] *)
Definition length_of (o : option json) : option json :=
  match o with
  | Some (JArr items) => Some (JNum (inject_Z (Z.of_nat (length items))))
  | Some (JStr s) => Some (JNum (inject_Z (Z.of_nat (length s))))
  | Some (JObj fields) => lookup (lit "length") fields
  | _ => None
  end.

(** [handleViewGraphModal] of the Cognee tab (lines 5565-5582). *)
Definition handleViewGraphModal : Eff.M name unit :=
  doc <- read selectedDoc ;;
  let groupId := undefined_as_null (get "document_id" doc) in
  if negb (truthy groupId) then ret tt
  else
    write loadingGraph (JBool true) ;;
    finally
      (try_catch
         (graphResult <- await getCogneeGraph [groupId] ;;
          nodes <- field "nodes" graphResult ;;
          if negb (truthy_opt (length_of nodes)) then
            write graphNotCreatedModalVisible (JBool true)
          else
            write viewGraphData graphResult ;;
            write graphModalVisible (JBool true))
         (fun error =>
            toast Error (GET_GRAPH_FAILED ++ or_else (message error) UNKNOWN_ERROR)))
      (write loadingGraph (JBool false)).

(** A request for a graph names the graph: its only argument is truthy. *)
Definition names_its_graph (ef : effect) : Prop :=
  match ef with
  | Call getGraphitiGraph args | Call getCogneeGraph args =>
      exists group_id, args = [group_id] /\ truthy group_id = true
  | _ => True
  end.

(** From [w] to [w'] the trace has grown by events that all satisfy [P]. *)
Definition extends_with {ref : Type} (P : effect -> Prop) (w w' : world ref) : Prop :=
  exists evs, trace w' = trace w ++ evs /\ Forall P evs.

(** All that a computation adds to the trace satisfies [P]. *)
Definition adds {ref A : Type} (P : effect -> Prop) (m : Eff.M ref A) : Prop :=
  forall w, extends_with P w (snd (m w)).

End GraphRequests.

(** ** More sample inputs *)

Module MoreSamples.

(** The line of a content event, without the blank line that ends it. *)
Definition content_line (text : string) : string :=
  ("data: " ++ Samples.obj "content" (Samples.str text))%string.

(** A complete content event, and the same followed by an event that
    lacks its blank line. *)
Definition one_event : list Byte.byte :=
  ReferenceBrowser.bytes (Samples.sse (Samples.obj "content" (Samples.str "a"))).

Definition cut_short : list Byte.byte :=
  ReferenceBrowser.bytes
    (Samples.sse (Samples.obj "content" (Samples.str "a")) ++ content_line "b").

(** A comment line of the event-stream format. *)
Definition comment_line : jsstring := lit ": keep-alive".

(** The Graphiti tab at rest with document 7 selected, its graph known
    and a template that is not JSON in the editor. *)
Definition graphiti_idle_refs : Eff.store GraphitiTab.name :=
  fun r =>
    match r with
    | GraphitiTab.selectedDocumentId => JNum 7
    | GraphitiTab.executionResult => JObj [(lit "group_id", JStr (lit "g1"))]
    | GraphitiTab.templateConfigJson => JStr (lit "{entities")
    | GraphitiTab.executing | GraphitiTab.loadingEpisodeBody
    | GraphitiTab.loadingGraph | GraphitiTab.deletingGraph
    | GraphitiTab.selectedDocumentHasGraph => JBool false
    | _ => JNull
    end.

(** The backend rejects the first call. *)
Definition graphiti_failing_world : GraphitiTab.world :=
  Eff.mkWorld [Rejected (mkError (lit "Network Error") (lit "graph store is down"))]
              [] [] graphiti_idle_refs.


(** A knowledge base with three documents on one page, of which one has
    a blank [document_id] and one has none. *)
Definition kb_refs : Eff.store KnowledgeBaseView.name :=
  fun r =>
    match r with
    | KnowledgeBaseView.selectedKB => JObj [(lit "id", JNum 1)]
    | KnowledgeBaseView.pagination_current => JNum 1
    | KnowledgeBaseView.pagination_pageSize => JNum 10
    | _ => JNull
    end.

Definition kb_page : json :=
  JObj [ (lit "documents",
           JArr [ JObj [(lit "document_id", JStr (lit "  "))];
                  JObj [(lit "document_id", JStr (lit "g1"))];
                  JObj [(lit "file_name", JStr (lit "draft.docx"))] ]);
         (lit "total", JNum 3) ].

Definition kb_world : KnowledgeBaseView.world :=
  Eff.mkWorld [Resolved kb_page; Resolved kb_page] [] [] kb_refs.

(** The smart-retrieval tab with a query of blanks only. *)
Definition blank_query_refs : Eff.store SmartRetrievalTab.name :=
  fun r =>
    match r with
    | SmartRetrievalTab.queryText_ref => JStr (lit "   ")
    | SmartRetrievalTab.searchMode_ref => JStr (lit "all")
    | _ => JNull
    end.

Definition blank_query_world : SmartRetrievalTab.world :=
  Eff.mkWorld [Resolved (JObj [])] [] [] blank_query_refs.

(** The smart-retrieval tab with a query over all documents; the backend
    rejects the call. *)
Definition query_refs : Eff.store SmartRetrievalTab.name :=
  fun r =>
    match r with
    | SmartRetrievalTab.queryText_ref => JStr (lit "what is new")
    | SmartRetrievalTab.searchMode_ref => JStr (lit "all")
    | SmartRetrievalTab.executionResult => JObj [(lit "stale", JBool true)]
    | _ => JNull
    end.

Definition failing_query_world : SmartRetrievalTab.world :=
  Eff.mkWorld [Rejected (mkError (lit "Network Error") [])] [] [] query_refs.

(** A knowledge base created by [alice], seen by [alice] and by [bob],
    who joined it as an editor. *)
Definition kb_of_alice : json :=
  JObj [ (lit "id", JNum 12);
         (lit "creator_name", JStr (lit "alice"));
         (lit "user_role", JStr (lit "editor")) ].

Definition alice : json := JObj [(lit "username", JStr (lit "alice"))].

Definition bob : json := JObj [(lit "username", JStr (lit "bob"))].

(** A conversation with two answers. *)
Definition conversation : list json :=
  [ JObj [(lit "role", JStr (lit "user")); (lit "content", JStr (lit "q1"))];
    JObj [(lit "role", JStr (lit "assistant")); (lit "content", JStr (lit "a1"))];
    JObj [(lit "role", JStr (lit "assistant")); (lit "content", JStr (lit "a2"))];
    JObj [(lit "role", JStr (lit "user")); (lit "content", JStr (lit "q2"))] ].

(** The Cognee tab with document 7 selected; the backend rejects the
    first call. *)
Definition cognee_failing_world : CogneeTab.world :=
  Eff.mkWorld [Rejected (mkError (lit "Network Error") [])] [] [] Samples.cognee_refs.

(** The knowledge base of [kb_refs]; the backend rejects the first call. *)
Definition kb_failing_world : KnowledgeBaseView.world :=
  Eff.mkWorld [Rejected (mkError (lit "Network Error") [])] [] [] kb_refs.

Definition document_5 : json :=
  JObj [(lit "id", JNum 5); (lit "file_name", JStr (lit "draft.docx"))].

End MoreSamples.

(* ================================================================== *)
(** * Properties *)

(** ** The reader is independent of how the bytes are cut into reads *)

Section SplitFacts.

Import SSE.

Lemma list_pair_ind (A : Type) (P : list A -> Prop) :
  P [] ->
  (forall a, P [a]) ->
  (forall a b l, P l -> P (b :: l) -> P (a :: b :: l)) ->
  forall l, P l.
Proof.
  intros H0 H1 H2.
  assert (both : forall l, P l /\ forall a, P (a :: l)).
  { induction l as [|b l [IHl IHbl]].
    - split; [exact H0 | exact H1].
    - split; [apply IHbl | intro a; apply H2; [exact IHl | apply IHbl]]. }
  intro l. apply both.
Qed.

Lemma split_step (c d : code_unit) (s : jsstring) :
  split (c :: d :: s) =
  if N.eqb c LF && N.eqb d LF then [] :: split s else cons_head c (split (d :: s)).
Proof. reflexivity. Qed.

Lemma split_not_nil (s : jsstring) : split s <> [].
Proof.
  induction s as [| c | c d s IHs IHds] using list_pair_ind; try discriminate.
  rewrite split_step.
  destruct (N.eqb c LF && N.eqb d LF); [discriminate|].
  destruct (split (d :: s)); discriminate.
Qed.

Lemma split_single (s l : jsstring) : split s = [l] -> l = s.
Proof.
  revert l.
  induction s as [| c | c d s IHs IHds] using list_pair_ind; intros l H.
  - simpl in H. congruence.
  - simpl in H. congruence.
  - rewrite split_step in H.
    destruct (N.eqb c LF && N.eqb d LF).
    + injection H as _ H. exfalso. exact (split_not_nil _ H).
    + destruct (split (d :: s)) as [|s0 [|s1 rest]] eqn:E.
      * exfalso. exact (split_not_nil _ E).
      * simpl in H. injection H as H. rewrite (IHds s0 eq_refl) in H. congruence.
      * simpl in H. discriminate.
Qed.

Lemma split_app (x y : jsstring) :
  split (x ++ y) = removelast (split x) ++ split (last (split x) [] ++ y).
Proof.
  induction x as [| c | c d x IHx IHdx] using list_pair_ind.
  - reflexivity.
  - reflexivity.
  - change ((c :: d :: x) ++ y) with (c :: d :: (x ++ y)).
    rewrite !split_step.
    destruct (N.eqb c LF && N.eqb d LF) eqn:Sep.
    + rewrite IHx.
      destruct (split x) as [|s0 rest] eqn:E; [exfalso; exact (split_not_nil _ E)|].
      reflexivity.
    + change (d :: x ++ y) with ((d :: x) ++ y). rewrite IHdx.
      destruct (split (d :: x)) as [|s0 [|s1 rest]] eqn:E.
      * exfalso. exact (split_not_nil _ E).
      * apply split_single in E. subst s0.
        cbn [removelast last app cons_head].
        change (((c :: d :: x) ++ y)) with (c :: d :: (x ++ y)).
        rewrite split_step, Sep. reflexivity.
      * reflexivity.
Qed.

Lemma split_last_stable (x : jsstring) :
  split (last (split x) []) = [last (split x) []].
Proof.
  pose proof (split_app x []) as H.
  rewrite !app_nil_r in H.
  rewrite (app_removelast_last [] (split_not_nil x)) in H at 1.
  apply app_inv_head in H. symmetry. exact H.
Qed.

End SplitFacts.

Section ReaderFacts.

Import SSE.

Context {browser : Browser}.

Lemma decode_app (a b : list Byte.byte) (st : dec_state) :
  decode st (a ++ b) =
  let (st1, t1) := decode st a in
  let (st2, t2) := decode st1 b in
  (st2, t1 ++ t2).
Proof.
  revert st. induction a as [|x a IH]; intro st; simpl.
  - destruct (decode st b). reflexivity.
  - destruct (dec_byte st x) as [s1 u1]. rewrite IH.
    destruct (decode s1 a) as [s2 u2]. destruct (decode s2 b) as [s3 u3].
    rewrite app_assoc. reflexivity.
Qed.

Lemma process_lines_app (l1 l2 : list jsstring) :
  process_lines (l1 ++ l2) =
  let (e1, s1) := process_lines l1 in
  if s1 then (e1, true)
  else let (e2, s2) := process_lines l2 in (e1 ++ e2, s2).
Proof.
  induction l1 as [|line l1 IH]; simpl.
  - destruct (process_lines l2). reflexivity.
  - destruct (process_line line) as [evs [|]]; [reflexivity|].
    rewrite IH. destruct (process_lines l1) as [e1 [|]]; [reflexivity|].
    destruct (process_lines l2) as [e2 s2]. rewrite app_assoc. reflexivity.
Qed.

Lemma callbacks_app (a b : list event) :
  callbacks (a ++ b) = callbacks a ++ callbacks b.
Proof. apply filter_app. Qed.

(** Reading chunk by chunk makes the calls of one read of all the bytes. *)
Lemma readStream_whole (fin : ending) (chunks : list (list Byte.byte)) :
  forall st buffer,
    split buffer = [buffer] ->
    callbacks (readStream fin st buffer chunks) =
    callbacks (whole fin st buffer (concat chunks)).
Proof.
  induction chunks as [|value rest IH]; intros st buffer Hbuf.
  - unfold SSE.whole. cbn [concat SSE.decode SSE.readStream].
    rewrite app_nil_r, Hbuf. cbn. destruct fin; reflexivity.
  - cbn [concat SSE.readStream]. unfold SSE.whole.
    rewrite decode_app.
    destruct (decode st value) as [st1 t1] eqn:D1.
    destruct (decode st1 (concat rest)) as [st2 t2] eqn:D2.
    rewrite app_assoc, (split_app (buffer ++ t1) t2).
    rewrite removelast_app by apply split_not_nil.
    rewrite process_lines_app.
    destruct (process_lines (removelast (split (buffer ++ t1)))) as [e1 [|]].
    + cbn. rewrite app_nil_r. reflexivity.
    + specialize (IH st1 (last (split (buffer ++ t1)) []) (split_last_stable _)).
      unfold SSE.whole in IH. rewrite D2 in IH.
      destruct (process_lines
                  (removelast (split (last (split (buffer ++ t1)) [] ++ t2))))
        as [e2 s2].
      change (callbacks (EvRead :: ?l)) with (callbacks l).
      rewrite callbacks_app, IH, <- callbacks_app, app_assoc. reflexivity.
Qed.

Lemma split_nil_single : split [] = [[]].
Proof. reflexivity. Qed.

(** C7: two ways of cutting the same bytes into successive reads give the
    same sequence of [onChunk]/[onDone]/[onError] calls, with the same
    arguments. *)
Theorem fragmentation_invariance (fin : ending) (reads1 reads2 : list (list Byte.byte)) :
  concat reads1 = concat reads2 ->
  callbacks (step7LLMGenerateStream (Ok (mkBody reads1 fin))) =
  callbacks (step7LLMGenerateStream (Ok (mkBody reads2 fin))).
Proof.
  intro H. cbn [SSE.step7LLMGenerateStream reads finish].
  rewrite !readStream_whole by apply split_nil_single.
  rewrite H. reflexivity.
Qed.

(** *** Nothing follows [onDone] or [onError] *)

Lemma ends_nil : ends_at_terminal [].
Proof. intros [|? ?] ev post H; discriminate. Qed.

Lemma ends_single (ev : event) : ends_at_terminal [ev].
Proof.
  intros [|x [|y pre]] ev' post H _; simpl in H; congruence.
Qed.

Lemma ends_quiet_app (a b : list event) :
  quiet a = true -> ends_at_terminal b -> ends_at_terminal (a ++ b).
Proof.
  induction a as [|x a IH]; intros Ha Hb; [exact Hb|].
  simpl in Ha. apply andb_prop in Ha as [Hx Ha].
  intros [|y pre] ev post H Hev; simpl in H; injection H as -> H.
  - rewrite Hev in Hx. discriminate.
  - exact (IH Ha Hb pre ev post H Hev).
Qed.

Lemma quiet_app (a b : list event) : quiet (a ++ b) = quiet a && quiet b.
Proof. apply forallb_app. Qed.

Lemma chunk_events_quiet (data : json) : quiet (chunk_events data) = true.
Proof.
  unfold chunk_events.
  destruct (get "statistics" data) as [st|]; [destruct (truthy st)|];
    (destruct (get "content" data) as [c|]; [destruct (truthy c)|]); reflexivity.
Qed.

Lemma after_error_check_shape (data : json) :
  let (evs, stop) := after_error_check data in
  if stop then evs = [EvDone] else quiet evs = true.
Proof.
  unfold after_error_check.
  destruct (truthy_opt (get "done" data)); [reflexivity | apply chunk_events_quiet].
Qed.

Lemma process_line_shape (line : jsstring) :
  let (evs, stop) := process_line line in
  if stop then exists ev, evs = [ev] /\ terminal ev = true
  else quiet evs = true.
Proof.
  unfold process_line.
  destruct (startsWith DATA_PREFIX line); [|reflexivity].
  destruct (JSON_parse (slice_from 6 line)) as [data|]; [|reflexivity].
  assert (A : let (evs, stop) := after_error_check data in
              if stop then exists ev, evs = [ev] /\ terminal ev = true
              else quiet evs = true).
  { pose proof (after_error_check_shape data) as H.
    destruct (after_error_check data) as [evs [|]]; [|exact H].
    exists EvDone. split; [exact H | reflexivity]. }
  destruct data; try exact A; try reflexivity.
  destruct (get "error" (JObj fields)) as [err|]; [|exact A].
  destruct (truthy err); [|exact A].
  eexists. split; reflexivity.
Qed.

Lemma process_lines_shape (lines : list jsstring) :
  let (evs, stop) := process_lines lines in
  if stop then exists pre ev, evs = pre ++ [ev] /\ quiet pre = true /\ terminal ev = true
  else quiet evs = true.
Proof.
  induction lines as [|line rest IH]; [reflexivity|].
  cbn [SSE.process_lines].
  pose proof (process_line_shape line) as H.
  destruct (process_line line) as [evs [|]].
  - destruct H as [ev [-> Hev]]. exists [], ev. repeat split; assumption.
  - destruct (process_lines rest) as [evs' [|]].
    + destruct IH as [pre [ev [-> [Hpre Hev]]]].
      exists (evs ++ pre), ev. rewrite app_assoc, quiet_app, H, Hpre.
      repeat split; assumption.
    + rewrite quiet_app, H, IH. reflexivity.
Qed.

Lemma readStream_ends (fin : ending) (chunks : list (list Byte.byte)) :
  forall st buffer, ends_at_terminal (readStream fin st buffer chunks).
Proof.
  induction chunks as [|value rest IH]; intros st buffer;
    cbn [SSE.readStream]; apply (ends_quiet_app [EvRead]); try reflexivity.
  - destruct fin; [apply ends_single | apply ends_single | apply ends_nil].
  - destruct (decode st value) as [st1 t1].
    pose proof (process_lines_shape (removelast (split (buffer ++ t1)))) as H.
    destruct (process_lines (removelast (split (buffer ++ t1)))) as [evs [|]].
    + destruct H as [pre [ev [-> [Hpre Hev]]]]. rewrite app_nil_r.
      apply ends_quiet_app; [exact Hpre | apply ends_single].
    + apply ends_quiet_app; [exact H | apply IH].
Qed.

Lemma step7_ends (r : response) : ends_at_terminal (step7LLMGenerateStream r).
Proof.
  destruct r as [e|e|b]; cbn [SSE.step7LLMGenerateStream].
  - apply ends_single.
  - apply ends_single.
  - apply readStream_ends.
Qed.


(** The reader on a single read of all the bytes. *)
Lemma whole_unfold (fin : ending) (st : dec_state) (buffer : jsstring)
      (bytes : list Byte.byte) :
  whole fin st buffer bytes =
  fst (process_lines (removelast (split (buffer ++ snd (decode st bytes))))) ++
  (if snd (process_lines (removelast (split (buffer ++ snd (decode st bytes)))))
   then [] else end_events fin).
Proof.
  unfold whole. destruct (decode st bytes) as [st1 t1]. cbn [snd].
  destruct (process_lines (removelast (split (buffer ++ t1)))) as [evs stop].
  cbn [fst snd]. destruct fin; reflexivity.
Qed.

End ReaderFacts.

(** ** The typewriter and the streaming callbacks of the LLM-generate tab *)

Section SessionFacts.

Import SSE LLMGenerateTab.

Context {browser : Browser} {stats_ops : StatsOps}.

Lemma start_consistent (initial : stats) : consistent (start initial).
Proof. split; [apply Nat.le_refl | reflexivity]. Qed.

Lemma typewriterEffect_consistent (s : session) :
  consistent s -> consistent (typewriterEffect s).
Proof.
  intros [Hle Hpre]. unfold typewriterEffect.
  destruct (displayedLength s <? length (pendingText s)) eqn:E.
  - apply Nat.ltb_lt in E.
    split; cbn [displayedLength pendingText streamingContent]; [lia | reflexivity].
  - destruct (isStreaming s); split; assumption.
Qed.

Lemma merge_statistics_fields (data : option json) (s : session) :
  pendingText (merge_statistics data s) = pendingText s /\
  displayedLength (merge_statistics data s) = displayedLength s /\
  streamingContent (merge_statistics data s) = streamingContent s /\
  typewriterTimer (merge_statistics data s) = typewriterTimer s /\
  (executionResult s <> None -> executionResult (merge_statistics data s) <> None).
Proof.
  unfold merge_statistics.
  destruct data as [[]|]; destruct (executionResult s);
    cbn; repeat split; try reflexivity; try discriminate; auto.
Qed.

Lemma onChunk_pendingText (c : chunk) (s : session) :
  pendingText (onChunk c s) = pendingText s ++ received_text [EvChunk c].
Proof.
  unfold received_text; cbn [flat_map]. rewrite app_nil_r.
  destruct c as [data|v]; cbn [onChunk].
  - rewrite app_nil_r. apply merge_statistics_fields.
  - destruct v; try (rewrite app_nil_r; reflexivity); try reflexivity.
    rewrite app_nil_r.
    destruct (lookup (lit "type") fields) as [[]|]; try reflexivity.
    destruct (str_eqb s0 (lit "statistics")); [|reflexivity].
    apply merge_statistics_fields.
Qed.

Lemma onChunk_display (c : chunk) (s : session) :
  displayedLength (onChunk c s) = displayedLength s /\
  streamingContent (onChunk c s) = streamingContent s /\
  typewriterTimer (onChunk c s) = typewriterTimer s /\
  (executionResult s <> None -> executionResult (onChunk c s) <> None).
Proof.
  destruct c as [data|v]; cbn [onChunk].
  - apply merge_statistics_fields.
  - destruct v; try (repeat split; auto; fail).
    destruct (lookup (lit "type") fields) as [[]|]; try (repeat split; auto; fail).
    destruct (str_eqb s0 (lit "statistics")); [|repeat split; auto].
    apply merge_statistics_fields.
Qed.

Lemma onChunk_consistent (c : chunk) (s : session) :
  consistent s -> consistent (onChunk c s).
Proof.
  intros [Hle Hpre]. unfold consistent.
  destruct (onChunk_display c s) as [-> [-> _]].
  rewrite onChunk_pendingText, length_app. split; [lia|].
  rewrite firstn_app.
  replace (displayedLength s - length (pendingText s)) with 0 by lia.
  rewrite app_nil_r. exact Hpre.
Qed.

Lemma step_consistent (s : session) (o : occurrence) :
  consistent s -> consistent (step s o).
Proof.
  intro H. destruct o as [|[]]; cbn [step]; try exact H.
  - destruct (typewriterTimer s); [apply typewriterEffect_consistent|]; exact H.
  - apply onChunk_consistent, H.
  - split; cbn; [apply Nat.le_refl | symmetry; apply firstn_all].
Qed.

Lemma run_consistent (os : list occurrence) (s : session) :
  consistent s -> consistent (run s os).
Proof.
  revert s. induction os as [|o os IH]; intros s H; [exact H|].
  apply IH, step_consistent, H.
Qed.

Lemma consistent_prefix (s : session) :
  consistent s -> exists rest, pendingText s = streamingContent s ++ rest.
Proof.
  intros [_ H]. exists (skipn (displayedLength s) (pendingText s)).
  rewrite H. symmetry. apply firstn_skipn.
Qed.

Lemma tick_extends (s : session) :
  consistent s ->
  exists ext, streamingContent (step s Tick) = streamingContent s ++ ext /\
              length ext <= 3.
Proof.
  intros [Hle Hpre]. cbn [step].
  assert (Same : exists ext, streamingContent s = streamingContent s ++ ext /\
                             length ext <= 3).
  { exists []. rewrite app_nil_r. split; [reflexivity | cbn; lia]. }
  destruct (typewriterTimer s); [|exact Same].
  unfold typewriterEffect.
  destruct (displayedLength s <? length (pendingText s)) eqn:E.
  - cbn [streamingContent]. unfold substring0.
    set (k := Nat.min 3 (length (pendingText s) - displayedLength s)).
    exists (firstn k (skipn (displayedLength s) (pendingText s))).
    split.
    + rewrite Hpre.
      rewrite <- (firstn_skipn (displayedLength s) (pendingText s)) at 1.
      rewrite firstn_app, length_firstn.
      replace (Nat.min (displayedLength s) (length (pendingText s)))
        with (displayedLength s) by lia.
      replace (displayedLength s + k - displayedLength s) with k by lia.
      rewrite firstn_firstn.
      replace (Nat.min (displayedLength s + k) (displayedLength s))
        with (displayedLength s) by lia.
      reflexivity.
    + rewrite length_firstn. subst k. lia.
  - destruct (isStreaming s); exact Same.
Qed.

End SessionFacts.

(** ** What is rendered when the stream completes *)

Section CompletionFacts.

Import SSE LLMGenerateTab.

Context {browser : Browser} {stats_ops : StatsOps}.

Lemma received_text_app (a b : list event) :
  received_text (a ++ b) = received_text a ++ received_text b.
Proof. apply flat_map_app. Qed.

Lemma received_text_cons (ev : event) (tr : list event) :
  received_text (ev :: tr) = received_text [ev] ++ received_text tr.
Proof. apply (received_text_app [ev] tr). Qed.

Lemma received_text_callbacks (tr : list event) :
  received_text (callbacks tr) = received_text tr.
Proof.
  induction tr as [|ev tr IH]; [reflexivity|].
  rewrite (received_text_cons ev tr), <- IH.
  destruct ev; cbn [callbacks filter is_callback]; fold (callbacks tr);
    try rewrite (received_text_cons _ (callbacks tr)); reflexivity.
Qed.

Lemma reader_events_split (os : list occurrence) :
  forall pre ev post,
    reader_events os = pre ++ ev :: post ->
    exists os1 os2,
      os = os1 ++ Reader ev :: os2 /\
      reader_events os1 = pre /\ reader_events os2 = post.
Proof.
  induction os as [|o os IH]; intros pre ev post H.
  - destruct pre; discriminate.
  - destruct o as [|ev'].
    + destruct (IH pre ev post H) as [os1 [os2 [-> [H1 H2]]]].
      exists (Tick :: os1), os2. repeat split; assumption.
    + cbn in H. destruct pre as [|x pre]; cbn in H; injection H as Hx H; subst ev'.
      * exists [], os. repeat split. exact H.
      * destruct (IH pre ev post H) as [os1 [os2 [-> [H1 H2]]]].
        exists (Reader x :: os1), os2. split; [reflexivity|]. split; [|exact H2].
        change (x :: reader_events os1 = x :: pre). rewrite H1. reflexivity.
Qed.

Lemma run_app (s : session) (a b : list occurrence) :
  run s (a ++ b) = run (run s a) b.
Proof. apply fold_left_app. Qed.

(** Before [onDone] or [onError] the result object stays in place and
    the accumulated text is what [onChunk] received. *)
Lemma run_quiet (os : list occurrence) :
  forall s,
    quiet (reader_events os) = true ->
    executionResult s <> None ->
    executionResult (run s os) <> None /\
    pendingText (run s os) = pendingText s ++ received_text (reader_events os).
Proof.
  induction os as [|o os IH]; intros s Hq Hres.
  - split; [exact Hres | cbn; rewrite app_nil_r; reflexivity].
  - destruct o as [|ev]; cbn [run fold_left reader_events flat_map app] in *.
    + fold (reader_events os) in *. fold (run (step s Tick) os).
      assert (Hs : executionResult (step s Tick) <> None /\
                   pendingText (step s Tick) = pendingText s).
      { cbn [step]. destruct (typewriterTimer s); [|split; [exact Hres|reflexivity]].
        unfold typewriterEffect.
        destruct (displayedLength s <? length (pendingText s));
          [|destruct (isStreaming s)]; split; try exact Hres; reflexivity. }
      destruct Hs as [Hr Hp].
      destruct (IH _ Hq Hr) as [IH1 IH2]. split; [exact IH1|].
      rewrite IH2, Hp. reflexivity.
    + fold (reader_events os) in *. fold (run (step s (Reader ev)) os).
      cbn [quiet forallb] in Hq. apply andb_prop in Hq as [Hev Hq].
      fold (quiet (reader_events os)) in Hq.
      rewrite (received_text_cons ev (reader_events os)).
      destruct ev; try discriminate Hev; cbn [step].
      * destruct (IH s Hq Hres) as [IH1 IH2]. split; [exact IH1|].
        rewrite IH2. reflexivity.
      * destruct (onChunk_display c s) as [_ [_ [_ Hr]]].
        destruct (IH _ Hq (Hr Hres)) as [IH1 IH2]. split; [exact IH1|].
        rewrite IH2, onChunk_pendingText, app_assoc. reflexivity.
      * destruct (IH s Hq Hres) as [IH1 IH2]. split; [exact IH1|].
        rewrite IH2. reflexivity.
Qed.

(** Once the timer is cleared, ticks change nothing. *)
Lemma run_ticks_after_clear (os : list occurrence) :
  forall s,
    reader_events os = [] ->
    typewriterTimer s = false ->
    run s os = s.
Proof.
  induction os as [|o os IH]; intros s Hos Ht; [reflexivity|].
  destruct o as [|ev]; [|discriminate].
  cbn [run fold_left step]. rewrite Ht. apply IH; assumption.
Qed.

Lemma quiet_before_terminal (tr pre post : list event) (ev : event) :
  ends_at_terminal tr ->
  tr = pre ++ ev :: post ->
  quiet pre = true.
Proof.
  intros Hends ->. unfold quiet. apply forallb_forall. intros x Hx.
  destruct (terminal x) eqn:T; [|reflexivity].
  apply in_split in Hx as [p1 [p2 ->]].
  specialize (Hends p1 x (p2 ++ ev :: post)).
  rewrite <- app_assoc in Hends. specialize (Hends eq_refl T).
  destruct p2; discriminate.
Qed.

(** A session that completes: the callbacks of a reader that ends in
    [onDone], with ticks in between, from a state that holds a result. *)
Lemma completed_session (s0 : session) (tr : list event) (os : list occurrence) :
  reader_events os = tr ->
  ends_at_terminal tr ->
  In EvDone tr ->
  executionResult s0 <> None ->
  let s := run s0 os in
  let text := pendingText s0 ++ received_text tr in
  pendingText s = text /\
  streamingContent s = text /\
  isStreaming s = false /\
  option_map generated_document (executionResult s) = Some text.
Proof.
  intros Hos Hends Hdone Hres s text.
  apply in_split in Hdone as [pre [post Htr]].
  pose proof (Hends pre EvDone post Htr eq_refl) as ->.
  assert (Hpre : quiet pre = true)
    by (eapply quiet_before_terminal; [exact Hends | exact Htr]).
  rewrite Htr in Hos.
  apply reader_events_split in Hos as [os1 [os2 [Hsplit [H1 H2]]]].
  rewrite <- H1 in Hpre.
  edestruct run_quiet as [Hres1 Hpend]; [exact Hpre | exact Hres |].
  assert (Hs : s = onDone (run s0 os1)).
  { subst s. rewrite Hsplit, run_app.
    change (run ?x (Reader EvDone :: os2)) with (run (onDone x) os2).
    apply run_ticks_after_clear; [exact H2 | reflexivity]. }
  assert (Hpt : pendingText (run s0 os1) = text).
  { rewrite Hpend. subst text. rewrite Htr, H1, received_text_app.
    cbn. rewrite app_nil_r. reflexivity. }
  rewrite Hs. cbn [onDone streamingContent executionResult pendingText isStreaming].
  destruct (executionResult (run s0 os1)) as [r|]; [|contradiction].
  cbn [option_map generated_document]. rewrite Hpt. repeat split.
Qed.

End CompletionFacts.

(** ** The text of a stream *)

Section StreamTextFacts.

Import SSE LLMGenerateTab.

Context {browser : Browser}.

Lemma received_text_chunk_events (data : json) :
  received_text (chunk_events data) = string_content data.
Proof.
  unfold chunk_events, string_content. rewrite received_text_app.
  assert (S : received_text
                (match get "statistics" data with
                 | Some st => if truthy st then [EvChunk (Statistics st)] else []
                 | None => []
                 end) = []).
  { destruct (get "statistics" data) as [st|]; [destruct (truthy st)|]; reflexivity. }
  rewrite S. cbn [app].
  destruct (get "content" data) as [[| | |text| |]|]; cbn [truthy];
    try reflexivity;
    try (match goal with |- context [if ?c then _ else _] => destruct c end; reflexivity).
  destruct text; cbn [received_text flat_map]; [reflexivity | apply app_nil_r].
Qed.

(** A line stops the reader exactly when it holds a closing event, and
    what it passes to [onChunk] before is the string content of an event
    that does not close. *)
Lemma process_line_text (line : jsstring) :
  snd (process_line line) =
  match payload line with
  | Some data => closing data
  | None => false
  end /\
  received_text (fst (process_line line)) =
  match payload line with
  | Some data => if closing data then [] else string_content data
  | None => []
  end.
Proof.
  unfold process_line, payload.
  destruct (startsWith DATA_PREFIX line); [|split; reflexivity].
  destruct (JSON_parse (slice_from 6 line)) as [data|]; [|split; reflexivity].
  assert (A : snd (after_error_check data) = truthy_opt (get "done" data) /\
              received_text (fst (after_error_check data)) =
              if truthy_opt (get "done" data) then [] else string_content data).
  { unfold after_error_check.
    destruct (truthy_opt (get "done" data)); [split; reflexivity|].
    split; [reflexivity | apply received_text_chunk_events]. }
  unfold closing.
  destruct data as [| | | | |fields]; try exact A.
  cbn [get] in *. destruct (lookup (lit "error") fields) as [err|]; [|exact A].
  cbn [truthy_opt]. destruct (truthy err); [split; reflexivity | exact A].
Qed.

Lemma process_lines_text (lines : list jsstring) :
  received_text (fst (process_lines lines)) = contents_before_closing lines.
Proof.
  induction lines as [|line rest IH]; [reflexivity|].
  cbn [process_lines contents_before_closing].
  destruct (process_line_text line) as [Hstop Htext].
  destruct (process_line line) as [evs stop]. cbn [fst snd] in *.
  destruct (process_lines rest) as [evs' stop']. cbn [fst] in IH.
  destruct (payload line) as [data|].
  - subst stop. destruct (closing data); cbn [fst].
    + exact Htext.
    + rewrite received_text_app, Htext, IH. reflexivity.
  - subst stop. cbn [fst]. rewrite received_text_app, Htext, IH. reflexivity.
Qed.

(** What [step7LLMGenerateStream] passes to [onChunk] as strings is, put
    together, the string content of the events before the closing one. *)
Lemma received_text_of_stream (b : body) :
  received_text (step7LLMGenerateStream (Ok b)) =
  contents_before_closing (complete_lines b).
Proof.
  cbn [step7LLMGenerateStream].
  rewrite <- (received_text_callbacks (readStream _ _ _ _)).
  rewrite readStream_whole by reflexivity.
  rewrite received_text_callbacks, whole_unfold, received_text_app.
  rewrite process_lines_text. cbn [app]. unfold complete_lines.
  match goal with |- _ ++ received_text ?x = _ => assert (E : received_text x = []) end.
  { destruct (snd (process_lines _)); [reflexivity|].
    destruct (finish b); reflexivity. }
  rewrite E. apply app_nil_r.
Qed.

Lemma content_calls_app (a b : list event) :
  content_calls (a ++ b) = content_calls a ++ content_calls b.
Proof. apply flat_map_app. Qed.

Lemma content_calls_callbacks (tr : list event) :
  content_calls (callbacks tr) = content_calls tr.
Proof.
  induction tr as [|ev tr IH]; [reflexivity|].
  destruct ev as [|[]| | |]; cbn [callbacks filter is_callback content_calls flat_map];
    fold (callbacks tr); fold (content_calls tr); fold (content_calls (callbacks tr));
    rewrite IH; reflexivity.
Qed.

Lemma content_calls_chunk_events (data : json) :
  content_calls (chunk_events data) = content_to_deliver data.
Proof.
  unfold chunk_events, content_to_deliver. rewrite content_calls_app.
  assert (S : content_calls
                (match get "statistics" data with
                 | Some st => if truthy st then [EvChunk (Statistics st)] else []
                 | None => []
                 end) = []).
  { destruct (get "statistics" data) as [st|]; [destruct (truthy st)|]; reflexivity. }
  rewrite S. cbn [app].
  destruct (get "content" data) as [c|]; [destruct (truthy c)|]; reflexivity.
Qed.

Lemma process_line_calls (line : jsstring) :
  content_calls (fst (process_line line)) =
  match payload line with
  | Some data => if closing data then [] else content_to_deliver data
  | None => []
  end.
Proof.
  unfold process_line, payload.
  destruct (startsWith DATA_PREFIX line); [|reflexivity].
  destruct (JSON_parse (slice_from 6 line)) as [data|]; [|reflexivity].
  assert (A : content_calls (fst (after_error_check data)) =
              if truthy_opt (get "done" data) then [] else content_to_deliver data).
  { unfold after_error_check.
    destruct (truthy_opt (get "done" data)); [reflexivity|].
    apply content_calls_chunk_events. }
  unfold closing.
  destruct data as [| | | | |fields]; try exact A.
  cbn [get] in *. destruct (lookup (lit "error") fields) as [err|]; [|exact A].
  cbn [truthy_opt]. destruct (truthy err); [reflexivity | exact A].
Qed.

Lemma process_lines_calls (lines : list jsstring) :
  content_calls (fst (process_lines lines)) = deliveries_before_closing lines.
Proof.
  induction lines as [|line rest IH]; [reflexivity|].
  cbn [process_lines deliveries_before_closing].
  destruct (process_line_text line) as [Hstop _].
  pose proof (process_line_calls line) as Hcalls.
  destruct (process_line line) as [evs stop]. cbn [fst snd] in *.
  destruct (process_lines rest) as [evs' stop']. cbn [fst] in IH.
  destruct (payload line) as [data|].
  - subst stop. destruct (closing data); cbn [fst].
    + exact Hcalls.
    + rewrite content_calls_app, Hcalls, IH. reflexivity.
  - subst stop. cbn [fst]. rewrite content_calls_app, Hcalls, IH. reflexivity.
Qed.

(** [onChunk] is called with the content of each event before the
    closing one, once and in stream order. *)
Lemma content_calls_of_stream (b : body) :
  content_calls (step7LLMGenerateStream (Ok b)) =
  deliveries_before_closing (complete_lines b).
Proof.
  cbn [step7LLMGenerateStream].
  rewrite <- (content_calls_callbacks (readStream _ _ _ _)).
  rewrite readStream_whole by reflexivity.
  rewrite content_calls_callbacks, whole_unfold, content_calls_app.
  rewrite process_lines_calls. cbn [app]. unfold complete_lines.
  match goal with |- _ ++ content_calls ?x = _ => assert (E : content_calls x = []) end.
  { destruct (snd (process_lines _)); [reflexivity|].
    destruct (finish b); reflexivity. }
  rewrite E. apply app_nil_r.
Qed.

End StreamTextFacts.

(** ** The tab on the event loop *)

Section LoopFacts.

Import SSE LLMGenerateLoop.

Context {browser : Browser} {stats_ops : LLMGenerateTab.StatsOps}.

Lemma replace_same (i : nat) (c : closure) :
  forall l, nth_error l i = Some c -> replace i c l = l.
Proof.
  induction i as [|i IH]; intros [|x l] H; try discriminate H; cbn in *.
  - injection H as ->. reflexivity.
  - rewrite (IH l H). reflexivity.
Qed.

Lemma nth_error_replace (i : nat) (c : closure) :
  forall l, i < length l -> nth_error (replace i c l) i = Some c.
Proof.
  induction i as [|i IH]; intros [|x l] H; cbn in *; try lia.
  - reflexivity.
  - apply IH. lia.
Qed.

Lemma replace_replace (i : nat) (c c' : closure) :
  forall l, replace i c' (replace i c l) = replace i c' l.
Proof.
  induction i as [|i IH]; intros [|x l]; cbn; try reflexivity.
  rewrite IH. reflexivity.
Qed.

Lemma session_of_closure_of (t : tab) (i : nat) (s : LLMGenerateTab.session) :
  session_of (tab_of t i s) (closure_of s) = s.
Proof. destruct s. reflexivity. Qed.

Lemma tab_of_session_of (t : tab) (i : nat) (c : closure) :
  nth_error (closures t) i = Some c -> tab_of t i (session_of t c) = t.
Proof.
  intro H. unfold tab_of, session_of, closure_of. cbn.
  destruct c as [p d ti]. cbn. rewrite (replace_same _ _ H). destruct t. reflexivity.
Qed.

Lemma tab_of_tab_of (t : tab) (i : nat) (s s' : LLMGenerateTab.session) :
  tab_of (tab_of t i s) i s' = tab_of t i s'.
Proof. unfold tab_of. cbn. rewrite replace_replace. reflexivity. Qed.

(** The turns of one stream alone are a session of its own. *)
Lemma run_own (i : nat) (os : list LLMGenerateTab.occurrence) :
  forall (t : tab) (c : closure),
    nth_error (closures t) i = Some c ->
    run t (map (Of i) os) = tab_of t i (LLMGenerateTab.run (session_of t c) os).
Proof.
  induction os as [|o os IH]; intros t c H.
  - cbn. symmetry. apply tab_of_session_of, H.
  - cbn [map run fold_left step]. rewrite H.
    set (s1 := LLMGenerateTab.step (session_of t c) o).
    fold (run (tab_of t i s1) (map (Of i) os)).
    assert (H1 : nth_error (closures (tab_of t i s1)) i = Some (closure_of s1)).
    { cbn. apply nth_error_replace. apply nth_error_Some. rewrite H. discriminate. }
    rewrite (IH _ _ H1), session_of_closure_of, tab_of_tab_of. reflexivity.
Qed.

(** The state in which a stream starts. *)
Lemma stream_started (t : tab) (found : nat) (initial : LLMGenerateTab.stats) :
  waiting t = Some Retrieval ->
  let t1 := step t (Execute (Streams found initial)) in
  nth_error (closures t1) (length (closures t)) = Some (mkClosure [] 0 true) /\
  waiting t1 = None /\
  session_of t1 (mkClosure [] 0 true) =
  LLMGenerateTab.mkSession [] 0 true [] true
                           (Some (LLMGenerateTab.mkResult [] initial))
                           (log t ++ [found_notice found]).
Proof.
  intros H t1. subst t1. cbn [step handleExecute]. rewrite H. cbn.
  repeat split. rewrite nth_error_app2 by lia. rewrite Nat.sub_diag. reflexivity.
Qed.

(** An undisturbed stream is a session from the state in which it
    starts. *)
Lemma undisturbed_session (t : tab) (found : nat) (initial : LLMGenerateTab.stats)
      (os : list LLMGenerateTab.occurrence) :
  waiting t = Some Retrieval ->
  let s := LLMGenerateTab.run
             (LLMGenerateTab.mkSession [] 0 true [] true
                                       (Some (LLMGenerateTab.mkResult [] initial))
                                       (log t ++ [found_notice found])) os in
  undisturbed t found initial os =
  tab_of (step t (Execute (Streams found initial))) (length (closures t)) s /\
  own_closure t (undisturbed t found initial os) = Some (closure_of s) /\
  executing (undisturbed t found initial os) = false.
Proof.
  intros H s.
  destruct (@stream_started t found initial H) as [Hc [Hw Hs]].
  assert (E : undisturbed t found initial os =
              tab_of (step t (Execute (Streams found initial))) (length (closures t)) s).
  { unfold undisturbed. cbn [run fold_left].
    fold (run (step t (Execute (Streams found initial)))
              (map (Of (length (closures t))) os)).
    rewrite (@run_own _ os _ _ Hc), Hs. reflexivity. }
  split; [exact E|]. rewrite E. split.
  - unfold own_closure. cbn [tab_of closures]. apply nth_error_replace.
    apply nth_error_Some. rewrite Hc. discriminate.
  - unfold executing. cbn [tab_of waiting]. rewrite Hw. reflexivity.
Qed.

End LoopFacts.

(** ** A stream that completes undisturbed *)

Section UndisturbedStreams.

Import SSE LLMGenerateLoop.

Context {browser : Browser} {stats_ops : LLMGenerateTab.StatsOps}.

(** C1, as the code has it: a stream that runs undisturbed and completes
    renders the string content of the events before the closing event.
    [step7LLMGenerateStream] calls [onChunk] with the truthy [content] of
    each event that precedes the first event with a truthy [error] or
    [done], once and in stream order (the closing event's own content is
    not passed on); the strings among them, put together, are what
    [pendingText] has accumulated, and on completion [streamingContent],
    [generated_document] and the text of the answer card are exactly
    that. *)
Theorem rendered_text_is_concatenation
        (t0 : tab) (found : nat) (initial : LLMGenerateTab.stats) (b : body)
        (os : list LLMGenerateTab.occurrence) :
  waiting t0 = Some Retrieval ->
  LLMGenerateTab.reader_events os = step7LLMGenerateStream (Ok b) ->
  In EvDone (step7LLMGenerateStream (Ok b)) ->
  let t := undisturbed t0 found initial os in
  let text := contents_before_closing (complete_lines b) in
  content_calls (step7LLMGenerateStream (Ok b))
  = deliveries_before_closing (complete_lines b) /\
  LLMGenerateTab.received_text (step7LLMGenerateStream (Ok b)) = text /\
  option_map pendingText (own_closure t0 t) = Some text /\
  streamingContent t = text /\
  option_map LLMGenerateTab.generated_document (executionResult t) = Some text /\
  rendered t = Some text.
Proof.
  intros Hw Hos Hdone t text.
  split; [apply content_calls_of_stream|].
  assert (Htext : LLMGenerateTab.received_text (step7LLMGenerateStream (Ok b)) = text)
    by apply received_text_of_stream.
  split; [exact Htext|].
  destruct (@undisturbed_session _ _ t0 found initial os Hw) as [E [Hown Hex]].
  fold t in E, Hown, Hex.
  set (s0 := LLMGenerateTab.mkSession [] 0 true [] true
               (Some (LLMGenerateTab.mkResult [] initial))
               (log t0 ++ [found_notice found])) in *.
  assert (Hends : ends_at_terminal (step7LLMGenerateStream (Ok b)))
    by apply readStream_ends.
  assert (Hres : LLMGenerateTab.executionResult s0 <> None) by (cbn; discriminate).
  destruct (completed_session s0 os Hos Hends Hdone Hres) as [Hp [Hs [_ Hg]]].
  cbn [LLMGenerateTab.pendingText s0 app] in Hp, Hs, Hg. rewrite Htext in Hp, Hs, Hg.
  rewrite Hown. cbn [option_map closure_of pendingText]. rewrite Hp.
  split; [reflexivity|].
  unfold rendered. rewrite Hex. rewrite E. cbn [tab_of streamingContent executionResult].
  rewrite Hs. split; [reflexivity|]. split; [exact Hg|].
  destruct (LLMGenerateTab.executionResult (LLMGenerateTab.run s0 os)) as [r|];
    cbn [option_map] in Hg; [|discriminate Hg].
  injection Hg as Hg. rewrite Hg.
  destruct text; reflexivity.
Qed.

End UndisturbedStreams.

(** ** Failures of the streamed generation *)

Section FailureFacts.

Import SSE.

Context {browser : Browser} {stats_ops : LLMGenerateTab.StatsOps}.

(** The three kinds of failure all end in [onError]. *)
Lemma failure_kinds (e : js_error) :
  step7LLMGenerateStream (FetchRejected e) = [EvError e] /\
  step7LLMGenerateStream (NotOk e) = [EvError e] /\
  step7LLMGenerateStream (Ok (mkBody [] (Failed e))) = [EvRead; EvError e] /\
  (forall line fields err,
      startsWith DATA_PREFIX line = true ->
      JSON_parse (slice_from 6 line) = Some (JObj fields) ->
      lookup (lit "error") fields = Some err ->
      truthy err = true ->
      process_line line = ([EvError (mkError (ToString err) [])], true)).
Proof.
  repeat split.
  intros line fields err Hp Hj Hl Ht. unfold process_line.
  rewrite Hp, Hj. cbn [get]. rewrite Hl, Ht. reflexivity.
Qed.

(** C4, as the code has it: after [onError] nothing is read and no
    callback runs; the LLM-generate tab raises an error toast, logs to
    the console and drops its result, so that the answer card disappears
    with the text shown so far untouched; the chat view raises the toast
    and replaces the text of the in-progress message by the failure
    text. *)
Theorem failure_aborts_and_reports
        (r : response) (pre post : list event) (e : js_error) :
  step7LLMGenerateStream r = pre ++ EvError e :: post ->
  post = [] /\
  (forall s : LLMGenerateTab.session,
      let s' := LLMGenerateTab.step s (LLMGenerateTab.Reader (EvError e)) in
      LLMGenerateTab.isStreaming s' = false /\
      LLMGenerateTab.typewriterTimer s' = false /\
      LLMGenerateTab.executionResult s' = None /\
      LLMGenerateTab.rendered s' = None /\
      LLMGenerateTab.streamingContent s' = LLMGenerateTab.streamingContent s /\
      LLMGenerateTab.log s' =
      LLMGenerateTab.log s ++
      [ConsoleError;
       Toast Error (LLMGenerateTab.LLM_FAILED ++ or_else (message e) UNKNOWN_ERROR)]) /\
  (forall s : ChatView.session,
      let s' := ChatView.onError e s in
      ChatView.isStreaming s' = false /\
      ChatView.typewriterTimer s' = false /\
      ChatView.streamingContent s' = [] /\
      ChatView.content s' = ChatView.SORRY_FAILED ++ or_else (message e) UNKNOWN_ERROR /\
      ChatView.rendered s' =
      Some (ChatView.SORRY_FAILED ++ or_else (message e) UNKNOWN_ERROR) /\
      ChatView.log s' =
      ChatView.log s ++
      [ConsoleError;
       Toast Error (ChatView.GEN_FAILED ++ or_else (message e) UNKNOWN_ERROR)]).
Proof.
  intro H. split; [|split].
  - eapply step7_ends; [exact H | reflexivity].
  - intros s s'. repeat split.
  - intros s s'. repeat split.
Qed.

End FailureFacts.

(** ** Worked runs *)

Section WorkedRuns.

Import SSE.

Local Notation B := ReferenceBrowser.browser.
Local Notation St := Samples.stats_log.

Example reader_on_two_reads :
  step7LLMGenerateStream (browser := B) (Ok Samples.answer_in_two_reads) =
  [EvRead; EvRead;
   EvChunk (Content (JStr (lit "Hel"))); EvChunk (Content (JStr (lit "lo")));
   EvDone].
Proof. vm_compute. reflexivity. Qed.

Example reader_on_failing_stream :
  step7LLMGenerateStream (browser := B) (Ok Samples.failing_stream) =
  [EvRead; EvChunk (Content (JStr (lit "Hi")));
   EvError (mkError (lit "boom") [])].
Proof. vm_compute. reflexivity. Qed.

Lemma fragmentation_invariance_witness :
  callbacks (step7LLMGenerateStream (browser := B) (Ok Samples.answer_in_two_reads)) =
  callbacks (step7LLMGenerateStream (browser := B)
               (Ok (mkBody [concat (reads Samples.answer_in_two_reads)] Closed))).
Proof.
  apply (fragmentation_invariance (browser := B) Closed
           (reads Samples.answer_in_two_reads)
           [concat (reads Samples.answer_in_two_reads)]).
  vm_compute. reflexivity.
Defined.


Lemma failure_aborts_and_reports_witness :
  step7LLMGenerateStream (browser := B) (Ok Samples.failing_stream) =
  [EvRead; EvChunk (Content (JStr (lit "Hi")))]
    ++ EvError (mkError (lit "boom") []) :: [] /\
  ChatView.rendered (ChatView.onError (mkError (lit "boom") []) ChatView.start) =
  Some (ChatView.SORRY_FAILED ++ lit "boom").
Proof.
  assert (H : step7LLMGenerateStream (browser := B) (Ok Samples.failing_stream) =
              [EvRead; EvChunk (Content (JStr (lit "Hi")))]
                ++ EvError (mkError (lit "boom") []) :: [])
    by (vm_compute; reflexivity).
  split; [exact H|].
  destruct (@failure_aborts_and_reports B St _ _ _ _ H)
    as [_ [_ Hchat]].
  exact (proj1 (proj2 (proj2 (proj2 (proj2 (Hchat ChatView.start)))))).
Defined.

(** C4 as stated fails in the LLM-generate tab: after the error event of
    [Samples.failing_stream] the answer card is not rendered at all; the
    text received so far is neither shown nor replaced by a failure
    text. *)
Lemma tab_failure_renders_nothing :
  let tr := step7LLMGenerateStream (browser := B) (Ok Samples.failing_stream) in
  let s := LLMGenerateTab.run (LLMGenerateTab.start (stats_ops := St) [])
                              (Samples.with_ticks tr) in
  In (EvError (mkError (lit "boom") [])) tr /\
  LLMGenerateTab.pendingText s = lit "Hi" /\
  ~ (exists text, LLMGenerateTab.rendered s = Some text).
Proof.
  intros tr s. split; [vm_compute; tauto|]. split; [vm_compute; reflexivity|].
  intros [text H]. vm_compute in H. discriminate H.
Qed.

End WorkedRuns.

Section LoopRuns.

Import SSE LLMGenerateLoop.

Local Notation B := ReferenceBrowser.browser.
Local Notation St := Samples.stats_log.

(** The tab after a click on the execute button, waiting for the
    retrieval. *)
Example tab_after_click :
  waiting (step (browser := B) (stats_ops := St) mounted
                (Execute (Click Samples.all_documents_form)))
  = Some Retrieval.
Proof. reflexivity. Qed.

Lemma rendered_text_is_concatenation_witness :
  let b := Samples.answer_in_two_reads in
  let tr := step7LLMGenerateStream (browser := B) (Ok b) in
  let t0 := step (browser := B) (stats_ops := St) mounted (Execute (Click Samples.all_documents_form)) in
  let t := undisturbed (browser := B) t0 2 [] (Samples.with_ticks tr) in
  contents_before_closing (browser := B) (complete_lines (browser := B) b) = lit "Hello" /\
  streamingContent t = lit "Hello" /\
  rendered t = Some (lit "Hello").
Proof.
  intros b tr t0 t.
  assert (H0 : waiting t0 = Some Retrieval) by reflexivity.
  assert (H1 : LLMGenerateTab.reader_events (Samples.with_ticks tr) = tr)
    by (vm_compute; reflexivity).
  assert (H2 : In EvDone tr) by (vm_compute; tauto).
  assert (H3 : contents_before_closing (browser := B) (complete_lines (browser := B) b) = lit "Hello")
    by (vm_compute; reflexivity).
  split; [exact H3|].
  destruct (@rendered_text_is_concatenation B St t0 2 [] b (Samples.with_ticks tr)
              H0 H1 H2) as [_ [_ [_ [Hs [_ Hr]]]]].
  fold t in Hs, Hr. rewrite H3 in Hs, Hr. split; [exact Hs | exact Hr].
Defined.

(** C1 as stated fails when the closing event carries content: the
    stream delivers the string contents [Hello ] and [world], the session
    completes, and the answer reads [Hello ] only. *)
Lemma closing_event_content_is_dropped :
  let b := Samples.closing_event_with_content in
  let tr := step7LLMGenerateStream (browser := B) (Ok b) in
  let t0 := step (browser := B) (stats_ops := St) mounted (Execute (Click Samples.all_documents_form)) in
  let t := undisturbed (browser := B) t0 2 [] (Samples.with_ticks tr) in
  In EvDone tr /\
  content_calls tr = [JStr (lit "Hello ")] /\
  all_contents (browser := B) (complete_lines (browser := B) b) = lit "Hello world" /\
  streamingContent t = lit "Hello " /\
  option_map (@LLMGenerateTab.generated_document St) (executionResult t)
  = Some (lit "Hello ") /\
  rendered t = Some (lit "Hello ") /\
  rendered t <> Some (all_contents (browser := B) (complete_lines (browser := B) b)).
Proof.
  intros b tr t0 t.
  split; [vm_compute; tauto|].
  split; [vm_compute; reflexivity|].
  split; [vm_compute; reflexivity|].
  split; [vm_compute; reflexivity|].
  split; [vm_compute; reflexivity|].
  split; [vm_compute; reflexivity|].
  intro H. vm_compute in H. discriminate H.
Qed.

(** C9 fails after a click on the clear button: with [hello world]
    received and [hel] displayed, [handleClear] empties the displayed text
    and switches [isStreaming] off, but the timeout of the typewriter stays
    armed, and when it fires next the displayed text goes from empty to
    [hello ], six characters at once. *)
Lemma typewriter_goes_on_after_clear :
  let chunk := EvChunk (Content (JStr (lit "hello world"))) in
  let t1 := run (browser := B) (stats_ops := St) mounted
                [Execute (Click Samples.all_documents_form);
                 Execute (Streams (stats_ops := St) 2 []);
                 Of 0 (LLMGenerateTab.Reader chunk); Of 0 LLMGenerateTab.Tick] in
  let t2 := step (browser := B) t1 Clear in
  let t3 := step (browser := B) t2 (Of 0 LLMGenerateTab.Tick) in
  streamingContent t1 = lit "hel" /\
  streamingContent t2 = [] /\
  isStreaming t2 = false /\
  option_map typewriterTimer (nth_error (closures t2) 0) = Some true /\
  streamingContent t3 = lit "hello " /\
  length (streamingContent t3) = length (streamingContent t2) + 6.
Proof. vm_compute. repeat split. Qed.

End LoopRuns.

(** ** [convertV4ResultsToLLMFormat] *)

Section ConversionFacts.

Import LLMGenerateTab.

Lemma insert_In (A : Type) (compare : A -> A -> Q) (x z : A) (l : list A) :
  In z (insert compare x l) <-> z = x \/ In z l.
Proof.
  induction l as [|y l IH]; cbn [insert].
  - cbn. intuition congruence.
  - destruct (Qle_bool (compare x y) 0); cbn [In]; [intuition congruence|].
    rewrite IH. intuition congruence.
Qed.

Lemma sort_In (A : Type) (compare : A -> A -> Q) (z : A) (l : list A) :
  In z (sort compare l) <-> In z l.
Proof.
  induction l as [|x l IH]; cbn [sort]; [reflexivity|].
  rewrite insert_In, IH. cbn. intuition congruence.
Qed.

Lemma sort_length (A : Type) (compare : A -> A -> Q) (l : list A) :
  length (sort compare l) = length l.
Proof.
  assert (Hins : forall x l', length (insert compare x l') = S (length l')).
  { intros x l'. induction l' as [|y l' IH]; cbn [insert]; [reflexivity|].
    destruct (Qle_bool (compare x y) 0); cbn [length]; [reflexivity|].
    rewrite IH. reflexivity. }
  induction l as [|x l IH]; cbn [sort]; [reflexivity|].
  rewrite Hins, IH. reflexivity.
Qed.

Lemma insert_desc (x : llm_result) (l : list llm_result) :
  StronglySorted desc l -> StronglySorted desc (insert by_score_desc x l).
Proof.
  induction l as [|y l IH]; intro Hs; cbn [insert].
  - constructor; constructor.
  - apply StronglySorted_inv in Hs as [Hl Hy].
    destruct (Qle_bool (by_score_desc x y) 0) eqn:E.
    + apply Qle_bool_iff in E. unfold by_score_desc in E.
      constructor; [constructor; assumption|].
      constructor; [unfold desc; lra|].
      eapply Forall_impl; [|exact Hy]. unfold desc. intros z Hz. lra.
    + assert (Hxy : desc y x).
      { unfold desc. assert (N : ~ (by_score_desc x y <= 0)%Q).
        { intro K. apply Qle_bool_iff in K. congruence. }
        unfold by_score_desc in N. lra. }
      constructor; [apply IH, Hl|].
      apply Forall_forall. intros z Hz. apply insert_In in Hz as [->|Hz]; [exact Hxy|].
      rewrite Forall_forall in Hy. apply Hy, Hz.
Qed.

Lemma sort_desc (l : list llm_result) : StronglySorted desc (sort by_score_desc l).
Proof.
  induction l as [|x l IH]; cbn [sort]; [constructor | apply insert_desc, IH].
Qed.

Lemma firstn_In (A : Type) (n : nat) (l : list A) (z : A) :
  In z (firstn n l) -> In z l.
Proof.
  revert l. induction n as [|n IH]; intros [|x l] H; cbn in *; try contradiction.
  destruct H as [->|H]; [left; reflexivity | right; apply IH, H].
Qed.

Lemma firstn_desc (n : nat) (l : list llm_result) :
  StronglySorted desc l -> StronglySorted desc (firstn n l).
Proof.
  revert l. induction n as [|n IH]; intros [|x l] Hs; cbn [firstn]; try constructor.
  - apply IH. apply StronglySorted_inv in Hs. apply Hs.
  - apply StronglySorted_inv in Hs as [_ Hx].
    apply Forall_forall. intros z Hz. rewrite Forall_forall in Hx.
    apply Hx. eapply firstn_In, Hz.
Qed.

Lemma slice0_length (A : Type) (m : Z) (l : list A) :
  (0 <= m)%Z -> (Z.of_nat (length (slice0 m l)) <= m)%Z.
Proof.
  intro Hm. unfold slice0.
  destruct (m <? 0)%Z eqn:E; [apply Z.ltb_lt in E; lia|].
  pose proof (firstn_le_length (Z.to_nat (Z.min m (Z.of_nat (length l)))) l). lia.
Qed.

Lemma push_all_In (kind : source_kind) (items : option (list scored)) (it : llm_result) :
  In it (push_all kind items) ->
  source it = kind /\ result_score it = (score (origin it) / 100)%Q /\
  exists l, items = Some l /\ In (origin it) l.
Proof.
  destruct items as [l|]; cbn [push_all]; [|contradiction].
  intro H. apply in_map_iff in H as [src [<- Hsrc]].
  cbn. repeat split. exists l. split; [reflexivity | exact Hsrc].
Qed.

(** C8, as the code has it: whatever the bound, the result is in
    non-increasing order of score and each element is the image of a chunk
    of [stage1.chunk_results] or of an entity of [stage2.graphiti.entities]
    or [stage2.cognee.entities], with that item's score divided by 100.
    For a bound [0 <= maxResults] (20 when the argument is omitted) the
    result has at most [maxResults] elements.  A negative bound reaches
    [slice(0, maxResults)] as it is: of [n] sorted items the result keeps
    the first [n + maxResults], or none when that is negative. *)
Theorem convert_bounded_sorted_sourced (r : retrieval) (maxResults : option Z) :
  let m := match maxResults with Some m => m | None => 20%Z end in
  let out := convertV4ResultsToLLMFormat r maxResults in
  StronglySorted desc out /\
  Forall (sourced r) out /\
  ((0 <= m)%Z -> (Z.of_nat (length out) <= m)%Z) /\
  ((m < 0)%Z ->
   Z.of_nat (length out) = Z.max (Z.of_nat (length (LLMResults.candidates r)) + m) 0).
Proof.
  intros m out. subst out. unfold convertV4ResultsToLLMFormat. fold m.
  split; [|split; [|split]].
  - unfold slice0. apply firstn_desc, sort_desc.
  - apply Forall_forall. intros it Hit. unfold slice0 in Hit.
    apply firstn_In, sort_In in Hit.
    unfold sourced.
    apply in_app_or in Hit as [H|H]; [|apply in_app_or in H as [H|H]];
      apply push_all_In in H as [Hk [Hs Hl]]; (split; [exact Hs|]); tauto.
  - apply slice0_length.
  - intro Hm. unfold slice0. fold (LLMResults.candidates r).
    rewrite length_firstn, !sort_length.
    apply Z.ltb_lt in Hm. rewrite Hm. lia.
Qed.

(** With the argument omitted the bound is 20. *)
Lemma convert_default_bound (r : retrieval) :
  convertV4ResultsToLLMFormat r None = convertV4ResultsToLLMFormat r (Some 20%Z).
Proof. reflexivity. Qed.

End ConversionFacts.

(** ** The smart-retrieval request *)

Section RequestFacts.

Lemma guarded_ids (flag : bool) (ids : option (list jsstring)) :
  flag && match ids with None | Some [] => true | Some _ => false end = false ->
  flag = true ->
  exists l, ids = Some l /\ l <> [].
Proof.
  intros H ->. destruct ids as [[|x l]|]; try discriminate.
  exists (x :: l). split; [reflexivity | discriminate].
Qed.

(** C6, as the code has it.  In each of the three places that call
    [smartRetrieval] the body has the fields [query], [top_k], [min_score],
    [enable_refine] and possibly [group_ids], and nothing else.  The
    smart-retrieval tab adds [group_ids] (the selected ids) only in the
    selected mode; the LLM-generate tab always sends [group_ids]: the
    selected ids for the specified scope, [null] otherwise; the chat view
    always sends the ids of the documents of the knowledge base. *)
Theorem smart_retrieval_body_fields :
  (forall f body,
      SmartRetrievalTab.smart_retrieval_body f = Some body ->
      (SmartRetrievalTab.selected f = true ->
       exists ids,
         SmartRetrievalTab.selectedGroupIds f = Some ids /\ ids <> [] /\
         keys body = [lit "query"; lit "top_k"; lit "min_score";
                      lit "enable_refine"; GROUP_IDS] /\
         lookup GROUP_IDS body = Some (strings ids)) /\
      (SmartRetrievalTab.selected f = false ->
       keys body = [lit "query"; lit "top_k"; lit "min_score"; lit "enable_refine"] /\
       lookup GROUP_IDS body = None)) /\
  (forall f body,
      LLMGenerateTab.smart_retrieval_body f = Some body ->
      keys body = [lit "query"; lit "top_k"; lit "min_score"; GROUP_IDS;
                   lit "enable_refine"] /\
      (LLMGenerateTab.specified f = true ->
       exists ids,
         LLMGenerateTab.selectedDocumentGroupIds f = Some ids /\ ids <> [] /\
         lookup GROUP_IDS body = Some (strings ids)) /\
      (LLMGenerateTab.specified f = false ->
       lookup GROUP_IDS body = Some JNull)) /\
  (forall f body,
      ChatView.smart_retrieval_body f = Some body ->
      keys body = [lit "query"; lit "top_k"; lit "min_score"; GROUP_IDS;
                   lit "enable_refine"] /\
      ChatView.kbDocumentGroupIds f <> [] /\
      lookup GROUP_IDS body = Some (strings (ChatView.kbDocumentGroupIds f))).
Proof.
  split; [|split].
  - intros f body H. unfold SmartRetrievalTab.smart_retrieval_body in H.
    destruct (SmartRetrievalTab.rejected_by_guards f) eqn:G; [discriminate|].
    injection H as <-. unfold SmartRetrievalTab.rejected_by_guards in G.
    destruct (trim (SmartRetrievalTab.queryText f)); [discriminate|].
    unfold SmartRetrievalTab.params. split; intro Hsel.
    + destruct (@guarded_ids _ _ G Hsel) as [ids [Hids Hne]].
      exists ids. rewrite Hsel, Hids. repeat split. exact Hne.
    + rewrite Hsel. split; reflexivity.
  - intros f body H. unfold LLMGenerateTab.smart_retrieval_body in H.
    destruct (LLMGenerateTab.rejected_by_guards f) eqn:G; [discriminate|].
    injection H as <-. unfold LLMGenerateTab.rejected_by_guards in G.
    destruct (trim (LLMGenerateTab.userQuery f)); [discriminate|].
    unfold LLMGenerateTab.retrievalParams. split; [reflexivity|]. split; intro Hsp.
    + destruct (@guarded_ids _ _ G Hsp) as [ids [Hids Hne]].
      exists ids. rewrite Hsp, Hids. repeat split. exact Hne.
    + rewrite Hsp. reflexivity.
  - intros f body H. unfold ChatView.smart_retrieval_body in H.
    destruct (trim (ChatView.chatInput f)); [discriminate|].
    destruct (ChatView.selectedKB f); [|discriminate].
    destruct (ChatView.kbDocumentGroupIds f) as [|g gs] eqn:Hg; [discriminate|].
    destruct (str_eqb (ChatView.chatMode f) (lit "conversation")); [|discriminate].
    injection H as <-. unfold ChatView.retrievalParams. rewrite Hg.
    repeat split. discriminate.
Qed.

Lemma smart_retrieval_body_fields_witness :
  SmartRetrievalTab.smart_retrieval_body Samples.selected_form
  = Some (SmartRetrievalTab.params Samples.selected_form) /\
  lookup GROUP_IDS (SmartRetrievalTab.params Samples.selected_form)
  = Some (strings [lit "doc-1"; lit "doc-2"]).
Proof.
  assert (H : SmartRetrievalTab.smart_retrieval_body Samples.selected_form
              = Some (SmartRetrievalTab.params Samples.selected_form))
    by reflexivity.
  split; [exact H|].
  destruct (proj1 (proj1 smart_retrieval_body_fields _ _ H) eq_refl)
    as [ids [Hids [_ [_ Hl]]]].
  injection Hids as <-. exact Hl.
Defined.

(** C6 as stated fails in the LLM-generate tab: with the scope on all
    documents the body still has a [group_ids] field, holding [null]. *)
Lemma group_ids_null_when_all_documents :
  exists body,
    LLMGenerateTab.smart_retrieval_body Samples.all_documents_form = Some body /\
    LLMGenerateTab.specified Samples.all_documents_form = false /\
    In GROUP_IDS (keys body) /\
    lookup GROUP_IDS body = Some JNull.
Proof.
  eexists. split; [reflexivity|]. split; [reflexivity|].
  split; [vm_compute; tauto | reflexivity].
Qed.

End RequestFacts.

Section ConversionRuns.

Import LLMGenerateTab.

Example convert_retrieved :
  map (fun it => (source it, object (origin it)))
      (convertV4ResultsToLLMFormat Samples.retrieved (Some 2%Z))
  = [(DocumentChunk, JStr (lit "chunk B")); (Graphiti, JStr (lit "entity C"))].
Proof. vm_compute. reflexivity. Qed.

(** C8 as stated fails for a negative bound: a negative [end] of [slice]
    counts from the end of the array, so that with three items and
    [maxResults = -1] the result has two items, more than the bound. *)
Lemma negative_bound_is_exceeded :
  let out := convertV4ResultsToLLMFormat Samples.retrieved (Some (-1)%Z) in
  length out = 2 /\ ~ (Z.of_nat (length out) <= -1)%Z.
Proof.
  assert (H : length (convertV4ResultsToLLMFormat Samples.retrieved (Some (-1)%Z)) = 2)
    by (vm_compute; reflexivity).
  cbv zeta. rewrite H. split; [reflexivity | lia].
Qed.

Lemma convert_bounded_sorted_sourced_witness :
  (Z.of_nat (length (convertV4ResultsToLLMFormat Samples.retrieved (Some 2%Z))) <= 2)%Z /\
  StronglySorted desc (convertV4ResultsToLLMFormat Samples.retrieved (Some 2%Z)).
Proof.
  destruct (convert_bounded_sorted_sourced Samples.retrieved (Some 2%Z))
    as [Hsorted [_ [Hlen _]]].
  split; [apply Hlen; lia | exact Hsorted].
Defined.

End ConversionRuns.

(** ** Deletes are gated by a confirmed dialog *)

Lemma count_app (p : effect -> bool) (a b : list effect) :
  count p (a ++ b) = count p a + count p b.
Proof. unfold count. rewrite filter_app, length_app. reflexivity. Qed.

Lemma is_ok_choice (tr : list effect) : count is_ok tr <= count is_choice tr.
Proof.
  unfold count. induction tr as [|ef tr IH]; [apply Nat.le_refl|].
  destruct ef; cbn [filter is_ok is_choice length]; lia.
Qed.

Lemma gated_nil : gated [].
Proof.
  intros pre post H. symmetry in H. apply app_eq_nil in H as [-> _].
  split; apply Nat.le_refl.
Qed.

Lemma gated_app (tr evs : list effect) :
  gated tr ->
  count is_choice evs = 0 ->
  count is_delete tr + count is_delete evs <= count is_ok tr ->
  gated (tr ++ evs).
Proof.
  intros Htr Hchoice Hdel pre post H.
  apply app_eq_app in H as [l [[H1 H2]|[H1 H2]]].
  - apply (Htr pre l H1).
  - destruct (Htr tr [] (eq_sym (app_nil_r tr))) as [_ Hc].
    rewrite H2 in Hchoice, Hdel. rewrite count_app in Hchoice, Hdel.
    rewrite H1, !count_app. split; lia.
Qed.

Lemma gated_snoc (tr : list effect) (ef : effect) :
  gated tr ->
  count is_delete (tr ++ [ef]) <= count is_ok (tr ++ [ef]) ->
  count is_choice (tr ++ [ef]) <= count is_confirm (tr ++ [ef]) ->
  gated (tr ++ [ef]).
Proof.
  intros Htr Hd Hc pre post H.
  apply app_eq_app in H as [l [[H1 H2]|[H1 H2]]].
  - apply (Htr pre l H1).
  - destruct l as [|x l].
    + rewrite app_nil_r in H1. subst pre. apply (Htr tr [] (eq_sym (app_nil_r tr))).
    + injection H2 as <- H2. symmetry in H2. apply app_eq_nil in H2 as [-> _].
      subst pre. split; assumption.
Qed.

Section EmitFacts.

Variable ref : Type.
Variable ref_eqb : ref -> ref -> bool.

Lemma emits_le (n k : nat) (A : Type) (m : Eff.M ref A) :
  n <= k -> emits n m -> emits k m.
Proof.
  intros Hle H w. destruct (H w) as [evs [Ht [Hd [Hc Ho]]]].
  exists evs. repeat split; try assumption. lia.
Qed.

Lemma emits_same (A : Type) (m : Eff.M ref A) :
  (forall w, trace (snd (m w)) = trace w /\ opened (snd (m w)) = opened w) ->
  emits 0 m.
Proof.
  intros H w. destruct (H w) as [Ht Ho]. exists [].
  rewrite app_nil_r, Ht, Ho. cbn. repeat split; lia.
Qed.

Lemma emits_ret (A : Type) (a : A) : emits 0 (ret (ref := ref) a).
Proof. apply emits_same. intro w. split; reflexivity. Qed.

Lemma emits_throw (A : Type) (e : js_error) : emits 0 (throw (ref := ref) (A := A) e).
Proof. apply emits_same. intro w. split; reflexivity. Qed.

Lemma emits_read (r : ref) : emits 0 (read r).
Proof. apply emits_same. intro w. split; reflexivity. Qed.

Lemma emits_snapshot : emits 0 (snapshot (ref := ref)).
Proof. apply emits_same. intro w. split; reflexivity. Qed.

Lemma emits_write (r : ref) (v : json) : emits 0 (Eff.write ref_eqb r v).
Proof. apply emits_same. intro w. split; reflexivity. Qed.

Lemma emits_destroyAll : emits 0 (destroyAll (ref := ref)).
Proof.
  intro w. exists []. cbn. rewrite app_nil_r. repeat split; lia.
Qed.

Lemma emits_toast (l : level) (text : jsstring) : emits 0 (toast (ref := ref) l text).
Proof.
  intro w. exists [Toast l text]. cbn. repeat split; lia.
Qed.

Lemma emits_console : emits 0 (emit (ref := ref) ConsoleError).
Proof.
  intro w. exists [ConsoleError]. cbn. repeat split; lia.
Qed.

Lemma emits_confirm (d : dialog) : emits 0 (confirm (ref := ref) d).
Proof.
  intro w. exists [ConfirmShown d]. cbn. rewrite length_app. cbn.
  repeat split; lia.
Qed.

Lemma emits_await (e : endpoint) (args : list json) :
  emits (if destructive e then 1 else 0) (await (ref := ref) e args).
Proof.
  intro w. exists [Call e args]. unfold await.
  destruct (answers w) as [|[v|err] rest]; cbn [snd trace opened];
    (split; [reflexivity|]); unfold count; cbn [filter is_delete is_choice is_confirm];
    destruct (destructive e); cbn; repeat split; lia.
Qed.

Lemma emits_call (e : endpoint) (args : list json) :
  destructive e = false -> emits 0 (await (ref := ref) e args).
Proof. intro H. pose proof (emits_await e args) as K. rewrite H in K. exact K. Qed.

Lemma emits_delete (e : endpoint) (args : list json) :
  emits 1 (await (ref := ref) e args).
Proof.
  eapply emits_le; [|apply emits_await]. destruct (destructive e); lia.
Qed.

Lemma emits_request (e : endpoint) (args : list json) :
  destructive e = false -> emits 0 (request (ref := ref) e args).
Proof.
  intros H w. exists [Call e args]. unfold request, emit. cbn [snd trace opened].
  split; [reflexivity|]. unfold count. cbn [filter is_delete is_choice is_confirm].
  rewrite H. cbn. repeat split; lia.
Qed.

Lemma emits_reply : emits 0 (reply (ref := ref)).
Proof.
  apply emits_same. intro w. unfold reply.
  destruct (answers w) as [|[v|err] rest]; split; reflexivity.
Qed.

Lemma emits_bind (n k : nat) (A B : Type) (m : Eff.M ref A) (f : A -> Eff.M ref B) :
  emits n m -> (forall a, emits k (f a)) -> emits (n + k) (bind m f).
Proof.
  intros Hm Hf w. unfold bind.
  destruct (Hm w) as [evs [Ht [Hd [Hc Ho]]]].
  destruct (m w) as [[a|e|] w1]; cbn [snd] in *.
  - destruct (Hf a w1) as [evs' [Ht' [Hd' [Hc' Ho']]]].
    exists (evs ++ evs'). rewrite Ht', Ht, app_assoc, !count_app.
    repeat split; lia.
  - exists evs. repeat split; try assumption; lia.
  - exists evs. repeat split; try assumption; lia.
Qed.

Lemma emits0_bind (A B : Type) (m : Eff.M ref A) (f : A -> Eff.M ref B) :
  emits 0 m -> (forall a, emits 0 (f a)) -> emits 0 (bind m f).
Proof. apply (@emits_bind 0 0). Qed.

Lemma emits1_bind_after (A B : Type) (m : Eff.M ref A) (f : A -> Eff.M ref B) :
  emits 0 m -> (forall a, emits 1 (f a)) -> emits 1 (bind m f).
Proof. apply (@emits_bind 0 1). Qed.

Lemma emits1_bind_first (A B : Type) (m : Eff.M ref A) (f : A -> Eff.M ref B) :
  emits 1 m -> (forall a, emits 0 (f a)) -> emits 1 (bind m f).
Proof. apply (@emits_bind 1 0). Qed.

Lemma emits_try (n : nat) (A : Type) (m : Eff.M ref A) (h : js_error -> Eff.M ref A) :
  emits n m -> (forall e, emits 0 (h e)) -> emits n (try_catch m h).
Proof.
  intros Hm Hh w. unfold try_catch.
  destruct (Hm w) as [evs [Ht [Hd [Hc Ho]]]].
  destruct (m w) as [[a|e|] w1]; cbn [snd] in *.
  - exists evs. repeat split; assumption.
  - destruct (Hh e w1) as [evs' [Ht' [Hd' [Hc' Ho']]]].
    exists (evs ++ evs'). rewrite Ht', Ht, app_assoc, !count_app.
    repeat split; lia.
  - exists evs. repeat split; assumption.
Qed.

Lemma emits_finally (n : nat) (A : Type) (m : Eff.M ref A) (c : Eff.M ref unit) :
  emits n m -> emits 0 c -> emits n (finally m c).
Proof.
  intros Hm Hc0 w. unfold finally.
  destruct (Hm w) as [evs [Ht [Hd [Hc Ho]]]].
  destruct (m w) as [[a|e|] w1]; cbn [snd] in *.
  - destruct (Hc0 w1) as [evs' [Ht' [Hd' [Hc' Ho']]]].
    exists (evs ++ evs'). rewrite Ht', Ht, app_assoc, !count_app.
    repeat split; lia.
  - destruct (Hc0 w1) as [evs' [Ht' [Hd' [Hc' Ho']]]].
    exists (evs ++ evs'). rewrite Ht', Ht, app_assoc, !count_app.
    repeat split; lia.
  - exists evs. repeat split; assumption.
Qed.

Lemma emits_spawn (n : nat) (m : Eff.M ref unit) : emits n m -> emits n (spawn m).
Proof. intros Hm w. exact (Hm w). Qed.

Lemma emits_then_run (n : nat) (A : Type) (first : Eff.M ref A) (second : Eff.M ref unit) :
  emits n first -> emits 0 second -> emits n (then_run first second).
Proof.
  intros Hf Hs w. unfold then_run.
  destruct (Hf w) as [evs [Ht [Hd [Hc Ho]]]].
  destruct (first w) as [o w1]; cbn [snd] in *.
  destruct (Hs w1) as [evs' [Ht' [Hd' [Hc' Ho']]]].
  exists (evs ++ evs'). rewrite Ht', Ht, app_assoc, !count_app. repeat split; lia.
Qed.

Lemma emits_field (k : string) (v : json) : emits 0 (field (ref := ref) k v).
Proof. destruct v; apply emits_same; intro w; split; reflexivity. Qed.

Lemma emits_map_array (f : json -> json) (v : json) :
  emits 0 (map_array (ref := ref) f v).
Proof.
  unfold map_array. destruct v; try apply emits_throw.
  destruct (existsb _ items); [apply emits_throw | apply emits_ret].
Qed.

Lemma emits_when (n : nat) (c : bool) (m : Eff.M ref unit) :
  emits n m -> emits n (when c m).
Proof.
  intro H. destruct c; [exact H|].
  eapply emits_le; [|apply emits_ret]. lia.
Qed.

(** The dialogs are answered one by one: the invariant of [interact]. *)
Lemma interact_gated (onOk onCancel : dialog -> Eff.M ref unit) :
  (forall d, emits 1 (onOk d)) ->
  (forall d, emits 0 (onCancel d)) ->
  forall choices w,
    gated (trace w) ->
    length (opened w) + count is_choice (trace w) <= count is_confirm (trace w) ->
    gated (trace (interact onOk onCancel choices w)).
Proof.
  intros Hok Hcancel. induction choices as [|c rest IH]; intros w Hg Hopen; [exact Hg|].
  cbn [interact]. destruct (opened w) as [|d ds] eqn:Eo; [exact Hg|].
  cbn [length] in Hopen.
  destruct (Hg (trace w) [] (eq_sym (app_nil_r _))) as [Hdel Hch].
  destruct c.
  - set (w0 := mkWorld (answers w) (trace w ++ [ChoseOk]) ds (refs w)).
    destruct (Hok d w0) as [evs [Ht [Hd [Hc Ho]]]].
    subst w0. cbn [trace opened] in Ht, Ho.
    apply IH.
    + rewrite Ht. apply gated_app; [apply gated_snoc; [exact Hg| |] | exact Hc |];
        rewrite !count_app; cbn; lia.
    + rewrite Ht, !count_app. cbn. lia.
  - set (w0 := mkWorld (answers w) (trace w ++ [ChoseCancel]) ds (refs w)).
    destruct (Hcancel d w0) as [evs [Ht [Hd [Hc Ho]]]].
    subst w0. cbn [trace opened] in Ht, Ho.
    apply IH.
    + rewrite Ht. apply gated_app; [apply gated_snoc; [exact Hg| |] | exact Hc |];
        rewrite !count_app; cbn; lia.
    + rewrite Ht, !count_app. cbn. lia.
Qed.

(** An OK in the trace comes from an OK of the user. *)
Lemma interact_oks (onOk onCancel : dialog -> Eff.M ref unit) :
  (forall d, emits 1 (onOk d)) ->
  (forall d, emits 0 (onCancel d)) ->
  forall choices w,
    count is_ok (trace (interact onOk onCancel choices w)) <=
    count is_ok (trace w)
    + length (filter (fun c => match c with PressOk => true | _ => false end) choices).
Proof.
  intros Hok Hcancel. induction choices as [|c rest IH]; intro w; cbn [interact filter length].
  - lia.
  - destruct (opened w) as [|d ds]; [destruct c; cbn [length]; lia|].
    destruct c.
    + set (w0 := mkWorld (answers w) (trace w ++ [ChoseOk]) ds (refs w)).
      destruct (Hok d w0) as [evs [Ht [Hd [Hc Ho]]]].
      specialize (IH (snd (onOk d w0))). rewrite Ht in IH.
      subst w0. cbn [trace] in IH. rewrite !count_app in IH.
      pose proof (is_ok_choice evs). cbn [length]. cbn in IH. lia.
    + set (w0 := mkWorld (answers w) (trace w ++ [ChoseCancel]) ds (refs w)).
      destruct (Hcancel d w0) as [evs [Ht [Hd [Hc Ho]]]].
      specialize (IH (snd (onCancel d w0))). rewrite Ht in IH.
      subst w0. cbn [trace] in IH. rewrite !count_app in IH.
      pose proof (is_ok_choice evs). cbn in IH. lia.
Qed.

(** A whole interaction, started with no dialog open. *)
Lemma interaction_gated (handler : Eff.M ref unit)
      (onOk onCancel : dialog -> Eff.M ref unit) :
  emits 0 handler ->
  (forall d, emits 1 (onOk d)) ->
  (forall d, emits 0 (onCancel d)) ->
  forall choices w,
    trace w = [] -> opened w = [] ->
    let tr := trace (interaction handler onOk onCancel choices w) in
    gated tr /\
    (Forall (fun c => c = PressCancel) choices -> count is_delete tr = 0).
Proof.
  intros Hh Hok Hcancel choices w Ht0 Ho0 tr.
  destruct (Hh w) as [evs [Ht [Hd [Hc Ho]]]].
  rewrite Ht0 in Ht. rewrite Ho0 in Ho. cbn in Ht, Ho.
  assert (Hg : gated tr).
  { subst tr. unfold interaction. apply interact_gated; try assumption.
    - rewrite Ht. apply (gated_app (tr := [])); [apply gated_nil | exact Hc | cbn; lia].
    - rewrite Ht. lia. }
  split; [exact Hg|].
  intro Hall.
  destruct (Hg tr [] (eq_sym (app_nil_r _))) as [Hdel _].
  pose proof (@interact_oks onOk onCancel Hok Hcancel choices (snd (handler w))) as Hoks.
  fold (interaction handler onOk onCancel choices w) in Hoks. fold tr in Hoks.
  rewrite Ht in Hoks.
  assert (Hno : length (filter (fun c => match c with PressOk => true | _ => false end)
                               choices) = 0).
  { clear -Hall. induction Hall as [|c l Hc _ IH]; [reflexivity|].
    subst c. exact IH. }
  pose proof (is_ok_choice evs). lia.
Qed.

End EmitFacts.

Create HintDb emits.

Ltac silent_step :=
  match goal with
  | |- emits _ _ => solve [auto with emits]
  | H : forall x, emits 0 (?f x) |- emits 0 (?f _) => apply H
  | H : forall x y, emits 0 (?f x y) |- emits 0 (?f _ _) => apply H
  | H : emits 0 ?m |- emits 0 ?m => exact H
  | |- emits _ (bind _ _) => apply emits0_bind; [|intro]
  | |- emits _ (try_catch _ _) => apply emits_try; [|intro]
  | |- emits _ (finally _ _) => apply emits_finally
  | |- emits _ (spawn _) => apply emits_spawn
  | |- emits _ (then_run _ _) => apply emits_then_run
  | |- emits _ (request _ _) => apply emits_request; reflexivity
  | |- emits _ reply => apply emits_reply
  | |- emits _ (when _ _) => apply emits_when
  | |- emits _ (ret _) => apply emits_ret
  | |- emits _ (throw _) => apply emits_throw
  | |- emits _ (read _) => apply emits_read
  | |- emits _ snapshot => apply emits_snapshot
  | |- emits _ (Eff.write _ _ _) => apply emits_write
  | |- emits _ (GraphitiTab.write _ _) => apply emits_write
  | |- emits _ (CogneeTab.write _ _) => apply emits_write
  | |- emits _ (KnowledgeBaseView.write _ _) => apply emits_write
  | |- emits _ (SmartRetrievalTab.write _ _) => apply emits_write
  | |- emits _ destroyAll => apply emits_destroyAll
  | |- emits _ (toast _ _) => apply emits_toast
  | |- emits _ (emit ConsoleError) => apply emits_console
  | |- emits _ (confirm _) => apply emits_confirm
  | |- emits _ (field _ _) => apply emits_field
  | |- emits _ (map_array _ _) => apply emits_map_array
  | |- emits _ (await _ _) => apply emits_call; reflexivity
  | |- emits _ (if ?c then _ else _) => destruct c
  | |- emits _ (match ?x with _ => _ end) => destruct x
  end.

Ltac silent := repeat silent_step.

Ltac acting_step :=
  match goal with
  | |- emits 1 (try_catch _ _) => apply emits_try; [|intro; solve [silent]]
  | |- emits 1 (finally _ _) => apply emits_finally; [|solve [silent]]
  | |- emits 1 (spawn _) => apply emits_spawn
  | |- emits 1 (bind (await _ _) _) =>
      apply emits1_bind_first; [apply emits_delete | intro; solve [silent]]
  | |- emits 1 (bind _ _) => apply emits1_bind_after; [solve [silent] | intro]
  | |- emits 1 (if ?c then _ else _) => destruct c
  | |- emits 1 _ => apply (@emits_le _ 0 1); [lia | solve [silent]]
  end.

Ltac acting := repeat acting_step.

Section GraphitiGate.

Import GraphitiTab.

Context {browser : SSE.Browser}.

Lemma reset_executing_emits : emits 0 reset_executing.
Proof. unfold reset_executing. silent. Qed.

Lemma clear_graph_emits : emits 0 clear_graph.
Proof. unfold clear_graph. silent. Qed.

Lemma handleLoadEpisodeBody_emits : emits 0 handleLoadEpisodeBody.
Proof. unfold handleLoadEpisodeBody. silent. Qed.

Lemma episode_body_loaded_emits : emits 0 episode_body_loaded.
Proof. unfold episode_body_loaded. silent. Qed.

Lemma result_checked_emits : emits 0 result_checked.
Proof. unfold result_checked. silent. Qed.

Lemma handleDocumentChange_emits (order : arrival) (val : json) :
  emits 0 (handleDocumentChange order val).
Proof.
  pose proof episode_body_loaded_emits. pose proof result_checked_emits.
  unfold handleDocumentChange. silent.
Qed.

Lemma fetchGraphData_emits (groupId : json) : emits 0 (fetchGraphData groupId).
Proof. unfold fetchGraphData. silent. Qed.

Lemma load_graph_of_emits (res : json) : emits 0 (load_graph_of res).
Proof.
  pose proof fetchGraphData_emits.
  unfold load_graph_of. silent.
Qed.

Lemma graphiti_after_build_emits (parse_mode template_config res : json) :
  emits 0 (GraphitiTab.after_build parse_mode template_config res).
Proof.
  pose proof reset_executing_emits. pose proof load_graph_of_emits.
  unfold GraphitiTab.after_build. silent.
Qed.

Lemma executeGraphitiWithMode_emits (parse_mode template_config : json) :
  emits 0 (executeGraphitiWithMode parse_mode template_config).
Proof.
  pose proof reset_executing_emits. pose proof graphiti_after_build_emits.
  unfold executeGraphitiWithMode. silent.
Qed.

Lemma handleExecuteGraphiti_emits : emits 0 handleExecuteGraphiti.
Proof.
  pose proof executeGraphitiWithMode_emits.
  unfold handleExecuteGraphiti. silent.
Qed.

Lemma graphiti_handleDeleteGraph_emits : emits 0 GraphitiTab.handleDeleteGraph.
Proof. unfold GraphitiTab.handleDeleteGraph. silent. Qed.

Lemma graphiti_onOk_emits (d : dialog) : emits 1 (GraphitiTab.onOk d).
Proof.
  pose proof reset_executing_emits. pose proof clear_graph_emits.
  pose proof executeGraphitiWithMode_emits.
  destruct d; cbn [GraphitiTab.onOk]; acting.
Qed.

Lemma graphiti_onCancel_emits (d : dialog) : emits 0 (GraphitiTab.onCancel d).
Proof.
  pose proof reset_executing_emits.
  destruct d; cbn [GraphitiTab.onCancel]; silent.
Qed.

End GraphitiGate.

Section CogneeGate.

Import CogneeTab.

Context {browser : SSE.Browser}.

Variable prepare : Eff.store name -> list (level * jsstring) * option json.

Lemma notify_emits (notices : list (level * jsstring)) : emits 0 (notify notices).
Proof.
  induction notices as [|n rest IH]; cbn [notify fold_right].
  - apply emits_ret.
  - apply emits0_bind; [apply emits_toast | intro; exact IH].
Qed.

Lemma cognee_reset_executing_emits : emits 0 CogneeTab.reset_executing.
Proof. unfold CogneeTab.reset_executing. silent. Qed.

Lemma loadChunksCogneeMapping_emits : emits 0 loadChunksCogneeMapping.
Proof. unfold loadChunksCogneeMapping. silent. Qed.

Lemma cognee_after_build_emits (skipConfirmation : bool) (result : json) :
  emits 0 (CogneeTab.after_build skipConfirmation result).
Proof.
  pose proof cognee_reset_executing_emits.
  pose proof loadChunksCogneeMapping_emits.
  unfold CogneeTab.after_build. silent.
Qed.

Lemma cognee_handleExecute_emits (skipConfirmation : bool) :
  emits 0 (handleExecute prepare skipConfirmation).
Proof.
  pose proof notify_emits. pose proof cognee_reset_executing_emits.
  pose proof cognee_after_build_emits.
  unfold handleExecute. silent.
Qed.

Lemma cognee_handleDeleteGraph_emits : emits 0 CogneeTab.handleDeleteGraph.
Proof. unfold CogneeTab.handleDeleteGraph. silent. Qed.

Lemma cognee_onOk_emits (d : dialog) : emits 1 (CogneeTab.onOk prepare d).
Proof.
  pose proof cognee_reset_executing_emits.
  pose proof cognee_handleExecute_emits.
  destruct d; cbn [CogneeTab.onOk]; acting.
Qed.

Lemma cognee_onCancel_emits (d : dialog) : emits 0 (CogneeTab.onCancel d).
Proof.
  pose proof cognee_reset_executing_emits.
  destruct d; cbn [CogneeTab.onCancel]; silent.
Qed.

End CogneeGate.

Section KnowledgeBaseGate.

Import KnowledgeBaseView.

Lemma completed_id_emits (doc : json) : emits 0 (completed_id doc).
Proof. unfold completed_id. silent. Qed.

Lemma completed_ids_emits (docs : list json) : emits 0 (completed_ids docs).
Proof.
  pose proof completed_id_emits.
  induction docs as [|doc rest IH]; cbn [completed_ids]; silent.
Qed.

Lemma load_pages_emits (count : nat) : forall page, emits 0 (load_pages count page).
Proof.
  pose proof completed_ids_emits.
  induction count as [|count IH]; intro page; cbn [load_pages]; silent.
Qed.

Lemma loadDocuments_emits : emits 0 loadDocuments.
Proof.
  pose proof load_pages_emits.
  unfold loadDocuments. silent.
Qed.

Lemma handleDeleteDocument_emits (document : json) :
  emits 0 (handleDeleteDocument document).
Proof. unfold handleDeleteDocument. silent. Qed.

Lemma kb_onOk_emits (d : dialog) : emits 1 (KnowledgeBaseView.onOk d).
Proof.
  pose proof loadDocuments_emits.
  destruct d; cbn [KnowledgeBaseView.onOk]; acting.
Qed.

Lemma kb_onCancel_emits (d : dialog) : emits 0 (KnowledgeBaseView.onCancel d).
Proof. apply emits_ret. Qed.

End KnowledgeBaseGate.

(** ** C2 *)

Section GateTheorem.

Context {browser : SSE.Browser}.

Variable prepare : Eff.store CogneeTab.name -> list (level * jsstring) * option json.

(** C2: in every interaction of the Graphiti tab, the Cognee tab and the
    document list of a knowledge base (the only places that call
    [deleteGraphitiGraph], [deleteCogneeGraph] and
    [deleteKnowledgeBaseDocument]), started with no dialog open, whatever
    the backend answers and whatever the user chooses: at every point of
    the trace each delete call is matched by an earlier OK of its own and
    each OK by an earlier dialog of its own; and when the user only ever
    chooses Cancel there is no delete call. *)
Theorem deletes_only_after_confirmation (choices : list choice) :
  (forall (a : GraphitiTab.action) (w : GraphitiTab.world),
      trace w = [] -> opened w = [] ->
      let tr := trace (interaction (GraphitiTab.handler a)
                                   GraphitiTab.onOk GraphitiTab.onCancel choices w) in
      gated tr /\
      (Forall (fun c => c = PressCancel) choices -> count is_delete tr = 0)) /\
  (forall (a : CogneeTab.action) (w : CogneeTab.world),
      trace w = [] -> opened w = [] ->
      let tr := trace (interaction (CogneeTab.handler prepare a)
                                   (CogneeTab.onOk prepare) CogneeTab.onCancel
                                   choices w) in
      gated tr /\
      (Forall (fun c => c = PressCancel) choices -> count is_delete tr = 0)) /\
  (forall (a : KnowledgeBaseView.action) (w : KnowledgeBaseView.world),
      trace w = [] -> opened w = [] ->
      let tr := trace (interaction (KnowledgeBaseView.handler a)
                                   KnowledgeBaseView.onOk KnowledgeBaseView.onCancel
                                   choices w) in
      gated tr /\
      (Forall (fun c => c = PressCancel) choices -> count is_delete tr = 0)).
Proof.
  split; [|split]; intros a w Ht Ho.
  - apply interaction_gated; try assumption.
    + destruct a; cbn [GraphitiTab.handler].
      * apply handleDocumentChange_emits.
      * apply handleLoadEpisodeBody_emits.
      * apply handleExecuteGraphiti_emits.
      * apply graphiti_handleDeleteGraph_emits.
    + apply graphiti_onOk_emits.
    + apply graphiti_onCancel_emits.
  - apply interaction_gated; try assumption.
    + destruct a; cbn [CogneeTab.handler].
      * apply cognee_handleExecute_emits.
      * apply cognee_handleDeleteGraph_emits.
    + apply cognee_onOk_emits.
    + apply cognee_onCancel_emits.
  - apply interaction_gated; try assumption.
    + destruct a; cbn [KnowledgeBaseView.handler].
      * apply loadDocuments_emits.
      * apply handleDeleteDocument_emits.
    + apply kb_onOk_emits.
    + apply kb_onCancel_emits.
Qed.

End GateTheorem.

Section GateRuns.

Local Notation B := ReferenceBrowser.browser.

Example delete_graph_confirmed :
  trace (interaction (GraphitiTab.handler (browser := B) GraphitiTab.ClickDelete)
                     (GraphitiTab.onOk (browser := B)) GraphitiTab.onCancel
                     [PressOk] Samples.graphiti_delete_world)
  = [ConfirmShown DeleteGraphiti; ChoseOk;
     Call deleteGraphitiGraph [JNum 7];
     Toast Success GraphitiTab.GRAPH_DELETED].
Proof. vm_compute. reflexivity. Qed.

Example delete_graph_cancelled :
  trace (interaction (GraphitiTab.handler (browser := B) GraphitiTab.ClickDelete)
                     (GraphitiTab.onOk (browser := B)) GraphitiTab.onCancel
                     [PressCancel] Samples.graphiti_delete_world)
  = [ConfirmShown DeleteGraphiti; ChoseCancel].
Proof. vm_compute. reflexivity. Qed.

Lemma deletes_only_after_confirmation_witness :
  gated (trace (interaction (GraphitiTab.handler (browser := B) GraphitiTab.ClickDelete)
                            (GraphitiTab.onOk (browser := B)) GraphitiTab.onCancel
                            [PressOk] Samples.graphiti_delete_world)).
Proof.
  exact (proj1 (proj1 (@deletes_only_after_confirmation B Samples.cognee_prepare [PressOk])
                      GraphitiTab.ClickDelete Samples.graphiti_delete_world
                      eq_refl eq_refl)).
Defined.

End GateRuns.

(** ** The rebuild of an existing graph *)

Section RebuildFacts.

Context {browser : SSE.Browser}.

Variable prepare : Eff.store CogneeTab.name -> list (level * jsstring) * option json.


Lemma is_true_truthy_opt (o : option json) : is_true o = true -> truthy_opt o = true.
Proof. destruct o as [[| [|] | | | |]|]; cbn; try discriminate; reflexivity. Qed.

Lemma emits_extends (ref : Type) (n : nat) (A : Type) (m : Eff.M ref A) (w : Eff.world ref) :
  emits n m -> exists evs, trace (snd (m w)) = trace w ++ evs.
Proof. intro H. destruct (H w) as [evs [Ht _]]. exists evs. exact Ht. Qed.


Import GraphitiTab.







End RebuildFacts.

Section RebuildRuns.

Local Notation B := ReferenceBrowser.browser.

Example cognee_first_click_asks :
  trace (snd (CogneeTab.handleExecute (browser := B) Samples.cognee_prepare false
                                      Samples.cognee_needs_confirmation_world))
  = [Call step2CogneeBuild [JObj [(lit "upload_id", JNum 7)]];
     ConfirmShown RebuildCognee].
Proof. vm_compute. reflexivity. Qed.



End RebuildRuns.

(** ** Rejected calls *)

Section ReportFacts.

Context {browser : SSE.Browser}.

Variable initial_steps : Eff.store SmartRetrievalTab.name -> json.
Variable step_count : json -> json.
Variable finished_steps : json -> json.
Variable failed_steps : json -> json -> json.
Variable success_text : json -> json -> jsstring.

(** C5, as the code has it, for the three handlers the claim is drawn
    from.  A rejected [smartRetrieval] in the smart-retrieval tab is
    logged to the console and raises an error toast with the server's
    detail, else the error's message, else the fallback text.  A rejected
    [previewEpisodeBody] raises an error toast with a fixed text and is not
    logged.  A rejected [getGraphitiResult] in [handleDocumentChange]
    raises nothing and is not logged: whichever of the two answers of
    [handleDocumentChange] comes in first, the trace holds the two calls
    and then only what the answer of [previewEpisodeBody] leads to. *)
Theorem rejected_calls_reported :
  (forall (w : SmartRetrievalTab.world) (e : js_error) (rest : list answer),
      SmartRetrievalTab.rejected_by_guards (SmartRetrievalTab.form_of (refs w)) = false ->
      answers w = Rejected e :: rest ->
      trace (snd (SmartRetrievalTab.handleExecute
                    initial_steps step_count finished_steps failed_steps success_text w))
      = trace w ++
        [Call smartRetrieval
              [JObj (SmartRetrievalTab.params (SmartRetrievalTab.form_of (refs w)))];
         ConsoleError;
         Toast Error (SmartRetrievalTab.EXEC_FAILED
                      ++ or_else (detail e) (or_else (message e) UNKNOWN_ERROR))]) /\
  (forall (w : GraphitiTab.world) (e : js_error) (rest : list answer),
      truthy (refs w GraphitiTab.selectedDocumentId) = true ->
      answers w = Rejected e :: rest ->
      trace (snd (GraphitiTab.handleLoadEpisodeBody w))
      = trace w ++
        [Call previewEpisodeBody [refs w GraphitiTab.selectedDocumentId];
         Toast Error GraphitiTab.LOAD_EPISODE_BODY_FAILED]) /\
  (forall (order : GraphitiTab.arrival) (val : json) (w : GraphitiTab.world)
          (e : js_error) (p : answer) (rest : list answer),
      truthy val = true ->
      truthy (refs w GraphitiTab.selectedDocumentId) = true ->
      answers w = in_order order p (Rejected e) ++ rest ->
      trace (snd (GraphitiTab.handleDocumentChange order val w))
      = trace w ++
        [Call previewEpisodeBody [refs w GraphitiTab.selectedDocumentId];
         Call getGraphitiResult [val]] ++
        episode_body_notice p) /\
  (forall (order : GraphitiTab.arrival) (val : json) (w : GraphitiTab.world)
          (e : js_error) (rest : list answer),
      truthy val = true ->
      truthy (refs w GraphitiTab.selectedDocumentId) = false ->
      answers w = Rejected e :: rest ->
      trace (snd (GraphitiTab.handleDocumentChange order val w))
      = trace w ++ [Call getGraphitiResult [val]]).
Proof.
  split; [|split; [|split]].
  - intros w e rest Hguard Hans.
    unfold SmartRetrievalTab.handleExecute.
    unfold bind at 1. unfold snapshot at 1. cbv zeta.
    unfold SmartRetrievalTab.rejected_by_guards in Hguard.
    destruct (trim (SmartRetrievalTab.queryText (SmartRetrievalTab.form_of (refs w))));
      [discriminate|].
    rewrite Hguard.
    unfold finally, try_catch, bind, await, read, toast, emit,
      SmartRetrievalTab.stop_intervals, SmartRetrievalTab.write, Eff.write.
    cbn [fst snd answers trace opened refs]. rewrite Hans.
    cbn [fst snd answers trace opened refs].
    repeat rewrite <- app_assoc. reflexivity.
  - intros w e rest Hid Hans.
    unfold GraphitiTab.handleLoadEpisodeBody.
    unfold bind at 1. unfold read at 1. rewrite Hid. cbn [negb].
    unfold finally, try_catch, bind, await, toast, emit, GraphitiTab.write, Eff.write.
    cbn [fst snd answers trace opened refs]. rewrite Hans.
    cbn [fst snd answers trace opened refs].
    repeat rewrite <- app_assoc. reflexivity.
  - intros order val w e p rest Hval Hid Hans.
    destruct w as [ans tr op st]. cbn [answers trace refs] in *.
    unfold GraphitiTab.handleDocumentChange. rewrite Hval.
    unfold bind at 1. unfold read at 1. cbn [refs fst snd]. rewrite !Hid.
    destruct order; cbn [in_order app] in Hans; subst ans;
      destruct p as [[| | | | |]|err];
      cbv -[app GraphitiTab.LOAD_EPISODE_BODY_FAILED];
      repeat rewrite <- app_assoc; reflexivity.
  - intros order val w e rest Hval Hid Hans.
    destruct w as [ans tr op st]. cbn [answers trace refs] in *. subst ans.
    unfold GraphitiTab.handleDocumentChange. rewrite Hval.
    unfold bind at 1. unfold read at 1. cbn [refs fst snd]. rewrite !Hid.
    destruct order; cbv -[app]; reflexivity.
Qed.

End ReportFacts.

Section ReportRuns.

Local Notation B := ReferenceBrowser.browser.

Lemma rejected_calls_reported_witness :
  trace (snd (GraphitiTab.handleLoadEpisodeBody
                (Eff.mkWorld [Rejected (mkError (lit "Network Error") [])] [] []
                             Samples.graphiti_refs)))
  = [Call previewEpisodeBody [JNum 7];
     Toast Error GraphitiTab.LOAD_EPISODE_BODY_FAILED].
Proof.
  exact (proj1 (proj2 (@rejected_calls_reported B (fun _ => JNull) (fun x => x)
                                                (fun x => x) (fun x _ => x)
                                                (fun _ _ => [])))
               (Eff.mkWorld [Rejected (mkError (lit "Network Error") [])] [] []
                            Samples.graphiti_refs)
               (mkError (lit "Network Error") []) [] eq_refl eq_refl).
Defined.

(** C5 as stated fails for [getGraphitiResult] in [handleDocumentChange]:
    the episode body loads, the result lookup is rejected, and neither a
    toast nor a console line follows. *)
Lemma silent_rejection_on_document_change :
  let tr := trace (snd (GraphitiTab.handleDocumentChange
                          (browser := B) GraphitiTab.EpisodeBodyFirst (JNum 7)
                          Samples.graphiti_rejecting_world)) in
  tr = [Call previewEpisodeBody [JNum 7]; Call getGraphitiResult [JNum 7]] /\
  ~ In ConsoleError tr /\
  (forall text, ~ In (Toast Error text) tr).
Proof.
  assert (H : trace (snd (GraphitiTab.handleDocumentChange
                            (browser := B) GraphitiTab.EpisodeBodyFirst (JNum 7)
                            Samples.graphiti_rejecting_world))
              = [Call previewEpisodeBody [JNum 7]; Call getGraphitiResult [JNum 7]])
    by (vm_compute; reflexivity).
  cbv zeta. rewrite H. split; [reflexivity|]. split.
  - intros [K|[K|[]]]; discriminate K.
  - intros text [K|[K|[]]]; discriminate K.
Qed.

End ReportRuns.

(* ================================================================== *)
(** * Further properties *)

(** ** More on the reader of [step7LLMGenerateStream] *)

Section MoreReaderFacts.

Import SSE Settling.

Context {browser : Browser}.

Lemma readStream_settles (fin : ending) (chunks : list (list Byte.byte)) :
  fin <> Pending ->
  forall st buffer,
  exists pre ev,
    readStream fin st buffer chunks = pre ++ [ev] /\
    quiet pre = true /\ terminal ev = true.
Proof.
  intro Hfin. induction chunks as [|value rest IH]; intros st buffer.
  - cbn [readStream]. destruct fin as [|e|]; [| |contradiction].
    + exists [EvRead], EvDone. repeat split.
    + exists [EvRead], (EvError e). repeat split.
  - cbn [readStream]. destruct (decode st value) as [st1 t1].
    pose proof (process_lines_shape (removelast (split (buffer ++ t1)))) as H.
    destruct (process_lines (removelast (split (buffer ++ t1)))) as [evs [|]].
    + destruct H as [pre [ev [-> [Hpre Hev]]]].
      exists (EvRead :: pre), ev. rewrite app_nil_r. repeat split; assumption.
    + destruct (IH st1 (last (split (buffer ++ t1)) [])) as [pre [ev [E [Hpre Hev]]]].
      exists (EvRead :: evs ++ pre), ev. rewrite E. split.
      * cbn [app]. rewrite <- app_assoc. reflexivity.
      * split; [|exact Hev]. change (quiet (evs ++ pre) = true).
        rewrite quiet_app, H, Hpre. reflexivity.
Qed.

(** X1: a session whose request fails or whose stream closes or fails
    ends with exactly one [onDone] or [onError], and that call is the last
    thing the reader does. *)
Theorem settled_stream_is_reported (r : response) :
  settles r = true ->
  exists pre ev,
    step7LLMGenerateStream r = pre ++ [ev] /\
    quiet pre = true /\ terminal ev = true.
Proof.
  destruct r as [e|e|b]; cbn [settles step7LLMGenerateStream]; intro H.
  - exists [], (EvError e). repeat split.
  - exists [], (EvError e). repeat split.
  - apply readStream_settles. destruct (finish b); congruence.
Qed.

Lemma callbacks_end_events (fin : ending) :
  callbacks (end_events fin) = end_events fin.
Proof. destruct fin; reflexivity. Qed.

(** X2: what the stream holds after its last blank line is never
    parsed: two streams whose texts agree up to their last blank line give
    the same calls, so that an event that is not followed by a blank line
    is lost. *)
Theorem text_after_last_blank_line_is_dropped
        (fin : ending) (reads1 reads2 : list (list Byte.byte)) :
  removelast (split (snd (decode dec_init (concat reads1)))) =
  removelast (split (snd (decode dec_init (concat reads2)))) ->
  callbacks (step7LLMGenerateStream (Ok (mkBody reads1 fin))) =
  callbacks (step7LLMGenerateStream (Ok (mkBody reads2 fin))).
Proof.
  intro H. cbn [step7LLMGenerateStream reads finish].
  rewrite !readStream_whole by reflexivity.
  rewrite !whole_unfold. cbn [app]. rewrite H. reflexivity.
Qed.

Lemma process_lines_skip (a b : list jsstring) (l : jsstring) (evs : list event) :
  process_line l = (evs, false) ->
  callbacks evs = [] ->
  callbacks (fst (process_lines (a ++ l :: b))) = callbacks (fst (process_lines (a ++ b))) /\
  snd (process_lines (a ++ l :: b)) = snd (process_lines (a ++ b)).
Proof.
  intros Hl Hevs. rewrite !process_lines_app.
  destruct (process_lines a) as [e1 [|]]; [split; reflexivity|].
  cbn [process_lines]. rewrite Hl.
  destruct (process_lines b) as [e2 s2]. cbn [fst snd].
  rewrite !callbacks_app, Hevs. split; reflexivity.
Qed.

(** X3: a line that does not start with [data: ] (a comment, another
    field, [data:] without the space) and a [data: ] line whose payload is
    not JSON are passed over: with or without such a line among the lines
    of a read, the same calls are made and the loop stops at the same
    place. *)
Theorem ignored_lines_change_nothing (a b : list jsstring) (l : jsstring) :
  startsWith DATA_PREFIX l = false \/ JSON_parse (slice_from 6 l) = None ->
  callbacks (fst (process_lines (a ++ l :: b))) = callbacks (fst (process_lines (a ++ b))) /\
  snd (process_lines (a ++ l :: b)) = snd (process_lines (a ++ b)).
Proof.
  intros [H|H].
  - apply process_lines_skip with (evs := []); [|reflexivity].
    unfold process_line. rewrite H. reflexivity.
  - destruct (startsWith DATA_PREFIX l) eqn:P.
    + apply process_lines_skip with (evs := [EvConsoleError]); [|reflexivity].
      unfold process_line. rewrite P, H. reflexivity.
    + apply process_lines_skip with (evs := []); [|reflexivity].
      unfold process_line. rewrite P. reflexivity.
Qed.

End MoreReaderFacts.

Section MoreReaderRuns.

Import SSE Settling.

Local Notation B := ReferenceBrowser.browser.

Lemma settled_stream_is_reported_witness :
  exists pre ev,
    step7LLMGenerateStream (browser := B) (Ok Samples.answer_in_two_reads) = pre ++ [ev] /\
    quiet pre = true /\ terminal ev = true.
Proof.
  apply (settled_stream_is_reported (browser := B) (Ok Samples.answer_in_two_reads)).
  reflexivity.
Defined.

Example reader_on_cut_short :
  step7LLMGenerateStream (browser := B) (Ok (mkBody [MoreSamples.cut_short] Closed)) =
  [EvRead; EvChunk (Content (JStr (lit "a"))); EvRead; EvDone].
Proof. vm_compute. reflexivity. Qed.

Lemma text_after_last_blank_line_is_dropped_witness :
  callbacks (step7LLMGenerateStream (browser := B)
               (Ok (mkBody [MoreSamples.cut_short] Closed))) =
  callbacks (step7LLMGenerateStream (browser := B)
               (Ok (mkBody [MoreSamples.one_event] Closed))).
Proof.
  apply (text_after_last_blank_line_is_dropped (browser := B) Closed
           [MoreSamples.cut_short] [MoreSamples.one_event]).
  vm_compute. reflexivity.
Defined.

Lemma ignored_lines_change_nothing_witness :
  callbacks (fst (process_lines (browser := B)
                    ([lit (MoreSamples.content_line "a")]
                       ++ MoreSamples.comment_line
                       :: [lit (MoreSamples.content_line "b")]))) =
  callbacks (fst (process_lines (browser := B)
                    ([lit (MoreSamples.content_line "a")]
                       ++ [lit (MoreSamples.content_line "b")]))).
Proof.
  apply (ignored_lines_change_nothing (browser := B)
           [lit (MoreSamples.content_line "a")]
           [lit (MoreSamples.content_line "b")]
           MoreSamples.comment_line).
  left. reflexivity.
Defined.

End MoreReaderRuns.

(** ** More on the typewriter of the LLM-generate tab *)

Section MoreSessionFacts.

Import SSE LLMGenerateTab LLMResults.

Context {browser : Browser} {stats_ops : StatsOps}.

Lemma merge_statistics_isStreaming (data : option json) (s : session) :
  isStreaming (merge_statistics data s) = isStreaming s.
Proof.
  unfold merge_statistics.
  destruct data as [[]|]; destruct (executionResult s); reflexivity.
Qed.

Lemma onChunk_isStreaming (c : chunk) (s : session) :
  isStreaming (onChunk c s) = isStreaming s.
Proof.
  destruct c as [data|v]; cbn [onChunk].
  - apply merge_statistics_isStreaming.
  - destruct v as [| | | |items|fields]; try reflexivity.
    destruct (lookup (lit "type") fields) as [[| | |t| |]|]; try reflexivity.
    destruct (str_eqb t (lit "statistics")); [|reflexivity].
    apply merge_statistics_isStreaming.
Qed.

Lemma typewriterEffect_streaming (s : session) :
  streaming s -> streaming (typewriterEffect s).
Proof.
  intros [Ht Hs]. unfold typewriterEffect, streaming. rewrite Hs.
  destruct (displayedLength s <? length (pendingText s)); cbn; split; reflexivity.
Qed.

Lemma run_streaming (os : list occurrence) :
  forall s,
    quiet (reader_events os) = true ->
    streaming s -> streaming (run s os).
Proof.
  induction os as [|o os IH]; intros s Hq Hs; [exact Hs|].
  cbn [run fold_left]. apply IH.
  - destruct o as [|ev]; [exact Hq|].
    cbn [reader_events flat_map app] in Hq.
    change (quiet (ev :: reader_events os) = true) in Hq.
    unfold quiet in Hq. cbn [forallb] in Hq.
    apply andb_prop in Hq. apply Hq.
  - destruct o as [|ev]; cbn [step].
    + destruct Hs as [Ht Hs']. rewrite Ht.
      apply typewriterEffect_streaming. split; assumption.
    + destruct ev as [|c| | |]; try exact Hs.
      * destruct Hs as [Ht Hs']. split.
        -- destruct (onChunk_display c s) as [_ [_ [E _]]]. rewrite E. exact Ht.
        -- rewrite onChunk_isStreaming. exact Hs'.
      * discriminate Hq.
      * discriminate Hq.
Qed.

Lemma ticks_advance (n : nat) :
  forall s,
    streaming s ->
    displayedLength s <= length (pendingText s) ->
    pendingText (run s (repeat Tick n)) = pendingText s /\
    displayedLength (run s (repeat Tick n)) =
    Nat.min (length (pendingText s)) (displayedLength s + 3 * n).
Proof.
  induction n as [|n IH]; intros s Hs Hle.
  - cbn [repeat run fold_left]. split; [reflexivity | lia].
  - cbn [repeat run fold_left step]. destruct Hs as [Ht Hs]. rewrite Ht.
    assert (Hs1 : streaming (typewriterEffect s))
      by (apply typewriterEffect_streaming; split; assumption).
    assert (Hp : pendingText (typewriterEffect s) = pendingText s).
    { unfold typewriterEffect.
      destruct (displayedLength s <? length (pendingText s)); [reflexivity|].
      destruct (isStreaming s); reflexivity. }
    assert (Hd : displayedLength (typewriterEffect s) =
                 Nat.min (length (pendingText s)) (displayedLength s + 3)).
    { unfold typewriterEffect.
      destruct (displayedLength s <? length (pendingText s)) eqn:E.
      - apply Nat.ltb_lt in E. cbn [displayedLength]. lia.
      - apply Nat.ltb_ge in E. destruct (isStreaming s); cbn [displayedLength]; lia. }
    destruct (IH (typewriterEffect s) Hs1) as [IHp IHd].
    { rewrite Hp, Hd. lia. }
    fold (run (typewriterEffect s) (repeat Tick n)).
    rewrite IHp, IHd, Hp, Hd. split; [reflexivity | lia].
Qed.

(** While the stream is open, [n] further timeouts display the first
    [displayedLength + 3 n] characters of the text received so far. *)
Lemma session_catches_up (s : session) (n : nat) :
  consistent s -> streaming s ->
  streamingContent (run s (repeat Tick n)) =
  firstn (displayedLength s + 3 * n) (pendingText s).
Proof.
  intros Hc Hs.
  edestruct ticks_advance as [Hp Hd]; [exact Hs | exact (proj1 Hc) |].
  assert (Hc' : consistent (run s (repeat Tick n))) by (apply run_consistent; exact Hc).
  destruct Hc' as [_ Hsc]. rewrite Hsc, Hp, Hd.
  destruct (Nat.le_ge_cases (length (pendingText s)) (displayedLength s + 3 * n)).
  - rewrite Nat.min_l by assumption. rewrite !firstn_all2 by lia. reflexivity.
  - rewrite Nat.min_r by assumption. reflexivity.
Qed.

End MoreSessionFacts.

Section MoreLoopFacts.

Import SSE LLMGenerateLoop.

Context {browser : Browser} {stats_ops : LLMGenerateTab.StatsOps}.

(** X4: while a stream runs undisturbed and neither [onDone] nor
    [onError] has come, [n] further timeouts of its typewriter display the
    first [displayedLength + 3 n] characters of the text received so far,
    hence all of it once [3 n] covers what was left. *)
Theorem typewriter_catches_up
        (t0 : tab) (found : nat) (initial : LLMGenerateTab.stats)
        (os : list LLMGenerateTab.occurrence) (n : nat) :
  waiting t0 = Some Retrieval ->
  quiet (LLMGenerateTab.reader_events os) = true ->
  let t := undisturbed t0 found initial os in
  let t' := run t (repeat (Of (length (closures t0)) LLMGenerateTab.Tick) n) in
  exists c,
    own_closure t0 t = Some c /\
    streamingContent t' = firstn (displayedLength c + 3 * n) (pendingText c) /\
    (length (pendingText c) <= displayedLength c + 3 * n ->
     streamingContent t' = pendingText c).
Proof.
  intros Hw Hq t t'.
  destruct (@undisturbed_session _ _ t0 found initial os Hw) as [E [Hown Hex]].
  fold t in E, Hown, Hex.
  set (s0 := LLMGenerateTab.mkSession [] 0 true [] true
               (Some (LLMGenerateTab.mkResult [] initial))
               (log t0 ++ [found_notice found])) in *.
  set (s := LLMGenerateTab.run s0 os) in *.
  exists (closure_of s). split; [exact Hown|].
  assert (Hc : consistent s).
  { apply run_consistent. split; [apply Nat.le_refl | reflexivity]. }
  assert (Hs : LLMResults.streaming s).
  { apply run_streaming; [exact Hq|]. split; reflexivity. }
  assert (Et : streamingContent t' =
               LLMGenerateTab.streamingContent
                 (LLMGenerateTab.run s (repeat LLMGenerateTab.Tick n))).
  { assert (Hso : session_of t (closure_of s) = s)
      by (rewrite E; apply session_of_closure_of).
    subst t'. rewrite <- map_repeat.
    unfold own_closure in Hown.
    rewrite (@run_own _ _ _ (repeat LLMGenerateTab.Tick n) t (closure_of s) Hown).
    rewrite Hso. reflexivity. }
  assert (F : streamingContent t' =
              firstn (LLMGenerateTab.displayedLength s + 3 * n)
                     (LLMGenerateTab.pendingText s)).
  { rewrite Et. apply session_catches_up; assumption. }
  cbn [closure_of displayedLength pendingText].
  split; [exact F|]. intro Hall. rewrite F. apply firstn_all2. exact Hall.
Qed.

(** X27: while a stream runs undisturbed, the displayed text is a prefix
    of the text accumulated in its closure, a timeout of its typewriter
    adds at most three characters to it, and its [onDone] displays the
    whole accumulated text. *)
Theorem undisturbed_display_is_prefix
        (t0 : tab) (found : nat) (initial : LLMGenerateTab.stats)
        (os : list LLMGenerateTab.occurrence) :
  waiting t0 = Some Retrieval ->
  let i := length (closures t0) in
  let t := undisturbed t0 found initial os in
  exists c,
    own_closure t0 t = Some c /\
    (exists rest, pendingText c = streamingContent t ++ rest) /\
    (exists ext, streamingContent (step t (Of i LLMGenerateTab.Tick))
                 = streamingContent t ++ ext /\ length ext <= 3) /\
    streamingContent (step t (Of i (LLMGenerateTab.Reader EvDone))) = pendingText c.
Proof.
  intros Hw i t.
  destruct (@undisturbed_session _ _ t0 found initial os Hw) as [E [Hown Hex]].
  fold t in E, Hown, Hex.
  set (s0 := LLMGenerateTab.mkSession [] 0 true [] true
               (Some (LLMGenerateTab.mkResult [] initial))
               (log t0 ++ [found_notice found])) in *.
  set (s := LLMGenerateTab.run s0 os) in *.
  exists (closure_of s). split; [exact Hown|].
  assert (Hc : consistent s).
  { apply run_consistent. split; [apply Nat.le_refl | reflexivity]. }
  assert (St : forall o, step t (Of i o) = tab_of t i (LLMGenerateTab.step s o)).
  { assert (Hso : session_of t (closure_of s) = s)
      by (rewrite E; apply session_of_closure_of).
    intro o. cbn [step]. unfold own_closure in Hown. fold i in Hown. rewrite Hown.
    rewrite Hso. reflexivity. }
  assert (Sc : streamingContent t = LLMGenerateTab.streamingContent s)
    by (rewrite E; reflexivity).
  cbn [closure_of pendingText]. rewrite !St, Sc. cbn [tab_of streamingContent].
  split; [apply consistent_prefix, Hc|].
  split; [apply tick_extends, Hc | reflexivity].
Qed.

End MoreLoopFacts.

(** ** More on [convertV4ResultsToLLMFormat] *)

Section MoreConversionFacts.

Import LLMGenerateTab LLMResults.

Lemma insert_perm (A : Type) (compare : A -> A -> Q) (x : A) (l : list A) :
  Permutation (x :: l) (insert compare x l).
Proof.
  induction l as [|y l IH]; cbn [insert]; [apply Permutation_refl|].
  destruct (Qle_bool (compare x y) 0); [apply Permutation_refl|].
  eapply perm_trans; [apply perm_swap|]. apply perm_skip, IH.
Qed.

Lemma sort_perm (A : Type) (compare : A -> A -> Q) (l : list A) :
  Permutation l (sort compare l).
Proof.
  induction l as [|x l IH]; cbn [sort]; [apply perm_nil|].
  eapply perm_trans; [apply perm_skip, IH | apply insert_perm].
Qed.

Lemma sorted_app_dominates (a b : list llm_result) :
  StronglySorted desc (a ++ b) ->
  forall x y, In x a -> In y b -> desc x y.
Proof.
  induction a as [|z a IH]; intros Hs x y Hx Hy; [contradiction|].
  cbn [app] in Hs. apply StronglySorted_inv in Hs as [Hs Hz].
  destruct Hx as [<-|Hx].
  - rewrite Forall_forall in Hz. apply Hz, in_or_app. right. exact Hy.
  - apply (IH Hs x y Hx Hy).
Qed.

(** X5: the result is the best-scored part of what the three sources
    hold: together with the items left out it is a rearrangement of all
    the converted items, and no item left out has a higher score than an
    item kept. *)
Theorem convert_keeps_the_best (r : retrieval) (maxResults : option Z) :
  exists dropped,
    Permutation (candidates r) (convertV4ResultsToLLMFormat r maxResults ++ dropped) /\
    forall kept left_out,
      In kept (convertV4ResultsToLLMFormat r maxResults) ->
      In left_out dropped ->
      (result_score left_out <= result_score kept)%Q.
Proof.
  unfold convertV4ResultsToLLMFormat. fold (candidates r).
  set (m := match maxResults with Some m => m | None => 20%Z end).
  unfold slice0.
  set (k := Z.to_nat (if (m <? 0)%Z
                      then Z.max (Z.of_nat (length (sort by_score_desc (candidates r))) + m) 0
                      else Z.min m (Z.of_nat (length (sort by_score_desc (candidates r)))))).
  exists (skipn k (sort by_score_desc (candidates r))). split.
  - rewrite firstn_skipn. apply sort_perm.
  - intros kept left_out Hk Hl.
    apply (@sorted_app_dominates (firstn k (sort by_score_desc (candidates r)))
                                 (skipn k (sort by_score_desc (candidates r))));
      [|exact Hk|exact Hl].
    rewrite firstn_skipn. apply sort_desc.
Qed.

Lemma push_all_length (kind : source_kind) (items : option (list scored)) :
  length (push_all kind items) = available items.
Proof. destruct items; cbn; [apply length_map | reflexivity]. Qed.

(** X6: the number of items returned, for every bound: with
    [n] items in the three sources, [min maxResults n] for a bound that is
    not negative, and [max (n + maxResults) 0] for a negative one; 20 stands
    for an omitted bound. *)
Theorem convert_length (r : retrieval) (maxResults : option Z) :
  let n := Z.of_nat (available (chunk_results r) + available (graphiti_entities r)
                     + available (cognee_entities r)) in
  let m := match maxResults with Some m => m | None => 20%Z end in
  Z.of_nat (length (convertV4ResultsToLLMFormat r maxResults)) =
  if (m <? 0)%Z then Z.max (n + m) 0 else Z.min m n.
Proof.
  intros n m. unfold convertV4ResultsToLLMFormat. fold m. unfold slice0.
  rewrite sort_length, !length_app, !push_all_length.
  replace (Z.of_nat (available (chunk_results r)
                     + (available (graphiti_entities r) + available (cognee_entities r))))
    with n by (subst n; f_equal; lia).
  rewrite length_firstn, sort_length, !length_app, !push_all_length.
  replace (available (chunk_results r)
           + (available (graphiti_entities r) + available (cognee_entities r)))
    with (Z.to_nat n) by (subst n; lia).
  destruct (m <? 0)%Z eqn:E.
  - apply Z.ltb_lt in E. lia.
  - apply Z.ltb_ge in E. lia.
Qed.

Lemma channel_split (l : list llm_result) :
  length l =
  length (filter (fun r => str_eqb (source_channel r) (lit "DocumentChunk")) l) +
  length (filter (fun r => str_eqb (source_channel r) (lit "Entity")) l) /\
  length (filter (fun r => str_eqb (source_channel r) (lit "Entity")) l) =
  length (filter is_graphiti l) + length (filter is_cognee l).
Proof.
  set (fc := fun r => str_eqb (source_channel r) (lit "DocumentChunk")).
  set (fe := fun r => str_eqb (source_channel r) (lit "Entity")).
  induction l as [|x l [IH1 IH2]]; [split; reflexivity|].
  cbn [filter].
  assert (H : (fc x, fe x, is_graphiti x, is_cognee x) =
              match source x with
              | DocumentChunk => (true, false, false, false)
              | Graphiti => (false, true, true, false)
              | Cognee => (false, true, false, true)
              end).
  { unfold fc, fe, source_channel, is_graphiti, is_cognee.
    destruct (source x); reflexivity. }
  destruct (source x); injection H as -> -> -> ->; cbn [length]; lia.
Qed.

(** X7: the counts shown with the answer add up: every result passed to
    the model is either a document chunk or an entity, and every entity
    comes from Graphiti or from Cognee. *)
Theorem retrieval_statistics_add_up (r : retrieval) (maxResults : option Z) :
  let st := retrieval_statistics_of (convertV4ResultsToLLMFormat r maxResults) in
  total_results st = chunk_count st + entity_count st /\
  entity_count st = graphiti_count st + cognee_count st /\
  total_results st = length (convertV4ResultsToLLMFormat r maxResults).
Proof.
  intro st. subst st. unfold retrieval_statistics_of.
  cbn [total_results chunk_count entity_count graphiti_count cognee_count].
  destruct (channel_split (convertV4ResultsToLLMFormat r maxResults)) as [H1 H2].
  repeat split; assumption.
Qed.

End MoreConversionFacts.

(** ** More on the Graphiti tab *)

Section MoreGraphitiFacts.

Import GraphitiTab.

Context {browser : SSE.Browser}.

Lemma finally_settled (ref A : Type) (m : Eff.M ref A) (cleanup : Eff.M ref unit)
      (w : Eff.world ref) :
  fst (finally m cleanup w) <> Awaiting ->
  snd (finally m cleanup w) = snd (cleanup (snd (m w))).
Proof.
  unfold finally. destruct (m w) as [[a|e|] w']; cbn [fst snd]; congruence.
Qed.

Lemma executeGraphitiWithMode_settled (parse_mode cfg : json) (w : world) :
  fst (executeGraphitiWithMode parse_mode cfg w) <> Awaiting ->
  refs (snd (executeGraphitiWithMode parse_mode cfg w)) executing = FALSE.
Proof.
  intro H. unfold executeGraphitiWithMode in *.
  rewrite (finally_settled _ _ _ H). reflexivity.
Qed.

(** X8: a template that is not JSON never reaches the backend:
    [handleExecuteGraphiti] raises the error toast, calls nothing, opens no
    dialog and releases the button, while the status line keeps its text. *)
Theorem invalid_template_is_not_sent (w : world) :
  truthy (refs w selectedDocumentId) = true ->
  truthy (refs w templateConfigJson) = true ->
  SSE.JSON_parse (SSE.ToString (refs w templateConfigJson)) = None ->
  let w' := snd (handleExecuteGraphiti w) in
  trace w' = trace w ++ [Toast Error TEMPLATE_JSON_ERROR] /\
  answers w' = answers w /\
  opened w' = opened w /\
  refs w' executing = FALSE /\
  refs w' executionStatus = JStr PROCESSING.
Proof.
  intros Hid Htext Hparse w'.
  assert (E : exists st,
             w' = mkWorld (answers w) (trace w ++ [Toast Error TEMPLATE_JSON_ERROR])
                          (opened w) st /\
             st executing = FALSE /\ st executionStatus = JStr PROCESSING).
  { subst w'. unfold handleExecuteGraphiti.
    unfold bind at 1. unfold read at 1. rewrite Hid. cbn [negb].
    unfold try_catch, bind, read, toast, emit, GraphitiTab.write, Eff.write.
    cbn [fst snd answers trace opened refs name_beq].
    rewrite Htext, Hparse.
    cbn [fst snd answers trace opened refs name_beq].
    eexists. split; [reflexivity|]. split; reflexivity. }
  destruct E as [st [-> [H1 H2]]]. cbn [answers trace opened refs].
  repeat split; assumption.
Qed.

Lemma handleLoadEpisodeBody_unfold (w : world) :
  handleLoadEpisodeBody w =
  if truthy (refs w selectedDocumentId) then
    finally
      (try_catch
         (res <- await previewEpisodeBody [refs w selectedDocumentId] ;;
          body <- field "episode_body" res ;;
          write episodeBody (undefined_as_null body) ;;
          write originalEpisodeBody (undefined_as_null body))%eff
         (fun _ => toast Error LOAD_EPISODE_BODY_FAILED))
      (write loadingEpisodeBody FALSE)
      (snd (write loadingEpisodeBody TRUE w))
  else (Returned tt, w).
Proof.
  unfold handleLoadEpisodeBody. unfold bind at 1. unfold read at 1.
  destruct (truthy (refs w selectedDocumentId)); reflexivity.
Qed.

Lemma fetchGraphData_unfold (groupId : json) (w : world) :
  exists m,
    fetchGraphData groupId w =
    finally m (write loadingGraph FALSE) (snd (write loadingGraph TRUE w)).
Proof. eexists. unfold fetchGraphData. unfold bind at 1. reflexivity. Qed.

(** X9: no handler of the Graphiti tab that comes to an end, whatever
    the backend answered, leaves its busy flag set: [loadingEpisodeBody],
    [loadingGraph], [deletingGraph] and [executing] are off again. *)
Theorem graphiti_busy_flags_are_released :
  (forall w, fst (handleLoadEpisodeBody w) <> Awaiting ->
             refs w loadingEpisodeBody = FALSE ->
             refs (snd (handleLoadEpisodeBody w)) loadingEpisodeBody = FALSE) /\
  (forall groupId w, fst (fetchGraphData groupId w) <> Awaiting ->
                     refs (snd (fetchGraphData groupId w)) loadingGraph = FALSE) /\
  (forall w, fst (onOk DeleteGraphiti w) <> Awaiting ->
             refs (snd (onOk DeleteGraphiti w)) deletingGraph = FALSE) /\
  (forall w, fst (handleExecuteGraphiti w) <> Awaiting ->
             refs w executing = FALSE ->
             refs (snd (handleExecuteGraphiti w)) executing = FALSE) /\
  (forall parse_mode cfg w,
      fst (onOk (RebuildGraphiti parse_mode cfg) w) <> Awaiting ->
      refs (snd (onOk (RebuildGraphiti parse_mode cfg) w)) executing = FALSE).
Proof.
  split; [|split; [|split; [|split]]].
  - intros w H H0. rewrite handleLoadEpisodeBody_unfold in *.
    destruct (truthy (refs w selectedDocumentId)); [|exact H0].
    rewrite (finally_settled _ _ _ H). reflexivity.
  - intros groupId w H. destruct (fetchGraphData_unfold groupId w) as [m E].
    rewrite E in *. rewrite (finally_settled _ _ _ H). reflexivity.
  - intros w H. cbn [onOk] in *. unfold bind at 1 in H. unfold bind at 1.
    cbn [GraphitiTab.write Eff.write fst snd] in *.
    rewrite (finally_settled _ _ _ H). reflexivity.
  - intros w H H0. unfold handleExecuteGraphiti in *.
    unfold bind at 1 in H. unfold bind at 1. unfold read at 1 in H. unfold read at 1.
    destruct (truthy (refs w selectedDocumentId)); cbn [negb] in *; [|exact H0].
    unfold bind at 1 in H. unfold bind at 1.
    cbn [GraphitiTab.write Eff.write fst snd] in *.
    unfold bind at 1 in H. unfold bind at 1.
    cbn [GraphitiTab.write Eff.write fst snd] in *.
    unfold try_catch at 1 in H. unfold try_catch at 1.
    unfold bind at 1 in H. unfold bind at 1. unfold read at 1 in H. unfold read at 1.
    unfold bind at 1 in H. unfold bind at 1. unfold read at 1 in H. unfold read at 1.
    cbn [refs] in *.
    match goal with
    | |- context [if truthy ?t then _ else _] => destruct (truthy t)
    end.
    + match goal with
      | |- context [SSE.JSON_parse ?t] => destruct (SSE.JSON_parse t) as [cfg|]
      end.
      * match goal with
        | |- context [executeGraphitiWithMode ?pm ?c ?w0] =>
            pose proof (@executeGraphitiWithMode_settled pm c w0) as S;
            destruct (executeGraphitiWithMode pm c w0) as [[a|e|] w1]
        end; cbn [fst snd] in *.
        -- apply S. discriminate.
        -- reflexivity.
        -- contradiction.
      * reflexivity.
    + match goal with
      | |- context [executeGraphitiWithMode ?pm ?c ?w0] =>
          pose proof (@executeGraphitiWithMode_settled pm c w0) as S;
          destruct (executeGraphitiWithMode pm c w0) as [[a|e|] w1]
      end; cbn [fst snd] in *.
      * apply S. discriminate.
      * reflexivity.
      * contradiction.
  - intros parse_mode cfg w H. cbn [onOk] in *.
    unfold try_catch at 1 in H. unfold try_catch at 1.
    unfold bind at 1 in H. unfold bind at 1.
    cbn [GraphitiTab.write Eff.write fst snd] in *.
    unfold bind at 1 in H. unfold bind at 1.
    cbn [GraphitiTab.write Eff.write fst snd] in *.
    unfold bind at 1 in H. unfold bind at 1. unfold read at 1 in H. unfold read at 1.
    unfold bind at 1 in H. unfold bind at 1. unfold await at 1 in H. unfold await at 1.
    cbn [answers trace opened refs] in *.
    destruct (answers w) as [|[v|e] rest]; cbn [fst snd] in *.
    + contradiction.
    + unfold bind at 1 in H. unfold bind at 1.
      cbn [toast emit fst snd] in *.
      match goal with
      | |- context [executeGraphitiWithMode ?pm ?c ?w0] =>
          pose proof (@executeGraphitiWithMode_settled pm c w0) as S;
          destruct (executeGraphitiWithMode pm c w0) as [[a|e|] w1]
      end; cbn [fst snd] in *.
      * apply S. discriminate.
      * reflexivity.
      * contradiction.
    + reflexivity.
Qed.

(** X10: a backend call that is rejected changes nothing of what the
    tab shows: apart from the busy flag of the handler (and the status
    line of a build), every ref keeps its value when [previewEpisodeBody],
    [getGraphitiGraph], [deleteGraphitiGraph] of the delete dialog or
    [step1GraphitiEpisode] fails. *)
Theorem rejected_calls_change_nothing (w : world) (e : js_error) (rest : list answer) :
  answers w = Rejected e :: rest ->
  (truthy (refs w selectedDocumentId) = true ->
   forall r, name_beq loadingEpisodeBody r = false ->
             refs (snd (handleLoadEpisodeBody w)) r = refs w r) /\
  (forall groupId r, name_beq loadingGraph r = false ->
                     refs (snd (fetchGraphData groupId w)) r = refs w r) /\
  (forall r, name_beq deletingGraph r = false ->
             refs (snd (onOk DeleteGraphiti w)) r = refs w r) /\
  (forall parse_mode cfg r,
      name_beq executing r = false -> name_beq executionStatus r = false ->
      refs (snd (executeGraphitiWithMode parse_mode cfg w)) r = refs w r).
Proof.
  intro Hans. split; [|split; [|split]].
  - intros Hid r Hr. rewrite handleLoadEpisodeBody_unfold, Hid.
    unfold finally, try_catch, bind, await, toast, emit, GraphitiTab.write, Eff.write.
    cbn [fst snd answers trace opened refs]. rewrite Hans.
    cbn [fst snd answers trace opened refs]. rewrite Hr. reflexivity.
  - intros groupId r Hr. unfold fetchGraphData.
    unfold finally, try_catch, bind, await, toast, emit, GraphitiTab.write, Eff.write.
    cbn [fst snd answers trace opened refs]. rewrite Hans.
    cbn [fst snd answers trace opened refs]. rewrite Hr. reflexivity.
  - intros r Hr. cbn [onOk].
    unfold finally, try_catch, bind, await, read, toast, emit,
      GraphitiTab.write, Eff.write.
    cbn [fst snd answers trace opened refs]. rewrite Hans.
    cbn [fst snd answers trace opened refs]. rewrite Hr. reflexivity.
  - intros parse_mode cfg r Hr1 Hr2. unfold executeGraphitiWithMode, reset_executing.
    unfold finally, try_catch, bind, await, snapshot, toast, emit,
      GraphitiTab.write, Eff.write.
    cbn [fst snd answers trace opened refs]. rewrite Hans.
    cbn [fst snd answers trace opened refs]. rewrite Hr1, Hr2. reflexivity.
Qed.

(** [await] is a request followed by its answer. *)
Lemma await_in_two_halves (ref : Type) (e : endpoint) (args : list json)
      (w : Eff.world ref) :
  await e args w = (request e args ;; reply)%eff w.
Proof.
  unfold await, bind, request, emit, reply. cbn [answers trace opened refs].
  destruct (answers w) as [|[v|err] rest] eqn:E; reflexivity.
Qed.

(** [handleLoadEpisodeBody] on its own is its first half followed by
    [episode_body_loaded]. *)
Lemma handleLoadEpisodeBody_in_two_halves (w : world) :
  handleLoadEpisodeBody w =
  (id <- read selectedDocumentId ;;
   if negb (truthy id) then ret tt
   else
     write loadingEpisodeBody TRUE ;;
     request previewEpisodeBody [id] ;;
     episode_body_loaded)%eff w.
Proof.
  destruct w as [ans tr op st].
  cbv [handleLoadEpisodeBody episode_body_loaded bind read request emit await reply
       finally try_catch GraphitiTab.write Eff.write field toast ret throw
       refs answers trace opened fst snd].
  destruct (truthy (st selectedDocumentId)); [|reflexivity].
  destruct ans as [|[[| | | | |]|] rest]; reflexivity.
Qed.



End MoreGraphitiFacts.

Section MoreGraphitiRuns.

Import GraphitiTab.

Local Notation B := ReferenceBrowser.browser.

Lemma invalid_template_is_not_sent_witness :
  trace (snd (handleExecuteGraphiti (browser := B) MoreSamples.graphiti_failing_world))
  = [Toast Error TEMPLATE_JSON_ERROR] /\
  answers (snd (handleExecuteGraphiti (browser := B) MoreSamples.graphiti_failing_world))
  = answers MoreSamples.graphiti_failing_world.
Proof.
  destruct (@invalid_template_is_not_sent B MoreSamples.graphiti_failing_world
              eq_refl eq_refl eq_refl) as [Ht [Ha _]].
  split; [exact Ht | exact Ha].
Defined.

Lemma graphiti_busy_flags_are_released_witness :
  refs (snd (fetchGraphData (browser := B) (JStr (lit "g1"))
                            MoreSamples.graphiti_failing_world))
       loadingGraph = FALSE.
Proof.
  apply (proj1 (proj2 (@graphiti_busy_flags_are_released B))).
  vm_compute. discriminate.
Defined.

Lemma rejected_calls_change_nothing_witness :
  refs (snd (onOk (browser := B) DeleteGraphiti MoreSamples.graphiti_failing_world))
       executionResult
  = JObj [(lit "group_id", JStr (lit "g1"))].
Proof.
  exact (proj1 (proj2 (proj2
           (@rejected_calls_change_nothing B MoreSamples.graphiti_failing_world
              (mkError (lit "Network Error") (lit "graph store is down")) []
              eq_refl)))
           executionResult eq_refl).
Defined.


End MoreGraphitiRuns.

(** ** More on the document list of a knowledge base *)

Section MoreKnowledgeBaseFacts.

Import KnowledgeBaseView GroupIds.

Context {browser : SSE.Browser}.

Lemma returns_bind (A C : Type) (m : M A) (f : A -> M C) (P : C -> Prop) :
  (forall a, returns P (f a)) -> returns P (bind m f).
Proof.
  intros Hf w c w' H. unfold bind in H.
  destruct (m w) as [[a|e|] w1]; try discriminate.
  apply (Hf a w1 c w' H).
Qed.

Lemma returns_ret (A : Type) (P : A -> Prop) (a : A) :
  P a -> returns P (ret (ref := name) a).
Proof. intros Ha w a' w' H. injection H as <- _. exact Ha. Qed.

Lemma returns_throw (A : Type) (P : A -> Prop) (e : js_error) :
  returns P (throw (ref := name) (A := A) e).
Proof. intros w a w' H. discriminate H. Qed.

Lemma clean_app (a b : list json) : clean a -> clean b -> clean (a ++ b).
Proof. unfold clean. intros Ha Hb. apply Forall_app. split; assumption. Qed.

Lemma completed_id_clean (doc : json) : returns clean (completed_id doc).
Proof.
  unfold completed_id. apply returns_bind. intros [[| | |id| |]|].
  - apply returns_ret. constructor.
  - destruct (truthy (JBool b)); [apply returns_throw | apply returns_ret; constructor].
  - destruct (truthy (JNum q)); [apply returns_throw | apply returns_ret; constructor].
  - destruct id as [|c id]; [apply returns_ret; constructor|].
    destruct (trim (c :: id)) eqn:T; apply returns_ret; [constructor|].
    constructor; [|constructor]. exists (c :: id). split; [reflexivity|].
    rewrite T. discriminate.
  - apply returns_throw.
  - apply returns_throw.
  - apply returns_ret. constructor.
Qed.

Lemma completed_ids_clean (docs : list json) : returns clean (completed_ids docs).
Proof.
  induction docs as [|doc rest IH]; cbn [completed_ids].
  - apply returns_ret. constructor.
  - intros w a w' H. unfold bind at 1 in H.
    destruct (completed_id doc w) as [[ids|e|] w1] eqn:E1; try discriminate.
    unfold bind at 1 in H.
    destruct (completed_ids rest w1) as [[more|e|] w2] eqn:E2; try discriminate.
    injection H as <- _. apply clean_app.
    + eapply completed_id_clean. exact E1.
    + eapply IH. exact E2.
Qed.

Lemma load_pages_clean (count : nat) :
  forall page, returns clean (load_pages count page).
Proof.
  induction count as [|count IH]; intro page; cbn [load_pages].
  - apply returns_ret. constructor.
  - apply returns_bind. intro kb. apply returns_bind. intro kb_id.
    apply returns_bind. intro search. apply returns_bind. intro pageRes.
    apply returns_bind. intro docs.
    intros w a w' H. unfold bind at 1 in H.
    match type of H with
    | context [match ?m w with _ => _ end] => destruct (m w) as [[ids|e|] w1] eqn:E1
    end; try discriminate.
    unfold bind at 1 in H.
    destruct (load_pages count (page + 1) w1) as [[more|e|] w2] eqn:E2; try discriminate.
    injection H as <- _. apply clean_app; [|eapply IH; exact E2].
    destruct docs as [[| | | |items|]|].
    + injection E1 as <- _. constructor.
    + destruct (truthy (JBool b)); [discriminate | injection E1 as <- _; constructor].
    + destruct (truthy (JNum q)); [discriminate | injection E1 as <- _; constructor].
    + destruct (truthy (JStr s)); [discriminate | injection E1 as <- _; constructor].
    + eapply completed_ids_clean. exact E1.
    + discriminate.
    + injection E1 as <- _. constructor.
Qed.

(** X12: whatever the backend answers, when [loadDocuments] comes to an
    end for a selected knowledge base, [kbDocumentGroupIds] holds an array
    of strings none of which is blank (the empty array after a failure),
    and the loading flag is off. *)
Theorem loaded_group_ids_are_clean (w : world) :
  truthy (refs w selectedKB) = true ->
  fst (loadDocuments w) <> Awaiting ->
  let w' := snd (loadDocuments w) in
  (exists ids, refs w' kbDocumentGroupIds = JArr ids /\ clean ids) /\
  refs w' documentsLoading = FALSE.
Proof.
  intros Hkb Hend w'. subst w'.
  assert (U : exists m h,
             loadDocuments w =
             finally (try_catch m h) (write documentsLoading FALSE)
                     (snd (write documentsLoading TRUE w)) /\
             (forall w0 u w1,
                 m w0 = (Returned u, w1) ->
                 exists ids, refs w1 kbDocumentGroupIds = JArr ids /\ clean ids) /\
             (forall e w0, refs (snd (h e w0)) kbDocumentGroupIds = JArr [])).
  { unfold loadDocuments. unfold bind at 1. unfold read at 1. rewrite Hkb. cbn [negb].
    unfold bind at 1.
    assert (F : exists kb_id, field "id" (refs w selectedKB) w = (Returned kb_id, w)).
    { destruct (refs w selectedKB); try discriminate Hkb; eexists; reflexivity. }
    destruct F as [kb_id ->].
    unfold bind at 1. cbn [KnowledgeBaseView.write Eff.write fst snd].
    eexists. eexists. split; [reflexivity|]. split.
    - intros w0 u w1.
      unfold bind at 1. unfold read at 1.
      unfold bind at 1. unfold read at 1.
      unfold bind at 1. unfold read at 1.
      unfold bind at 1.
      match goal with
      | |- context [await ?ep ?args ?w2] =>
          destruct (await ep args w2) as [[res|e|] w3]
      end; try discriminate.
      unfold bind at 1.
      destruct (field "documents" res w3) as [[docs|e|] w4]; try discriminate.
      unfold bind at 1. cbn [KnowledgeBaseView.write Eff.write fst snd].
      unfold bind at 1. cbn [KnowledgeBaseView.write Eff.write fst snd].
      unfold bind at 1.
      match goal with
      | |- context [load_pages ?n ?p ?w5] =>
          pose proof (@load_pages_clean n p w5) as C;
          destruct (load_pages n p w5) as [[ids|e|] w6]
      end; try discriminate.
      cbn [KnowledgeBaseView.write Eff.write fst snd].
      intro E. injection E as _ <-. cbn [refs name_beq].
      exists ids. split; [reflexivity | eapply C; reflexivity].
    - intros e w0.
      unfold bind, emit, toast, KnowledgeBaseView.write, Eff.write.
      cbn [fst snd refs name_beq]. reflexivity. }
  destruct U as [m [h [E [Hm Hh]]]]. rewrite E in *. clear E.
  set (w0 := snd (write documentsLoading TRUE w)) in *. clearbody w0.
  rewrite (finally_settled _ _ _ Hend).
  unfold finally, try_catch in Hend. unfold try_catch.
  destruct (m w0) as [[u|e|] w1] eqn:Em;
    cbn [KnowledgeBaseView.write Eff.write fst snd refs name_beq] in *.
  - split; [apply (Hm _ _ _ Em) | reflexivity].
  - split; [|reflexivity]. exists []. split; [apply Hh | constructor].
  - exfalso. apply Hend. reflexivity.
Qed.

End MoreKnowledgeBaseFacts.

Section MoreKnowledgeBaseRuns.

Import KnowledgeBaseView.

Local Notation B := ReferenceBrowser.browser.

Example kb_ids_loaded :
  refs (snd (loadDocuments MoreSamples.kb_world)) kbDocumentGroupIds
  = JArr [JStr (lit "g1")].
Proof. vm_compute. reflexivity. Qed.

Lemma loaded_group_ids_are_clean_witness :
  exists ids,
    refs (snd (loadDocuments MoreSamples.kb_world)) kbDocumentGroupIds = JArr ids /\
    GroupIds.clean ids.
Proof.
  refine (proj1 (@loaded_group_ids_are_clean MoreSamples.kb_world eq_refl _)).
  vm_compute. discriminate.
Defined.

End MoreKnowledgeBaseRuns.

(** ** More on the smart-retrieval tab *)

Section MoreSmartRetrievalFacts.

Import SmartRetrievalTab.

Variable initial_steps : Eff.store name -> json.
Variable step_count : json -> json.
Variable finished_steps : json -> json.
Variable failed_steps : json -> json -> json.
Variable success_text : json -> json -> jsstring.

Local Notation handleExecute :=
  (SmartRetrievalTab.handleExecute initial_steps step_count finished_steps
                                   failed_steps success_text).

(** X13: a query of blanks only, or the selected mode without a selected
    document, never reaches the backend: [handleExecute] raises one warning
    and leaves every ref, the pending answers and the dialogs as they
    were. *)
Theorem guarded_query_is_not_sent (w : world) :
  rejected_by_guards (form_of (refs w)) = true ->
  exists text,
    (text = ENTER_QUERY \/ text = SELECT_DOCUMENTS) /\
    handleExecute w =
    (Returned tt, mkWorld (answers w) (trace w ++ [Toast Warning text])
                          (opened w) (refs w)).
Proof.
  intro H. unfold SmartRetrievalTab.handleExecute.
  unfold bind at 1. unfold snapshot at 1. cbv zeta.
  unfold rejected_by_guards in H.
  destruct (trim (queryText (form_of (refs w)))).
  - exists ENTER_QUERY. split; [left; reflexivity | reflexivity].
  - rewrite H. exists SELECT_DOCUMENTS. split; [right; reflexivity | reflexivity].
Qed.

(** X14: once a query that passes the guards has been answered,
    [executing] is off, the status line is empty and both intervals are
    cleared; [executionResult] holds the answer of the backend, and
    [null], not the result of the query before, when the call was
    rejected. *)
Theorem answered_query_settles (w : world) (a : answer) (rest : list answer) :
  rejected_by_guards (form_of (refs w)) = false ->
  answers w = a :: rest ->
  let w' := snd (handleExecute w) in
  refs w' executing = JBool false /\
  refs w' executionStatus = JStr [] /\
  refs w' elapsedInterval = JNull /\
  refs w' progressInterval = JNull /\
  refs w' executionResult =
  match a with Resolved result => result | Rejected _ => JNull end.
Proof.
  intros Hguard Hans w'.
  assert (E : exists st,
             refs w' = st /\
             st executing = JBool false /\ st executionStatus = JStr [] /\
             st elapsedInterval = JNull /\ st progressInterval = JNull /\
             st executionResult =
             match a with Resolved result => result | Rejected _ => JNull end).
  { subst w'. unfold SmartRetrievalTab.handleExecute.
    unfold bind at 1. unfold snapshot at 1. cbv zeta.
    unfold rejected_by_guards in Hguard.
    destruct (trim (queryText (form_of (refs w)))); [discriminate|].
    rewrite Hguard.
    unfold finally, try_catch, bind, await, read, toast, emit,
      stop_intervals, SmartRetrievalTab.write, Eff.write.
    cbn [fst snd answers trace opened refs]. rewrite Hans.
    destruct a as [result|e]; cbn [fst snd answers trace opened refs].
    - destruct result; cbn [field ret throw fst snd answers trace opened refs];
        eexists; (split; [reflexivity|]); repeat split; reflexivity.
    - eexists. split; [reflexivity|]. repeat split; reflexivity. }
  destruct E as [st [-> H]]. exact H.
Qed.

End MoreSmartRetrievalFacts.

Section MoreSmartRetrievalRuns.

Import SmartRetrievalTab.

Lemma guarded_query_is_not_sent_witness :
  exists text,
    (text = ENTER_QUERY \/ text = SELECT_DOCUMENTS) /\
    SmartRetrievalTab.handleExecute (fun _ => JNull) (fun x => x) (fun x => x)
                                    (fun x _ => x) (fun _ _ => [])
                                    MoreSamples.blank_query_world =
    (Returned tt,
     mkWorld (answers MoreSamples.blank_query_world)
             (trace MoreSamples.blank_query_world ++ [Toast Warning text])
             (opened MoreSamples.blank_query_world)
             (refs MoreSamples.blank_query_world)).
Proof.
  apply (@guarded_query_is_not_sent (fun _ => JNull) (fun x => x) (fun x => x)
                                    (fun x _ => x) (fun _ _ => [])
                                    MoreSamples.blank_query_world).
  reflexivity.
Defined.

Lemma answered_query_settles_witness :
  refs (snd (SmartRetrievalTab.handleExecute (fun _ => JNull) (fun x => x) (fun x => x)
                                             (fun x _ => x) (fun _ _ => [])
                                             MoreSamples.failing_query_world))
       executionResult = JNull.
Proof.
  exact (proj2 (proj2 (proj2 (proj2
           (@answered_query_settles (fun _ => JNull) (fun x => x) (fun x => x)
                                    (fun x _ => x) (fun _ _ => [])
                                    MoreSamples.failing_query_world
                                    (Rejected (mkError (lit "Network Error") [])) []
                                    eq_refl eq_refl))))).
Defined.

End MoreSmartRetrievalRuns.

(** ** The typewriter and the callbacks of the chat view *)

Section ChatSessionFacts.

Import SSE ChatView ChatSession.

Context {browser : Browser}.

Lemma firstn_prefix (A : Type) (n : nat) (l : list A) :
  exists rest, l = firstn n l ++ rest.
Proof. exists (skipn n l). symmetry. apply firstn_skipn. Qed.

Lemma chat_start_shown : shown_is_prefix start.
Proof.
  split; [exists []; reflexivity|]. intros _. split; [apply Nat.le_refl | reflexivity].
Qed.

Lemma chat_typewriterEffect_shown (s : session) :
  shown_is_prefix s -> typewriterTimer s = true ->
  shown_is_prefix (typewriterEffect s).
Proof.
  intros [Hp Hc] Ht. destruct (Hc Ht) as [Hle Hsc].
  unfold typewriterEffect.
  destruct (displayedLength s <? length (pendingText s)) eqn:E.
  - apply Nat.ltb_lt in E. split; cbn [pendingText streamingContent].
    + apply firstn_prefix.
    + intros _. cbn [displayedLength pendingText streamingContent].
      split; [lia | reflexivity].
  - destruct (isStreaming s); split; cbn [pendingText streamingContent];
      try exact Hp; intro K; try discriminate K;
      cbn [displayedLength pendingText streamingContent]; split; assumption.
Qed.

Lemma chat_onChunk_fields (c : chunk) (s : session) :
  exists text,
    pendingText (onChunk c s) = pendingText s ++ text /\
    text = LLMGenerateTab.received_text [EvChunk c] /\
    displayedLength (onChunk c s) = displayedLength s /\
    streamingContent (onChunk c s) = streamingContent s /\
    typewriterTimer (onChunk c s) = typewriterTimer s /\
    isStreaming (onChunk c s) = isStreaming s /\
    chatLoading (onChunk c s) = chatLoading s /\
    content (onChunk c s) = content s.
Proof.
  destruct c as [data|v]; cbn [onChunk].
  - exists []. cbn. rewrite app_nil_r. repeat split.
  - destruct v as [|b|q|text|items|fields].
    1-3, 5: exists []; cbn; rewrite app_nil_r; repeat split.
    + exists text. cbn. rewrite app_nil_r. repeat split.
    + exists []. cbn [LLMGenerateTab.received_text flat_map app].
      destruct (lookup (lit "type") fields) as [[| | |t| |]|];
        try (cbn; rewrite app_nil_r; repeat split; fail).
      destruct (str_eqb t (lit "statistics")); cbn; rewrite app_nil_r; repeat split.
Qed.

Lemma chat_onChunk_shown (c : chunk) (s : session) :
  shown_is_prefix s -> shown_is_prefix (onChunk c s).
Proof.
  intros [[rest Hp] Hc].
  destruct (chat_onChunk_fields c s) as [text [Hpt [_ [Hd [Hs [Ht _]]]]]].
  split.
  - exists (rest ++ text). rewrite Hpt, Hs, Hp, <- app_assoc. reflexivity.
  - rewrite Ht, Hpt, Hd, Hs. intro K. destruct (Hc K) as [Hle Hsc]. split.
    + rewrite length_app. lia.
    + rewrite firstn_app.
      replace (displayedLength s - length (pendingText s)) with 0 by lia.
      cbn [firstn]. rewrite app_nil_r. exact Hsc.
Qed.

Lemma chat_step_shown (s : session) (o : occurrence) :
  shown_is_prefix s -> shown_is_prefix (step s o).
Proof.
  intro H. destruct o as [|ev]; cbn [step].
  - destruct (typewriterTimer s) eqn:T; [|exact H].
    apply chat_typewriterEffect_shown; assumption.
  - destruct ev as [|c| |e|]; try exact H.
    + apply chat_onChunk_shown, H.
    + split; cbn; [exists []; rewrite app_nil_r; reflexivity | discriminate].
    + split; cbn; [exists (pendingText s); reflexivity | discriminate].
Qed.

Lemma chat_run_shown (os : list occurrence) :
  forall s, shown_is_prefix s -> shown_is_prefix (run s os).
Proof.
  induction os as [|o os IH]; intros s H; [exact H|].
  cbn [run fold_left]. apply IH, chat_step_shown, H.
Qed.

(** X15: throughout a session of the chat view, for every schedule of
    timeouts and reader callbacks, the text shown in the bubble is a
    prefix of the text received, and a timeout of the typewriter appends
    at most three characters to it. *)
Theorem chat_displayed_text_is_prefix (os : list occurrence) :
  let s := run start os in
  (exists rest, pendingText s = streamingContent s ++ rest) /\
  (exists ext, streamingContent (step s Tick) = streamingContent s ++ ext /\
               length ext <= 3).
Proof.
  intro s.
  assert (H : shown_is_prefix s) by apply chat_run_shown, chat_start_shown.
  split; [apply H|].
  cbn [step]. destruct (typewriterTimer s) eqn:T.
  - destruct H as [_ Hc]. destruct (Hc T) as [Hle Hsc].
    unfold typewriterEffect.
    destruct (displayedLength s <? length (pendingText s)) eqn:E.
    + apply Nat.ltb_lt in E. cbn [streamingContent]. unfold substring0.
      set (k := Nat.min 3 (length (pendingText s) - displayedLength s)).
      exists (firstn k (skipn (displayedLength s) (pendingText s))). split.
      * rewrite Hsc.
        rewrite <- (firstn_skipn (displayedLength s) (pendingText s)) at 1.
        rewrite firstn_app, length_firstn.
        replace (Nat.min (displayedLength s) (length (pendingText s)))
          with (displayedLength s) by lia.
        replace (displayedLength s + k - displayedLength s) with k by lia.
        rewrite firstn_firstn.
        replace (Nat.min (displayedLength s + k) (displayedLength s))
          with (displayedLength s) by lia.
        reflexivity.
      * rewrite length_firstn. subst k. lia.
    + exists []. rewrite app_nil_r.
      destruct (isStreaming s); cbn [streamingContent]; split; try reflexivity;
        cbn; lia.
  - exists []. rewrite app_nil_r. split; [reflexivity | cbn; lia].
Qed.







End ChatSessionFacts.

Section MoreSessionRuns.

Import SSE.

Local Notation B := ReferenceBrowser.browser.
Local Notation St := Samples.stats_log.


End MoreSessionRuns.

Section MoreLoopRuns.

Import SSE LLMGenerateLoop.

Local Notation B := ReferenceBrowser.browser.
Local Notation St := Samples.stats_log.

Lemma typewriter_catches_up_witness :
  let chunk := EvChunk (Content (JStr (lit "hello world"))) in
  let t0 := step (browser := B) (stats_ops := St) mounted (Execute (Click Samples.all_documents_form)) in
  let t := undisturbed (browser := B) t0 2 [] [LLMGenerateTab.Reader chunk] in
  exists c,
    own_closure t0 t = Some c /\
    streamingContent (run (browser := B) t (repeat (Of 0 LLMGenerateTab.Tick) 2)) =
    firstn (displayedLength c + 3 * 2) (pendingText c).
Proof.
  intros chunk t0 t.
  destruct (@typewriter_catches_up B St t0 2 [] [LLMGenerateTab.Reader chunk] 2
              eq_refl eq_refl) as [c [H1 [H2 _]]].
  exists c. split; [exact H1 | exact H2].
Defined.

Lemma undisturbed_display_is_prefix_witness :
  let chunk := EvChunk (Content (JStr (lit "hello world"))) in
  let t0 := step (browser := B) (stats_ops := St) mounted (Execute (Click Samples.all_documents_form)) in
  let t := undisturbed (browser := B) t0 2 []
                       [LLMGenerateTab.Reader chunk; LLMGenerateTab.Tick] in
  exists ext,
    streamingContent (step (browser := B) t (Of 0 LLMGenerateTab.Tick))
    = streamingContent t ++ ext /\
    length ext <= 3.
Proof.
  intros chunk t0 t.
  destruct (@undisturbed_display_is_prefix B St t0 2 []
              [LLMGenerateTab.Reader chunk; LLMGenerateTab.Tick] eq_refl)
    as [c [_ [_ [H _]]]].
  exact H.
Defined.

End MoreLoopRuns.

(** ** Roles, the last answer and the Mem0 session of the knowledge-base
       view *)

Section KnowledgeBaseRoleFacts.

Import SSE KnowledgeBaseRoles.

Context {browser : Browser}.

(** X17: the three roles of the current user are consistent for every
    knowledge base and every user record: the owner is an editor, the
    owner is not a member, and without a knowledge base or a user nobody
    is owner, editor or member. *)
Theorem roles_are_consistent (selectedKB currentUser : json) :
  (isOwner selectedKB currentUser = true -> isEditor selectedKB currentUser = true) /\
  (isOwner selectedKB currentUser = true -> isMember selectedKB currentUser = false) /\
  (isOwner selectedKB currentUser || isEditor selectedKB currentUser
   = isEditor selectedKB currentUser) /\
  (negb (isOwner selectedKB currentUser) && isMember selectedKB currentUser
   = isMember selectedKB currentUser) /\
  (truthy selectedKB = false \/ truthy currentUser = false ->
   isOwner selectedKB currentUser = false /\
   isEditor selectedKB currentUser = false /\
   isMember selectedKB currentUser = false).
Proof.
  unfold isOwner, isEditor, isMember.
  destruct (truthy selectedKB), (truthy currentUser); cbn [negb orb];
    destruct (strict_eq (get "creator_name" selectedKB) (get "username" currentUser));
    repeat split; intros; try reflexivity; try discriminate;
    try (destruct H; discriminate);
    try (rewrite Bool.andb_true_l; reflexivity);
    try (cbn; reflexivity).
  all: cbn [negb andb orb];
    destruct (is_text "editor" (get "user_role" selectedKB)
              || is_text "admin" (get "user_role" selectedKB));
    try reflexivity; try discriminate.
Qed.

Lemma last_filter_split (f : json -> bool) (l : list json) (m : json) :
  filter f l <> [] ->
  last (filter f l) JNull = m ->
  f m = true /\
  exists pre post, l = pre ++ m :: post /\ filter f post = [].
Proof.
  induction l as [|x l IH]; intros Hne Hlast; [contradiction Hne; reflexivity|].
  cbn [filter] in *. destruct (f x) eqn:Fx.
  - destruct (filter f l) as [|y ys] eqn:Fl.
    + cbn [last] in Hlast. subst m. split; [exact Fx|].
      exists [], l. split; [reflexivity | exact Fl].
    + assert (Hne' : y :: ys <> []) by discriminate.
      change (last (x :: y :: ys) JNull) with (last (y :: ys) JNull) in Hlast.
      destruct (IH Hne' Hlast) as [Hm [pre [post [-> Hpost]]]].
      split; [exact Hm|]. exists (x :: pre), post. split; [reflexivity | exact Hpost].
  - destruct (IH Hne Hlast) as [Hm [pre [post [-> Hpost]]]].
    split; [exact Hm|]. exists (x :: pre), post. split; [reflexivity | exact Hpost].
Qed.

(** X18: for a list of messages none of which is [null],
    [lastAssistantMessage] is [null] exactly when no message has the role
    ['assistant'], and otherwise it is a message of that role after which
    no message of that role comes. *)
Theorem last_assistant_message_is_last (chatMessages : list json) :
  existsb is_null chatMessages = false ->
  exists result,
    lastAssistantMessage chatMessages = Some result /\
    (filter is_assistant chatMessages = [] -> result = JNull) /\
    (filter is_assistant chatMessages <> [] ->
     is_assistant result = true /\
     exists before after,
       chatMessages = before ++ result :: after /\
       filter is_assistant after = []).
Proof.
  intro Hnull. unfold lastAssistantMessage. rewrite Hnull.
  destruct (filter is_assistant chatMessages) as [|y ys] eqn:F.
  - exists JNull. split; [reflexivity|]. split; [reflexivity|].
    intro K. contradiction K. reflexivity.
  - exists (last (y :: ys) JNull). split; [reflexivity|]. split; [discriminate|].
    intros _. apply last_filter_split; [rewrite F; discriminate | rewrite F; reflexivity].
Qed.

Lemma str_eqb_refl (s : jsstring) : str_eqb s s = true.
Proof.
  induction s as [|c s IH]; [reflexivity|].
  cbn [str_eqb]. rewrite N.eqb_refl. exact IH.
Qed.

Lemma str_eqb_eq (a b : jsstring) : str_eqb a b = true -> a = b.
Proof.
  revert b. induction a as [|x a IH]; intros [|y b] H; try discriminate; [reflexivity|].
  cbn [str_eqb] in H. apply andb_prop in H as [H1 H2].
  apply N.eqb_eq in H1. subst y. f_equal. apply IH, H2.
Qed.

Lemma getItem_removeItem_other (key other : jsstring) (st : storage) :
  str_eqb other key = false ->
  getItem other (removeItem key st) = getItem other st.
Proof.
  intro Hne. induction st as [|[k v] st IH]; [reflexivity|].
  cbn [removeItem getItem]. destruct (str_eqb key k) eqn:E.
  - apply str_eqb_eq in E. subst k. rewrite Hne. exact IH.
  - cbn [getItem]. rewrite IH. reflexivity.
Qed.

(** X19: the Mem0 session id of a knowledge base is created once: for a
    generated id that is not empty, [getSessionId] returns an id that is
    not empty and is what the storage then holds under the key of the
    knowledge base; a second call returns the same id whatever would be
    generated, and stores nothing; the ids kept under other keys are not
    touched. *)
Theorem session_id_is_created_once
        (selectedKB : json) (fresh again : jsstring) (st : storage) :
  truthy selectedKB = true ->
  fresh <> [] ->
  let key := session_key selectedKB in
  exists id,
    id <> [] /\
    fst (getSessionId selectedKB fresh st) = Some id /\
    getItem key (snd (getSessionId selectedKB fresh st)) = Some id /\
    getSessionId selectedKB again (snd (getSessionId selectedKB fresh st)) =
    (Some id, snd (getSessionId selectedKB fresh st)) /\
    (forall other, str_eqb other key = false ->
                   getItem other (snd (getSessionId selectedKB fresh st)) =
                   getItem other st).
Proof.
  intros Hkb Hfresh key. unfold getSessionId. rewrite Hkb. cbn [negb].
  fold key. destruct (getItem key st) as [[|c id]|] eqn:G.
  - destruct fresh as [|c f]; [contradiction Hfresh; reflexivity|].
    exists (c :: f). cbn [fst snd]. split; [discriminate|]. split; [reflexivity|].
    assert (S : getItem key (setItem key (c :: f) st) = Some (c :: f)).
    { unfold setItem. cbn [getItem]. rewrite str_eqb_refl. reflexivity. }
    split; [exact S|]. rewrite S. split; [reflexivity|].
    intros other Hne. unfold setItem. cbn [getItem]. rewrite Hne.
    apply getItem_removeItem_other, Hne.
  - exists (c :: id). cbn [fst snd]. rewrite G.
    split; [discriminate|]. repeat split; reflexivity.
  - destruct fresh as [|c f]; [contradiction Hfresh; reflexivity|].
    exists (c :: f). cbn [fst snd]. split; [discriminate|]. split; [reflexivity|].
    assert (S : getItem key (setItem key (c :: f) st) = Some (c :: f)).
    { unfold setItem. cbn [getItem]. rewrite str_eqb_refl. reflexivity. }
    split; [exact S|]. rewrite S. split; [reflexivity|].
    intros other Hne. unfold setItem. cbn [getItem]. rewrite Hne.
    apply getItem_removeItem_other, Hne.
Qed.

End KnowledgeBaseRoleFacts.

Section KnowledgeBaseRoleRuns.

Import KnowledgeBaseRoles.

Local Notation B := ReferenceBrowser.browser.

Example roles_of_bob :
  (isOwner MoreSamples.kb_of_alice MoreSamples.bob,
   isEditor MoreSamples.kb_of_alice MoreSamples.bob,
   isMember MoreSamples.kb_of_alice MoreSamples.bob) = (false, true, true).
Proof. reflexivity. Qed.

Lemma roles_are_consistent_witness :
  isEditor MoreSamples.kb_of_alice MoreSamples.alice = true /\
  isMember MoreSamples.kb_of_alice MoreSamples.alice = false.
Proof.
  destruct (roles_are_consistent MoreSamples.kb_of_alice MoreSamples.alice)
    as [H1 [H2 _]].
  split; [apply H1 | apply H2]; reflexivity.
Defined.

Lemma last_assistant_message_is_last_witness :
  exists result,
    lastAssistantMessage MoreSamples.conversation = Some result /\
    is_assistant result = true.
Proof.
  destruct (@last_assistant_message_is_last MoreSamples.conversation eq_refl)
    as [result [H [_ H2]]].
  exists result. split; [exact H|]. apply H2. discriminate.
Defined.

Example last_assistant_message_of_conversation :
  lastAssistantMessage MoreSamples.conversation =
  Some (JObj [(lit "role", JStr (lit "assistant")); (lit "content", JStr (lit "a2"))]).
Proof. reflexivity. Qed.

Lemma session_id_is_created_once_witness :
  exists id,
    fst (getSessionId (browser := B) MoreSamples.kb_of_alice (lit "id-1") []) = Some id /\
    getSessionId (browser := B) MoreSamples.kb_of_alice (lit "id-2")
                 (snd (getSessionId (browser := B) MoreSamples.kb_of_alice (lit "id-1") []))
    = (Some id, snd (getSessionId (browser := B) MoreSamples.kb_of_alice (lit "id-1") [])).
Proof.
  assert (Hf : lit "id-1" <> []) by discriminate.
  destruct (@session_id_is_created_once B MoreSamples.kb_of_alice (lit "id-1")
              (lit "id-2") [] eq_refl Hf) as [id [_ [H1 [_ [H2 _]]]]].
  exists id. split; [exact H1 | exact H2].
Defined.

Example session_key_of_kb :
  session_key (browser := B) MoreSamples.kb_of_alice = lit "mem0_session_id_12".
Proof. vm_compute. reflexivity. Qed.

End KnowledgeBaseRoleRuns.

(** ** The Memify configuration of the Cognee tab *)

Section MemifyFacts.

Import MemifyConfig.

Lemma trim_start_suffix (s : jsstring) : exists ws, s = ws ++ trim_start s.
Proof.
  induction s as [|c s [ws IH]]; [exists []; reflexivity|].
  cbn [trim_start]. destruct (is_whitespace c).
  - exists (c :: ws). cbn [app]. rewrite <- IH. reflexivity.
  - exists []. reflexivity.
Qed.

Lemma trim_start_head (s : jsstring) (c : code_unit) (rest : jsstring) :
  trim_start s = c :: rest -> is_whitespace c = false.
Proof.
  induction s as [|d s IH]; cbn [trim_start]; [discriminate|].
  destruct (is_whitespace d) eqn:E; [exact IH|].
  intro H. injection H as <- _. exact E.
Qed.

Lemma trim_start_id (c : code_unit) (s : jsstring) :
  is_whitespace c = false -> trim_start (c :: s) = c :: s.
Proof. intro H. cbn [trim_start]. rewrite H. reflexivity. Qed.

Lemma trim_idempotent (s : jsstring) : trim (trim s) = trim s.
Proof.
  unfold trim.
  destruct (trim_start (rev (trim_start s))) as [|c b] eqn:B; [reflexivity|].
  pose proof (trim_start_head _ B) as Hc.
  assert (Hfirst : trim_start (rev (c :: b)) = rev (c :: b)).
  { destruct (trim_start_suffix (rev (trim_start s))) as [ws Hws].
    rewrite B in Hws.
    assert (Ha : trim_start s = rev (c :: b) ++ rev ws).
    { rewrite <- (rev_involutive (trim_start s)), Hws, rev_app_distr. reflexivity. }
    destruct (rev (c :: b)) as [|x xs] eqn:R.
    - apply (f_equal (@length _)) in R. rewrite length_rev in R. discriminate R.
    - cbn [app] in Ha. apply trim_start_head in Ha. apply (@trim_start_id x xs Ha). }
  rewrite Hfirst, rev_involutive, (@trim_start_id c b Hc). reflexivity.
Qed.

Lemma entries_trimmed (parts : list jsstring) : Forall trimmed (entries parts).
Proof.
  unfold entries. apply Forall_forall. intros t Ht.
  apply filter_In in Ht as [Hin Hne]. apply in_map_iff in Hin as [p [<- _]].
  split.
  - destruct (trim p); [discriminate Hne | discriminate].
  - apply trim_idempotent.
Qed.

(** X20: whatever the form holds, the Memify configuration sent with a
    build names at least one node type, and its node types and rules are
    trimmed and not empty: the node types are those of the form, or
    ['DocumentChunk'] alone when the form names none; the rules are sent,
    with the mode ['manual'], exactly when the form has a line that is not
    blank, the mode being ['llm_extract'] otherwise; the name of the rule
    set is never empty. *)
Theorem memify_config_is_well_formed (f : form) :
  exists extraction enrichment nodeTypes name mode,
    memifyConfig f = JObj [(lit "extraction", extraction); (lit "enrichment", enrichment)] /\
    get "node_types" extraction = Some (strings nodeTypes) /\
    nodeTypes <> [] /\ Forall trimmed nodeTypes /\
    (nodeTypesArray (memifyNodeTypes f) <> [] ->
     nodeTypes = nodeTypesArray (memifyNodeTypes f)) /\
    (nodeTypesArray (memifyNodeTypes f) = [] -> nodeTypes = [lit "DocumentChunk"]) /\
    get "rules_nodeset_name" enrichment = Some (JStr name) /\ name <> [] /\
    get "mode" enrichment = Some (JStr mode) /\
    Forall trimmed (rulesArray (memifyRules f)) /\
    (rulesArray (memifyRules f) <> [] ->
     get "rules" enrichment = Some (strings (rulesArray (memifyRules f))) /\
     mode = lit "manual") /\
    (rulesArray (memifyRules f) = [] ->
     get "rules" enrichment = None /\ mode = lit "llm_extract").
Proof.
  unfold memifyConfig.
  pose proof (entries_trimmed (split_on COMMA (memifyNodeTypes f))) as Hn.
  pose proof (entries_trimmed (split_on LF (memifyRules f))) as Hr.
  fold (nodeTypesArray (memifyNodeTypes f)) in Hn.
  fold (rulesArray (memifyRules f)) in Hr.
  assert (Hname : or_else (memifyRulesNodesetName f) (lit "default_rules") <> []).
  { destruct (memifyRulesNodesetName f); discriminate. }
  destruct (nodeTypesArray (memifyNodeTypes f)) as [|t ts] eqn:N;
    destruct (rulesArray (memifyRules f)) as [|r rs] eqn:R;
    do 5 eexists; (split; [reflexivity|]);
    (split; [reflexivity|]);
    (split; [discriminate|]).
  all: split;
    [ first [ exact Hn
            | constructor; [split; [discriminate | reflexivity] | constructor] ] |].
  all: split; [intro K; first [reflexivity | contradiction K; reflexivity]|].
  all: split; [intro K; first [reflexivity | discriminate K]|].
  all: split; [reflexivity|].
  all: split; [exact Hname|].
  all: split; [reflexivity|].
  all: split; [first [exact Hr | constructor]|].
  all: split; intro K;
    first [ split; reflexivity | contradiction K; reflexivity | discriminate K ].
Qed.

End MemifyFacts.

Section MemifyRuns.

Import MemifyConfig.

Example node_types_of_form :
  nodeTypesArray (lit " Entity , ,DocumentChunk,") = [lit "Entity"; lit "DocumentChunk"].
Proof. reflexivity. Qed.

Example node_types_of_separators_only :
  get "node_types"
      (undefined_as_null
         (get "extraction"
              (memifyConfig (mkForm (lit "rules") [] (lit " , ") (JNum 2) JNull))))
  = Some (strings [lit "DocumentChunk"]).
Proof. reflexivity. Qed.

End MemifyRuns.

(** ** The progress estimate of the smart-retrieval tab *)

Section ProgressFacts.

Import RetrievalProgress.

Local Open Scope Q_scope.

Lemma less_true (a b : Q) : less a b = true -> a < b.
Proof.
  unfold less. intro H. apply Bool.negb_true_iff in H.
  apply Qnot_le_lt. intro K. apply Qle_bool_iff in K. congruence.
Qed.

Lemma less_false (a b : Q) : less a b = false -> b <= a.
Proof.
  unfold less. intro H. apply Bool.negb_false_iff in H.
  apply Qle_bool_iff. exact H.
Qed.

Lemma Math_min_spec (a b : Q) :
  (a <= b /\ Math_min a b = a) \/ (b < a /\ Math_min a b = b).
Proof.
  unfold Math_min. destruct (Qle_bool a b) eqn:E.
  - left. split; [apply Qle_bool_iff, E | reflexivity].
  - right. split; [|reflexivity].
    apply Qnot_le_lt. intro K. apply Qle_bool_iff in K. congruence.
Qed.

Lemma elapsed_of_le (ms1 ms2 : Z) :
  (ms1 <= ms2)%Z -> elapsed_of ms1 <= elapsed_of ms2.
Proof.
  intro H. unfold elapsed_of, Qdiv. change (/ 1000) with (1 # 1000).
  assert (K : inject_Z ms1 <= inject_Z ms2) by (rewrite <- Zle_Qle; exact H).
  lra.
Qed.

Lemma elapsed_of_nonneg (ms : Z) : (0 <= ms)%Z -> 0 <= elapsed_of ms.
Proof.
  intro H. unfold elapsed_of, Qdiv. change (/ 1000) with (1 # 1000).
  assert (K : inject_Z 0 <= inject_Z ms) by (rewrite <- Zle_Qle; exact H).
  change (inject_Z 0) with 0 in K. lra.
Qed.

(** X21: while a query runs, the estimate shown by the progress bar
    never goes back and never reaches 100: for call times
    [0 <= ms1 <= ms2] after the start, [updateProgress] sets a step index
    and a percentage that are not smaller at [ms2] than at [ms1], the index
    is at most 5 and the percentage lies between 0 and 98. *)
Theorem progress_estimate_is_monotone (ms1 ms2 : Z) (c1 c2 : nat * Q) :
  (0 <= ms1)%Z -> (ms1 <= ms2)%Z ->
  let p1 := updateProgress true ms1 c1 in
  let p2 := updateProgress true ms2 c2 in
  (fst p1 <= fst p2)%nat /\ (fst p2 <= 5)%nat /\
  0 <= snd p1 /\ snd p1 <= snd p2 /\ snd p2 <= 98.
Proof.
  intros H0 H12 p1 p2. subst p1 p2. unfold updateProgress. cbn [negb].
  pose proof (elapsed_of_nonneg H0) as E0.
  pose proof (elapsed_of_le H12) as E12.
  set (e1 := elapsed_of ms1) in *. set (e2 := elapsed_of ms2) in *.
  clearbody e1 e2. unfold Qdiv.
  change (/ 1) with 1. change (/ 2) with (1 # 2). change (/ 3) with (1 # 3).
  destruct (less e1 1) eqn:A1;
    [apply less_true in A1 | apply less_false in A1;
     destruct (less e1 3) eqn:A3;
     [apply less_true in A3 | apply less_false in A3;
      destruct (less e1 4) eqn:A4;
      [apply less_true in A4 | apply less_false in A4;
       destruct (less e1 5) eqn:A5;
       [apply less_true in A5 | apply less_false in A5;
        destruct (less e1 7) eqn:A7;
        [apply less_true in A7 | apply less_false in A7]]]]].
  all: destruct (less e2 1) eqn:B1;
    [apply less_true in B1 | apply less_false in B1;
     destruct (less e2 3) eqn:B3;
     [apply less_true in B3 | apply less_false in B3;
      destruct (less e2 4) eqn:B4;
      [apply less_true in B4 | apply less_false in B4;
       destruct (less e2 5) eqn:B5;
       [apply less_true in B5 | apply less_false in B5;
        destruct (less e2 7) eqn:B7;
        [apply less_true in B7 | apply less_false in B7]]]]].
  all: cbn [fst snd].
  all: try (exfalso; lra).
  all: match goal with
       | |- context [Math_min ?a ?b] =>
           destruct (Math_min_spec a b) as [[? ->]|[? ->]]
       end.
  all: match goal with
       | |- context [Math_min ?a ?b] =>
           destruct (Math_min_spec a b) as [[? ->]|[? ->]]
       end.
  all: repeat split; try lia; try lra.
Qed.

End ProgressFacts.

(** ** The document selectors *)

Section DocumentOptionFacts.

Import SSE DocumentOptions.

Context {browser : Browser}.

(** X22: every option of the document selector of the LLM-generate tab
    can be chosen and stands for a processed document: its [value] is a
    truthy [document_id] and its [disabled] is [false]; there are no more
    options than documents; the documents offered by the smart-retrieval
    tab all have a truthy [document_id] as well. *)
Theorem document_options_are_enabled (response : json) :
  (forall options,
      documentOptions response = Some options ->
      Forall (fun o => truthy_opt (get "value" o) = true /\
                       get "disabled" o = Some (JBool false)) options /\
      forall docs, get "documents" response = Some (JArr docs) ->
                   length options <= length docs) /\
  (forall documents,
      selectable_documents response = Some documents ->
      Forall (fun doc => truthy_opt (get "document_id" doc) = true) documents).
Proof.
  assert (W : forall documents kept,
             with_document_id documents = Some kept ->
             Forall (fun doc => truthy_opt (get "document_id" doc) = true) kept /\
             forall docs, documents = JArr docs -> length kept <= length docs).
  { intros documents kept H. unfold with_document_id in H.
    destruct documents as [| | | |docs|]; try discriminate.
    destruct (existsb is_null docs); [discriminate|]. injection H as <-. split.
    - apply Forall_forall. intros doc Hd. apply filter_In in Hd. apply Hd.
    - intros docs' E. injection E as <-. apply filter_length_le. }
  split.
  - intros options H. unfold documentOptions in H.
    destruct (with_document_id
                (if truthy response && truthy_opt (get "documents" response)
                 then undefined_as_null (get "documents" response)
                 else JArr [])) as [kept|] eqn:K; [|discriminate].
    injection H as <-. destruct (W _ _ K) as [Hk Hl]. split.
    + apply Forall_forall. intros o Ho. apply in_map_iff in Ho as [doc [<- Hd]].
      rewrite Forall_forall in Hk. specialize (Hk doc Hd).
      unfold option_of. cbn [get].
      assert (L1 : lookup (lit "value")
                     [(lit "value", undefined_as_null (get "document_id" doc));
                      (lit "label",
                        JStr (text_of (get "file_name" doc) ++ lit " ("
                              ++ text_of (get "document_id" doc) ++ lit ")"));
                      (lit "disabled",
                        JBool (negb (truthy_opt (get "document_id" doc))))]
                   = Some (undefined_as_null (get "document_id" doc)))
        by reflexivity.
      assert (L2 : lookup (lit "disabled")
                     [(lit "value", undefined_as_null (get "document_id" doc));
                      (lit "label",
                        JStr (text_of (get "file_name" doc) ++ lit " ("
                              ++ text_of (get "document_id" doc) ++ lit ")"));
                      (lit "disabled",
                        JBool (negb (truthy_opt (get "document_id" doc))))]
                   = Some (JBool (negb (truthy_opt (get "document_id" doc)))))
        by reflexivity.
      rewrite L1, L2, Hk. split; [|reflexivity].
      destruct (get "document_id" doc); [exact Hk | discriminate Hk].
    + intros docs Hd. rewrite Hd in K. cbn [truthy_opt truthy undefined_as_null] in K.
      destruct (truthy response); cbn [andb] in K.
      * rewrite length_map. apply (proj2 (W _ _ K) docs eq_refl).
      * unfold with_document_id in K. cbn in K. injection K as <-. apply Nat.le_0_l.
  - intros documents H. unfold selectable_documents in H.
    destruct (truthy response && truthy_opt (get "documents" response)).
    + apply (W _ _ H).
    + injection H as <-. constructor.
Qed.

End DocumentOptionFacts.

Section ProgressRuns.

Import RetrievalProgress.

Example progress_after_three_and_a_half_seconds :
  fst (updateProgress true 3500 (0%nat, 0%Q)) = 2 /\
  (snd (updateProgress true 3500 (0%nat, 0%Q)) == 40)%Q.
Proof. split; reflexivity. Qed.

Lemma progress_estimate_is_monotone_witness :
  (snd (updateProgress true 500 (0%nat, 0%Q)) <= snd (updateProgress true 3500 (0%nat, 0%Q)))%Q /\
  (snd (updateProgress true 3500 (0%nat, 0%Q)) <= 98)%Q.
Proof.
  assert (H0 : (0 <= 500)%Z) by lia.
  assert (H1 : (500 <= 3500)%Z) by lia.
  destruct (@progress_estimate_is_monotone 500 3500 (0%nat, 0%Q) (0%nat, 0%Q) H0 H1)
    as [_ [_ [_ [H2 H3]]]].
  split; [exact H2 | exact H3].
Defined.

End ProgressRuns.

Section DocumentOptionRuns.

Import DocumentOptions.

Local Notation B := ReferenceBrowser.browser.

Example options_of_two_documents :
  documentOptions (browser := B)
    (JObj [(lit "documents",
             JArr [ JObj [(lit "file_name", JStr (lit "a.docx"));
                          (lit "document_id", JStr (lit "g1"))];
                    JObj [(lit "file_name", JStr (lit "b.docx"))] ])])
  = Some [ JObj [ (lit "value", JStr (lit "g1"));
                  (lit "label", JStr (lit "a.docx (g1)"));
                  (lit "disabled", JBool false) ] ].
Proof. vm_compute. reflexivity. Qed.

End DocumentOptionRuns.

(** ** More on the Cognee tab *)

Section MoreCogneeFacts.

Import CogneeTab.

Context {browser : SSE.Browser}.

Variable prepare : Eff.store name -> list (level * jsstring) * option json.

(** X23: [handleExecute] and [loadChunksCogneeMapping] of the Cognee tab
    release their busy flags whenever they come to an end, whatever the
    backend answered; a mapping request that is rejected leaves an empty
    mapping. *)
Theorem cognee_busy_flags_are_released :
  (forall skip w, fst (handleExecute prepare skip w) <> Awaiting ->
                  refs w executing = FALSE ->
                  refs (snd (handleExecute prepare skip w)) executing = FALSE) /\
  (forall w, fst (loadChunksCogneeMapping w) <> Awaiting ->
             refs w loadingMapping = FALSE ->
             refs (snd (loadChunksCogneeMapping w)) loadingMapping = FALSE) /\
  (forall w e rest,
      truthy (refs w selectedDocumentId) = true ->
      answers w = Rejected e :: rest ->
      refs (snd (loadChunksCogneeMapping w)) chunksCogneeMapping =
      JObj [(lit "mappings", JArr [])]).
Proof.
  split; [|split].
  - intros skip w H H0. unfold handleExecute in *.
    unfold bind at 1 in H. unfold bind at 1. unfold read at 1 in H. unfold read at 1.
    destruct (truthy (refs w selectedDocumentId)); cbn [negb] in *; [|exact H0].
    unfold bind at 1 in H. unfold bind at 1.
    cbn [CogneeTab.write Eff.write fst snd] in *.
    unfold bind at 1 in H. unfold bind at 1.
    cbn [CogneeTab.write Eff.write fst snd] in *.
    rewrite (finally_settled _ _ _ H). reflexivity.
  - intros w H H0. unfold loadChunksCogneeMapping in *.
    unfold bind at 1 in H. unfold bind at 1. unfold read at 1 in H. unfold read at 1.
    destruct (truthy (refs w selectedDocumentId)); cbn [negb] in *; [|exact H0].
    unfold bind at 1 in H. unfold bind at 1.
    cbn [CogneeTab.write Eff.write fst snd] in *.
    rewrite (finally_settled _ _ _ H). reflexivity.
  - intros w e rest Hid Hans. unfold loadChunksCogneeMapping.
    unfold bind at 1. unfold read at 1. rewrite Hid. cbn [negb].
    unfold finally, try_catch, bind, await, CogneeTab.write, Eff.write.
    cbn [fst snd answers trace opened refs]. rewrite Hans.
    cbn [fst snd answers trace opened refs]. reflexivity.
Qed.

(** X24: the delete dialog of the Cognee tab: when [deleteCogneeGraph]
    is rejected, nothing of what the tab shows changes and the error is
    raised; when it succeeds, the result and both copies of the graph are
    cleared and the graph window is no longer open. *)
Theorem cognee_delete_outcomes (w : world) (a : answer) (rest : list answer) :
  answers w = a :: rest ->
  let w' := snd (onOk prepare DeleteCognee w) in
  match a with
  | Rejected e =>
      refs w' = refs w /\
      trace w' = trace w ++ [Call deleteCogneeGraph [refs w selectedDocumentId];
                             Toast Error (DELETE_FAILED ++ detail_or_message e)]
  | Resolved _ =>
      refs w' executionResult = JNull /\
      refs w' graphData = JNull /\
      refs w' viewGraphData = JNull /\
      truthy (refs w' graphModalVisible) = false /\
      trace w' = trace w ++ [Call deleteCogneeGraph [refs w selectedDocumentId];
                             Toast Success GRAPH_DELETED]
  end.
Proof.
  intros Hans w'. subst w'. cbn [onOk].
  unfold try_catch, bind, read, await, toast, emit, when, CogneeTab.write, Eff.write.
  cbn [fst snd answers trace opened refs]. rewrite Hans.
  destruct a as [v|e]; cbn [fst snd answers trace opened refs name_beq].
  - destruct (truthy (refs w graphModalVisible)) eqn:V;
      cbn [fst snd answers trace opened refs name_beq ret];
      rewrite <- ?app_assoc; cbn [app]; repeat split; try reflexivity.
    exact V.
  - rewrite <- app_assoc. split; reflexivity.
Qed.

End MoreCogneeFacts.

(** ** More on removing a document from a knowledge base *)

Section MoreRemovalFacts.

Import KnowledgeBaseView.

Context {browser : SSE.Browser}.

Lemma guarded_call_begins (ref A : Type) (e : endpoint) (args : list json)
      (K : json -> Eff.M ref A) (H : js_error -> Eff.M ref A) (C : Eff.M ref unit) :
  (forall v, emits 0 (K v)) -> (forall err, emits 0 (H err)) -> emits 0 C ->
  forall w,
  exists more,
    trace (snd (finally (try_catch (bind (await e args) K) H) C w)) =
    trace w ++ Call e args :: more.
Proof.
  intros HK HH HC w. unfold finally, try_catch. unfold bind at 1. unfold await at 1.
  destruct (answers w) as [|[v|err] rest]; cbn [fst snd].
  - exists []. reflexivity.
  - match goal with |- context [K v ?w0] => set (w1 := w0) end.
    destruct (emits_extends w1 (HK v)) as [evs1 E1].
    destruct (K v w1) as [[a|e'|] w2]; cbn [snd] in E1.
    + destruct (emits_extends w2 HC) as [evs2 E2].
      cbn [snd]. rewrite E2, E1. subst w1. cbn [trace].
      eexists. repeat rewrite <- app_assoc. cbn [app]. reflexivity.
    + destruct (emits_extends w2 (HH e')) as [evs2 E2].
      destruct (H e' w2) as [[a|e''|] w3]; cbn [snd] in E2 |- *.
      * destruct (emits_extends w3 HC) as [evs3 E3].
        rewrite E3, E2, E1. subst w1. cbn [trace].
        eexists. repeat rewrite <- app_assoc. cbn [app]. reflexivity.
      * destruct (emits_extends w3 HC) as [evs3 E3].
        rewrite E3, E2, E1. subst w1. cbn [trace].
        eexists. repeat rewrite <- app_assoc. cbn [app]. reflexivity.
      * rewrite E2, E1. subst w1. cbn [trace].
        eexists. repeat rewrite <- app_assoc. cbn [app]. reflexivity.
    + cbn [snd]. rewrite E1. subst w1. cbn [trace].
      eexists. repeat rewrite <- app_assoc. cbn [app]. reflexivity.
  - match goal with |- context [H err ?w0] => set (w1 := w0) end.
    destruct (emits_extends w1 (HH err)) as [evs2 E2].
    destruct (H err w1) as [[a|e''|] w3]; cbn [snd] in E2 |- *.
    + destruct (emits_extends w3 HC) as [evs3 E3].
      rewrite E3, E2. subst w1. cbn [trace].
      eexists. repeat rewrite <- app_assoc. cbn [app]. reflexivity.
    + destruct (emits_extends w3 HC) as [evs3 E3].
      rewrite E3, E2. subst w1. cbn [trace].
      eexists. repeat rewrite <- app_assoc. cbn [app]. reflexivity.
    + rewrite E2. subst w1. cbn [trace].
      eexists. repeat rewrite <- app_assoc. cbn [app]. reflexivity.
Qed.

Lemma loadDocuments_begins (w : world) :
  truthy (refs w selectedKB) = true ->
  exists args more,
    trace (snd (loadDocuments w)) =
    trace w ++ Call getKnowledgeBaseDocuments args :: more.
Proof.
  intro Hkb. pose proof load_pages_emits as LP.
  unfold loadDocuments. unfold bind at 1. unfold read at 1. rewrite Hkb. cbn [negb].
  unfold bind at 1.
  assert (G : field "id" (refs w selectedKB) w
              = (Returned (get "id" (refs w selectedKB)), w)).
  { destruct (refs w selectedKB); try reflexivity. discriminate Hkb. }
  rewrite G. unfold bind at 1. cbn [KnowledgeBaseView.write Eff.write fst snd].
  match goal with
  | |- context [finally (try_catch ?body ?h) ?c ?w0] =>
      assert (E : exists args K,
                 (forall v, emits 0 (K v)) /\
                 body w0 = bind (await getKnowledgeBaseDocuments args) K w0);
      [| destruct E as [args [K [HK E]]];
         assert (F : finally (try_catch body h) c w0 =
                     finally (try_catch (bind (await getKnowledgeBaseDocuments args) K) h)
                             c w0)
           by (unfold finally, try_catch; rewrite E; reflexivity);
         rewrite F;
         destruct (@guarded_call_begins _ _ getKnowledgeBaseDocuments args K h c HK)
           with (w := w0) as [more Hmore];
         [intro; silent | silent |];
         exists args, more; rewrite Hmore; reflexivity ]
  end.
  unfold bind at 1. unfold read at 1.
  unfold bind at 1. unfold read at 1.
  unfold bind at 1. unfold read at 1.
  eexists. eexists. split; [|reflexivity].
  intro v. cbv beta. silent.
Qed.

(** X25: the removal of a document: when [deleteKnowledgeBaseDocument]
    is rejected, the error is logged and raised, no document list is
    requested and no ref other than [deletingDocumentId] changes; when it
    succeeds, the list is requested again right after the success toast;
    in both cases [deletingDocumentId] is [null] again when the callback
    has come to an end. *)
Theorem removal_outcomes
        (document : json) (w : world) (a : answer) (rest : list answer) :
  truthy (refs w selectedKB) = true ->
  document <> JNull ->
  answers w = a :: rest ->
  let w' := snd (onOk (RemoveDocument document) w) in
  let call := Call deleteKnowledgeBaseDocument
                   [undefined_as_null (get "id" (refs w selectedKB));
                    undefined_as_null (get "id" document)] in
  (fst (onOk (RemoveDocument document) w) <> Awaiting ->
   refs w' deletingDocumentId = JNull) /\
  match a with
  | Rejected e =>
      trace w' = trace w ++ [call; ConsoleError;
                             Toast Error (REMOVE_FAILED
                                          ++ or_else (message e) UNKNOWN_ERROR)] /\
      forall r, name_beq deletingDocumentId r = false -> refs w' r = refs w r
  | Resolved _ =>
      exists args more,
        trace w' = trace w ++ [call; Toast Success REMOVED;
                               Call getKnowledgeBaseDocuments args] ++ more
  end.
Proof.
  intros Hkb Hdoc Hans w' call.
  assert (F : field "id" document w = (Returned (get "id" document), w)).
  { destruct document; try reflexivity. contradiction Hdoc. reflexivity. }
  assert (G : forall w0 : world,
             field "id" (refs w selectedKB) w0
             = (Returned (get "id" (refs w selectedKB)), w0)).
  { intro w0. destruct (refs w selectedKB); try reflexivity. discriminate Hkb. }
  split.
  - assert (U : exists m w0,
               onOk (RemoveDocument document) w =
               finally m (write deletingDocumentId JNull) w0).
    { cbn [onOk]. unfold bind at 1. unfold read at 1. rewrite Hkb. cbn [negb].
      unfold bind at 1. rewrite F.
      unfold bind at 1. cbn [KnowledgeBaseView.write Eff.write fst snd].
      eexists. eexists. reflexivity. }
    destruct U as [m [w0 U]]. subst w'. rewrite U.
    intro H. rewrite (finally_settled _ _ _ H). reflexivity.
  - destruct a as [v|e].
    + subst w' call. cbn [onOk].
      unfold bind at 1. unfold read at 1. rewrite Hkb. cbn [negb].
      unfold bind at 1. rewrite F.
      unfold bind at 1. cbn [KnowledgeBaseView.write Eff.write fst snd].
      unfold finally at 1. unfold try_catch at 1. unfold bind at 1.
      rewrite G.
      unfold bind at 1. unfold await at 1.
      cbn [fst snd answers trace opened refs]. rewrite Hans.
      cbn [fst snd answers trace opened refs].
      unfold bind at 1. unfold toast at 1, emit at 1.
      cbn [fst snd answers trace opened refs].
      match goal with
      | |- context [loadDocuments ?w0] =>
          destruct (@loadDocuments_begins w0 Hkb) as [args [more L]];
          destruct (loadDocuments w0) as [[u|e'|] w1]
      end; cbn [fst snd] in *.
      * exists args, more.
        cbn [KnowledgeBaseView.write Eff.write fst snd trace]. rewrite L.
        cbn [trace]. repeat rewrite <- app_assoc. reflexivity.
      * exists args. eexists.
        unfold bind, toast, emit, KnowledgeBaseView.write, Eff.write.
        cbn [fst snd trace answers opened refs]. rewrite L.
        cbn [trace]. repeat rewrite <- app_assoc. cbn [app]. reflexivity.
      * exists args, more. rewrite L.
        cbn [trace]. repeat rewrite <- app_assoc. reflexivity.
    + assert (E : exists st,
                 w' = mkWorld rest
                        (trace w ++ [call; ConsoleError;
                                     Toast Error (REMOVE_FAILED
                                                  ++ or_else (message e) UNKNOWN_ERROR)])
                        (opened w) st /\
                 forall r, name_beq deletingDocumentId r = false -> st r = refs w r).
      { subst w' call. cbn [onOk].
        unfold bind at 1. unfold read at 1. rewrite Hkb. cbn [negb].
        unfold bind at 1. rewrite F.
        unfold bind at 1. cbn [KnowledgeBaseView.write Eff.write fst snd].
        unfold finally at 1. unfold try_catch at 1. unfold bind at 1.
        rewrite G.
        unfold bind at 1. unfold await at 1.
        cbn [fst snd answers trace opened refs]. rewrite Hans.
        unfold bind, toast, emit, KnowledgeBaseView.write, Eff.write.
        cbn [fst snd answers trace opened refs name_beq].
        repeat rewrite <- app_assoc. cbn [app].
        eexists. split; [reflexivity|].
        intros r Hr. cbn beta. rewrite Hr. reflexivity. }
      destruct E as [st [-> Hst]]. cbn [trace refs]. split; [reflexivity | exact Hst].
Qed.

End MoreRemovalFacts.

Section MoreCogneeRuns.

Import CogneeTab.

Local Notation B := ReferenceBrowser.browser.

Lemma cognee_busy_flags_are_released_witness :
  refs (snd (loadChunksCogneeMapping MoreSamples.cognee_failing_world))
       chunksCogneeMapping
  = JObj [(lit "mappings", JArr [])].
Proof.
  exact (proj2 (proj2 (@cognee_busy_flags_are_released B Samples.cognee_prepare))
               MoreSamples.cognee_failing_world
               (mkError (lit "Network Error") []) [] eq_refl eq_refl).
Defined.

Lemma cognee_delete_outcomes_witness :
  refs (snd (onOk (browser := B) Samples.cognee_prepare DeleteCognee
                  MoreSamples.cognee_failing_world))
  = refs MoreSamples.cognee_failing_world.
Proof.
  exact (proj1 (@cognee_delete_outcomes B Samples.cognee_prepare
                  MoreSamples.cognee_failing_world
                  (Rejected (mkError (lit "Network Error") [])) [] eq_refl)).
Defined.

End MoreCogneeRuns.

Section MoreRemovalRuns.

Import KnowledgeBaseView.

Lemma removal_outcomes_witness :
  trace (snd (onOk (RemoveDocument MoreSamples.document_5) MoreSamples.kb_failing_world))
  = [Call deleteKnowledgeBaseDocument [JNum 1; JNum 5]; ConsoleError;
     Toast Error (REMOVE_FAILED ++ lit "Network Error")].
Proof.
  assert (Hd : MoreSamples.document_5 <> JNull) by discriminate.
  exact (proj1 (proj2 (@removal_outcomes MoreSamples.document_5
                         MoreSamples.kb_failing_world
                         (Rejected (mkError (lit "Network Error") [])) []
                         eq_refl Hd eq_refl))).
Defined.

End MoreRemovalRuns.

(** ** Requests for a graph *)

Section AddsFacts.

Import GraphRequests.

Variable ref : Type.
Variable P : effect -> Prop.

Lemma extends_with_refl (w : world ref) : extends_with P w w.
Proof. exists []. rewrite app_nil_r. split; [reflexivity | constructor]. Qed.

Lemma extends_with_trans (w1 w2 w3 : world ref) :
  extends_with P w1 w2 -> extends_with P w2 w3 -> extends_with P w1 w3.
Proof.
  intros [e1 [E1 F1]] [e2 [E2 F2]]. exists (e1 ++ e2). split.
  - rewrite E2, E1, app_assoc. reflexivity.
  - apply Forall_app. split; assumption.
Qed.

Lemma extends_with_one (w : world ref) (ef : effect) a o st :
  P ef -> extends_with P w (mkWorld a (trace w ++ [ef]) o st).
Proof. intro H. exists [ef]. split; [reflexivity | repeat constructor; exact H]. Qed.

Lemma extends_with_same (w : world ref) a o st :
  extends_with P w (mkWorld a (trace w) o st).
Proof. exists []. cbn. rewrite app_nil_r. split; [reflexivity | constructor]. Qed.

Lemma adds_ret (A : Type) (a : A) : adds P (ret (ref := ref) a).
Proof. intro w. apply extends_with_refl. Qed.

Lemma adds_throw (A : Type) (e : js_error) : adds P (throw (ref := ref) (A := A) e).
Proof. intro w. apply extends_with_refl. Qed.

Lemma adds_read (r : ref) : adds P (read r).
Proof. intro w. apply extends_with_refl. Qed.

Lemma adds_snapshot : adds P (snapshot (ref := ref)).
Proof. intro w. apply extends_with_refl. Qed.

Lemma adds_write (eqb : ref -> ref -> bool) (r : ref) (v : json) :
  adds P (Eff.write eqb r v).
Proof. intro w. apply extends_with_same. Qed.

Lemma adds_destroyAll : adds P (destroyAll (ref := ref)).
Proof. intro w. apply extends_with_same. Qed.

Lemma adds_emit (ef : effect) : P ef -> adds P (emit (ref := ref) ef).
Proof. intros H w. apply extends_with_one. exact H. Qed.

Lemma adds_toast (l : level) (text : jsstring) :
  P (Toast l text) -> adds P (toast (ref := ref) l text).
Proof. apply adds_emit. Qed.

Lemma adds_confirm (d : dialog) : P (ConfirmShown d) -> adds P (confirm (ref := ref) d).
Proof. intros H w. apply extends_with_one. exact H. Qed.

Lemma adds_await (e : endpoint) (args : list json) :
  P (Call e args) -> adds P (await (ref := ref) e args).
Proof.
  intros H w. unfold await.
  destruct (answers w) as [|[v|err] rest]; cbn [snd]; apply extends_with_one; exact H.
Qed.

Lemma adds_field (k : string) (v : json) : adds P (field (ref := ref) k v).
Proof. destruct v; cbn [field]; first [apply adds_ret | apply adds_throw]. Qed.

Lemma adds_map_array (f : json -> json) (v : json) : adds P (map_array (ref := ref) f v).
Proof.
  destruct v; cbn [map_array]; try apply adds_throw.
  destruct (existsb _ _); [apply adds_throw | apply adds_ret].
Qed.

Lemma adds_bind (A B : Type) (m : Eff.M ref A) (f : A -> Eff.M ref B) :
  adds P m -> (forall a, adds P (f a)) -> adds P (bind m f).
Proof.
  intros Hm Hf w. unfold bind. specialize (Hm w).
  destruct (m w) as [[a|e|] w']; cbn [snd] in *; try exact Hm.
  eapply extends_with_trans; [exact Hm | apply Hf].
Qed.

Lemma adds_try (A : Type) (m : Eff.M ref A) (h : js_error -> Eff.M ref A) :
  adds P m -> (forall e, adds P (h e)) -> adds P (try_catch m h).
Proof.
  intros Hm Hh w. unfold try_catch. specialize (Hm w).
  destruct (m w) as [[a|e|] w']; cbn [snd] in *; try exact Hm.
  eapply extends_with_trans; [exact Hm | apply Hh].
Qed.

Lemma adds_finally (A : Type) (m : Eff.M ref A) (cleanup : Eff.M ref unit) :
  adds P m -> adds P cleanup -> adds P (finally m cleanup).
Proof.
  intros Hm Hc w. unfold finally. specialize (Hm w).
  destruct (m w) as [[a|e|] w']; cbn [snd] in *; try exact Hm;
    (eapply extends_with_trans; [exact Hm | apply Hc]).
Qed.

Lemma adds_spawn (m : Eff.M ref unit) : adds P m -> adds P (spawn m).
Proof. intros Hm w. exact (Hm w). Qed.

Lemma adds_then_run (A : Type) (first : Eff.M ref A) (second : Eff.M ref unit) :
  adds P first -> adds P second -> adds P (then_run first second).
Proof.
  intros Hf Hs w. unfold then_run. specialize (Hf w).
  destruct (first w) as [o w']; cbn [snd] in *.
  eapply extends_with_trans; [exact Hf | apply Hs].
Qed.

Lemma adds_request (e : endpoint) (args : list json) :
  P (Call e args) -> adds P (request (ref := ref) e args).
Proof. apply adds_emit. Qed.

Lemma adds_reply : adds P (reply (ref := ref)).
Proof.
  intro w. unfold reply.
  destruct (answers w) as [|[v|err] rest]; cbn [snd];
    first [apply extends_with_refl | apply extends_with_same].
Qed.

Lemma adds_interact (onOk onCancel : dialog -> Eff.M ref unit) :
  P ChoseOk -> P ChoseCancel ->
  (forall d, adds P (onOk d)) -> (forall d, adds P (onCancel d)) ->
  forall choices w, extends_with P w (interact onOk onCancel choices w).
Proof.
  intros Pok Pcancel Hok Hcancel.
  induction choices as [|c rest IH]; intro w; cbn [interact].
  - apply extends_with_refl.
  - destruct (opened w) as [|d ds]; [apply extends_with_refl|].
    destruct c.
    + eapply extends_with_trans; [|apply IH].
      eapply extends_with_trans; [|apply Hok].
      apply extends_with_one. exact Pok.
    + eapply extends_with_trans; [|apply IH].
      eapply extends_with_trans; [|apply Hcancel].
      apply extends_with_one. exact Pcancel.
Qed.

Lemma adds_interaction (handler : Eff.M ref unit)
      (onOk onCancel : dialog -> Eff.M ref unit) :
  P ChoseOk -> P ChoseCancel ->
  adds P handler ->
  (forall d, adds P (onOk d)) -> (forall d, adds P (onCancel d)) ->
  forall choices w, extends_with P w (interaction handler onOk onCancel choices w).
Proof.
  intros Pok Pcancel Hh Hok Hcancel choices w. unfold interaction.
  eapply extends_with_trans; [apply Hh | apply adds_interact; assumption].
Qed.

End AddsFacts.

Ltac named :=
  cbn [GraphRequests.names_its_graph];
  first [exact I | eexists; split; [reflexivity | assumption]].

Ltac adding_step :=
  match goal with
  | H : GraphRequests.adds _ ?m |- GraphRequests.adds _ ?m => exact H
  | H : forall x, GraphRequests.adds _ (?f x) |- GraphRequests.adds _ (?f _) => apply H
  | H : forall x y, GraphRequests.adds _ (?f x y) |- GraphRequests.adds _ (?f _ _) =>
      apply H
  | H : forall x y z, GraphRequests.adds _ (?f x y z) |- GraphRequests.adds _ (?f _ _ _) =>
      apply H
  | |- GraphRequests.adds _ (bind _ _) => apply adds_bind; [|intro]
  | |- GraphRequests.adds _ (try_catch _ _) => apply adds_try; [|intro]
  | |- GraphRequests.adds _ (finally _ _) => apply adds_finally
  | |- GraphRequests.adds _ (spawn _) => apply adds_spawn
  | |- GraphRequests.adds _ (then_run _ _) => apply adds_then_run
  | |- GraphRequests.adds _ (request _ _) => apply adds_request; named
  | |- GraphRequests.adds _ reply => apply adds_reply
  | |- GraphRequests.adds _ (when ?c _) =>
      let E := fresh "E" in destruct c eqn:E; unfold when
  | |- GraphRequests.adds _ (ret _) => apply adds_ret
  | |- GraphRequests.adds _ (throw _) => apply adds_throw
  | |- GraphRequests.adds _ (read _) => apply adds_read
  | |- GraphRequests.adds _ snapshot => apply adds_snapshot
  | |- GraphRequests.adds _ (Eff.write _ _ _) => apply adds_write
  | |- GraphRequests.adds _ (GraphitiTab.write _ _) => apply adds_write
  | |- GraphRequests.adds _ (CogneeTab.write _ _) => apply adds_write
  | |- GraphRequests.adds _ (GraphRequests.write _ _) => apply adds_write
  | |- GraphRequests.adds _ destroyAll => apply adds_destroyAll
  | |- GraphRequests.adds _ (toast _ _) => apply adds_toast; named
  | |- GraphRequests.adds _ (emit _) => apply adds_emit; named
  | |- GraphRequests.adds _ (confirm _) => apply adds_confirm; named
  | |- GraphRequests.adds _ (field _ _) => apply adds_field
  | |- GraphRequests.adds _ (map_array _ _) => apply adds_map_array
  | |- GraphRequests.adds _ (await _ _) => apply adds_await; named
  | |- GraphRequests.adds _ (if ?c then _ else _) =>
      let E := fresh "E" in destruct c eqn:E
  | |- GraphRequests.adds _ (match ?x with _ => _ end) => destruct x
  | |- GraphRequests.adds _ (let _ := _ in _) => cbv zeta
  end.

Ltac adding := repeat adding_step.

Section GraphitiGraphRequests.

Import GraphitiTab GraphRequests.

Context {browser : SSE.Browser}.

Lemma fetchGraphData_adds (groupId : json) :
  truthy groupId = true -> adds names_its_graph (fetchGraphData groupId).
Proof. intro T. unfold fetchGraphData. adding. Qed.

Lemma load_graph_of_adds (res : json) : adds names_its_graph (load_graph_of res).
Proof.
  unfold load_graph_of.
  destruct res; cbn [field]; intro w; unfold bind, ret, throw; cbn [snd];
    try apply extends_with_refl;
    (destruct (truthy_opt _) eqn:T; [|apply extends_with_refl]);
    apply fetchGraphData_adds;
    (destruct (get _ _) as [g|]; [exact T | discriminate T]).
Qed.

Lemma reset_executing_adds : adds names_its_graph reset_executing.
Proof. unfold reset_executing. adding. Qed.

Lemma clear_graph_adds : adds names_its_graph clear_graph.
Proof. unfold clear_graph. adding. Qed.

Lemma graphiti_after_build_adds (parse_mode template_config res : json) :
  adds names_its_graph (after_build parse_mode template_config res).
Proof.
  pose proof load_graph_of_adds. pose proof reset_executing_adds.
  unfold after_build. adding.
Qed.

Lemma executeGraphitiWithMode_adds (parse_mode template_config : json) :
  adds names_its_graph (executeGraphitiWithMode parse_mode template_config).
Proof.
  pose proof graphiti_after_build_adds. pose proof reset_executing_adds.
  unfold executeGraphitiWithMode. adding.
Qed.

Lemma handleLoadEpisodeBody_adds : adds names_its_graph handleLoadEpisodeBody.
Proof. unfold handleLoadEpisodeBody. adding. Qed.

Lemma graphiti_handler_adds (a : action) : adds names_its_graph (handler a).
Proof.
  pose proof executeGraphitiWithMode_adds. pose proof handleLoadEpisodeBody_adds.
  destruct a; cbn [handler];
    unfold handleDocumentChange, episode_body_loaded, result_checked,
      handleExecuteGraphiti, handleDeleteGraph; adding.
Qed.

Lemma graphiti_onOk_adds (d : dialog) : adds names_its_graph (onOk d).
Proof.
  pose proof executeGraphitiWithMode_adds. pose proof clear_graph_adds.
  pose proof reset_executing_adds.
  destruct d; cbn [onOk]; adding.
Qed.

Lemma graphiti_onCancel_adds (d : dialog) : adds names_its_graph (onCancel d).
Proof.
  pose proof reset_executing_adds.
  destruct d; cbn [onCancel]; adding.
Qed.

End GraphitiGraphRequests.

Section LoadGraph.

Import GraphRequests GraphitiTab.

Context {browser : SSE.Browser}.

(** With a result that has a group id in [executionResult], the graph of
    that group id is asked for. *)
Lemma load_known_graph_adds (w : Eff.world name) :
  truthy_opt (get "group_id" (refs w executionResult)) = true ->
  extends_with names_its_graph w
    (snd ((current <- read executionResult ;;
           group_id <- field "group_id" current ;;
           fetchGraphData (undefined_as_null group_id))%eff w)).
Proof.
  intro T. unfold bind at 1. unfold read at 1.
  destruct (refs w executionResult) as [|b|q|s|items|fields] eqn:R;
    try discriminate T.
  cbn [field]. unfold bind at 1, ret at 1.
  apply fetchGraphData_adds.
  destruct (get "group_id" (JObj fields)) as [g|]; [exact T | discriminate T].
Qed.

Lemma handleLoadGraph_adds : adds names_its_graph handleLoadGraph.
Proof.
  intro w. unfold handleLoadGraph.
  unfold bind at 1. unfold read at 1.
  destruct (truthy (refs w selectedDocumentId)) eqn:Tid; cbn [negb].
  2:{ apply extends_with_one. exact I. }
  unfold bind at 1. unfold read at 1.
  destruct (truthy_opt (get "group_id" (refs w executionResult))) eqn:Tg.
  - unfold bind at 1. unfold ret at 1. apply load_known_graph_adds. exact Tg.
  - unfold bind at 1. unfold try_catch at 1. unfold bind at 1. unfold await at 1.
    destruct (answers w) as [|[res|err] rest] eqn:Hans.
    + apply extends_with_one. exact I.
    + set (w1 := mkWorld rest (trace w ++ [Call getGraphitiResult [refs w selectedDocumentId]])
                         (opened w) (refs w)).
      assert (S1 : extends_with names_its_graph w w1)
        by (apply extends_with_one; exact I).
      assert (Fail : extends_with names_its_graph w
                (snd ((toast Warning NOT_PROCESSED_LOAD ;; ret false)%eff w1)) /\
              forall e,
                extends_with names_its_graph w
                  (snd ((toast Error (GET_RESULT_FAILED ++ detail_or_message e) ;;
                         ret false)%eff w1))).
      { split; [|intro e]; (eapply extends_with_trans; [exact S1|]);
          unfold bind, toast, emit, ret; cbn [snd fst];
          apply extends_with_one; exact I. }
      destruct Fail as [Fw Fe].
      destruct res as [|b|q|s|items|fields]; cbn [field get truthy_opt];
        rewrite ?Bool.andb_false_r;
        unfold bind at 1; unfold bind at 1;
        try (unfold throw at 1; specialize (Fe TYPE_ERROR);
             unfold bind, toast, emit, ret in Fe |- *; exact Fe);
        try (unfold ret at 1;
             unfold bind, toast, emit, ret in Fw |- *; exact Fw).
      unfold ret at 1.
      destruct (truthy_opt (lookup (lit "success") fields)
                && truthy_opt (lookup (lit "group_id") fields)) eqn:C.
      * apply Bool.andb_true_iff in C. destruct C as [_ Cg].
        unfold bind at 1. unfold GraphitiTab.write at 1, Eff.write at 1.
        unfold ret at 1.
        eapply extends_with_trans; [exact S1|].
        eapply extends_with_trans; [|apply load_known_graph_adds].
        -- apply extends_with_same.
        -- cbn [refs name_beq get]. exact Cg.
      * unfold bind, toast, emit, ret in Fw |- *; exact Fw.
    + unfold bind, toast, emit, ret; cbn [snd fst answers trace opened refs].
      eexists. cbn [trace]. rewrite <- app_assoc.
      split; [reflexivity | repeat constructor].
Qed.

Lemma handleViewGraphModal_adds : adds names_its_graph handleViewGraphModal.
Proof.
  unfold handleViewGraphModal. adding.
  apply adds_await. cbn [names_its_graph]. eexists. split; [reflexivity|].
  apply Bool.negb_false_iff. assumption.
Qed.

End LoadGraph.

Section CogneeGraphRequests.

Import GraphRequests CogneeTab.

Context {browser : SSE.Browser}.

Variable prepare : Eff.store name -> list (level * jsstring) * option json.

Lemma notify_adds (notices : list (level * jsstring)) :
  adds names_its_graph (notify notices).
Proof.
  induction notices as [|n rest IH]; cbn [notify fold_right].
  - apply adds_ret.
  - fold (notify rest). adding.
Qed.

Lemma cognee_reset_executing_adds : adds names_its_graph reset_executing.
Proof. unfold reset_executing. adding. Qed.

Lemma loadChunksCogneeMapping_adds : adds names_its_graph loadChunksCogneeMapping.
Proof. unfold loadChunksCogneeMapping. adding. Qed.

Lemma cognee_after_build_adds (skipConfirmation : bool) (result : json) :
  adds names_its_graph (after_build skipConfirmation result).
Proof.
  pose proof cognee_reset_executing_adds. pose proof loadChunksCogneeMapping_adds.
  unfold after_build. adding.
Qed.

Lemma cognee_handleExecute_adds (skipConfirmation : bool) :
  adds names_its_graph (handleExecute prepare skipConfirmation).
Proof.
  pose proof cognee_reset_executing_adds. pose proof cognee_after_build_adds.
  pose proof notify_adds.
  unfold handleExecute. adding.
Qed.

Lemma cognee_handler_adds (a : action) : adds names_its_graph (handler prepare a).
Proof.
  pose proof cognee_handleExecute_adds.
  destruct a; cbn [handler]; [apply cognee_handleExecute_adds|].
  unfold handleDeleteGraph. adding.
Qed.

Lemma cognee_onOk_adds (d : dialog) : adds names_its_graph (onOk prepare d).
Proof.
  pose proof cognee_handleExecute_adds. pose proof cognee_reset_executing_adds.
  destruct d; cbn [onOk]; adding.
Qed.

Lemma cognee_onCancel_adds (d : dialog) : adds names_its_graph (onCancel d).
Proof.
  pose proof cognee_reset_executing_adds.
  destruct d; cbn [onCancel]; adding.
Qed.

End CogneeGraphRequests.

Section GraphRequestsTheorem.

Import GraphRequests.

Context {browser : SSE.Browser}.

Variable prepare : Eff.store CogneeTab.name -> list (level * jsstring) * option json.

(** X26: Every request for a graph that the two tabs make names the graph:
    whatever the refs, the backend answers and the choices in the dialogs,
    what a click of the Graphiti tab, a click on its load-graph button, a
    click of the Cognee tab or on its view-graph button adds to the trace
    holds no call of getGraphitiGraph or getCogneeGraph whose argument is
    null, undefined, empty or otherwise falsy. *)
Theorem graph_requests_name_their_graph :
  (forall a choices w,
      extends_with names_its_graph w
        (interaction (GraphitiTab.handler a) GraphitiTab.onOk GraphitiTab.onCancel
                     choices w)) /\
  (forall choices w,
      extends_with names_its_graph w
        (interaction handleLoadGraph GraphitiTab.onOk GraphitiTab.onCancel choices w)) /\
  (forall a choices w,
      extends_with names_its_graph w
        (interaction (CogneeTab.handler prepare a) (CogneeTab.onOk prepare)
                     CogneeTab.onCancel choices w)) /\
  (forall w, extends_with names_its_graph w (snd (handleViewGraphModal w))).
Proof.
  repeat split.
  - intros a choices w. apply adds_interaction; try exact I.
    + apply graphiti_handler_adds.
    + apply graphiti_onOk_adds.
    + apply graphiti_onCancel_adds.
  - intros choices w. apply adds_interaction; try exact I.
    + apply handleLoadGraph_adds.
    + apply graphiti_onOk_adds.
    + apply graphiti_onCancel_adds.
  - intros a choices w. apply adds_interaction; try exact I.
    + apply cognee_handler_adds.
    + apply cognee_onOk_adds.
    + apply cognee_onCancel_adds.
  - apply handleViewGraphModal_adds.
Qed.

End GraphRequestsTheorem.
